(** * OmniDimensionService: a shallow embedding of
      backend/src/services/omnidimension_service.py

    The service wraps a third-party voice-agent client.  Its methods read and
    update three pieces of state: the fields of [self] (agent cache, call
    history, retry settings), the outside world (provider, clock) and, as a
    ghost component used only to state properties, the sequence of provider
    invocations and sleeps performed so far.

    Python values are dynamically typed, so every argument that the source
    does not convert is a [value]; exceptions are results [Raise e] and never
    roll the state back, exactly as in Python.  A [print] call changes
    nothing the service can observe, but it raises [UnicodeEncodeError] when
    standard output cannot encode its text, and that ends the [try] block or
    the handler it stands in.  Every [print] of the class is therefore part
    of the model, but for three whose text is safe whatever the arguments:
    the two that print [json.dumps(agent_config, indent=2)], which is ASCII,
    and the one that prints a response body inside a [try] of its own. *)

From Stdlib Require Import ZArith QArith Qcanon Lia Ascii String.
From stdpp Require Import gmap strings list fin_maps numbers countable pretty.
Set Warnings "-register-all".
Local Open Scope Z_scope.
Local Open Scope stdpp_scope.
Local Open Scope list_scope.

(** ** Python data *)

(** A Python [str] is a sequence of Unicode code points. *)
Abbreviation pystr := (list N).

(** String literals of the source, all ASCII. *)
Definition py (s : string) : pystr :=
  (λ a, N_of_ascii a) <$> String.list_ascii_of_string s.

(** The values exchanged with callers and with the provider.  Dictionaries
    have string keys, as every dictionary literal and every JSON payload in
    this module has.  A float is carried as the exact rational it denotes
    (NaN and the infinities are outside the model); it only occurs as the
    literal [0.0] of the agent configuration. *)
Inductive value :=
| VNone
| VBool (b : bool)
| VInt (z : Z)
| VFloat (q : Qc)
| VStr (s : list N)
| VList (l : list value)
| VDict (d : gmap (list N) value).

(** [bool(v)]: the truth value tested by [if], [not], [or] and [and]. *)
Definition truthy (v : value) : bool :=
  match v with
  | VNone => false
  | VBool b => b
  | VInt z => negb (z =? 0)
  | VFloat q => negb (Qnum (this q) =? 0)
  | VStr s => match s with [] => false | _ => true end
  | VList l => match l with [] => false | _ => true end
  | VDict d => negb (bool_decide (size d = 0%nat))
  end.

(** [a or b] *)
Definition py_or (a b : value) : value := if truthy a then a else b.

(** Keys of the agent cache.  [hash_key v] is the key under which a Python
    [dict] files [v]: [True == 1] and [1.0 == 1] share a slot, lists and
    dictionaries are unhashable. *)
Inductive key :=
| KNone
| KNum (z : Z)
| KFrac (q : Qc)
| KStr (s : pystr).

Definition hash_key (v : value) : option key :=
  match v with
  | VNone => Some KNone
  | VBool b => Some (KNum (if b then 1 else 0))
  | VInt z => Some (KNum z)
  | VFloat q =>
      Some (if (Zpos (Qden (this q)) =? 1) then KNum (Qnum (this q)) else KFrac q)
  | VStr s => Some (KStr s)
  | VList _ | VDict _ => None
  end.

#[global] Instance key_eq_dec : EqDecision key.
Proof. solve_decision. Defined.

Definition key_to_sum (k : key) : unit + Z + Qc + pystr :=
  match k with
  | KNone => inl (inl (inl tt))
  | KNum z => inl (inl (inr z))
  | KFrac q => inl (inr q)
  | KStr s => inr s
  end.

Definition key_of_sum (x : unit + Z + Qc + pystr) : key :=
  match x with
  | inl (inl (inl _)) => KNone
  | inl (inl (inr z)) => KNum z
  | inl (inr q) => KFrac q
  | inr s => KStr s
  end.

#[global] Instance key_countable : Countable key.
Proof.
  refine (inj_countable' key_to_sum key_of_sum _).
  intros []; reflexivity.
Defined.

(** ** Exceptions and results *)

Inductive exn_kind :=
| ValueError
| TypeError
| AttributeError
| KeyError
| UnicodeEncodeError
| ProviderError (code : N).

(** An exception object: its class and [str(e)].  Only subclasses of
    [Exception] are modelled; [ProviderError] stands for whatever the client
    library raises. *)
Record exn := Exn { exn_kind_of : exn_kind; exn_str : pystr }.

Inductive res (A : Type) :=
| Ok (a : A)
| Raise (e : exn).
Arguments Ok {A} a.
Arguments Raise {A} e.

(** ** The client library *)

(** The five client methods the service uses. *)
Inductive api_method :=
| agent_create
| agent_get_agent
| call_dispatch_call
| call_get_call_log
| call_get_call_logs.

(** What lies outside the module: the provider behind the client, the clock,
    and the Python built-ins whose tables are not part of this repository. *)
Record Env := {
  World : Type;
  (** a client method applied to its positional and keyword arguments *)
  api : api_method → list value → gmap pystr value → World → res value * World;
  (** [int(time.time())] *)
  time_time : World → Z * World;
  (** [datetime.now(UTC)], in seconds since the epoch *)
  datetime_now : World → Z * World;
  (** [time.sleep(seconds)] for [seconds >= 0] *)
  time_sleep : Z → World → World;
  (** [dt.strftime(fmt)] *)
  strftime : pystr → Z → pystr;
  (** [str(v)] for a value that is not a string *)
  repr : value → pystr;
  (** [str.isdigit] on a code point beyond ASCII *)
  isdigit_unicode : N → bool;
  (** [Client(api_key)], when the client library was imported; the object
      it returns counts as true *)
  Client : option (value → res unit);
  (** whether the encoding of [sys.stdout] has a code point beyond ASCII *)
  stdout_encodes : N → bool;
  (** the text of an integer consists of ASCII characters *)
  repr_int_ascii : ∀ z, forallb (λ c, (c <? 128)%N) (repr (VInt z)) = true;
  (** [type(e).__name__] for an exception of the client library *)
  provider_class_name : N → pystr;
  (** for an exception of the client library that has a [response]
      attribute: [getattr(response, 'status_code', 'N/A')] and
      [getattr(response, 'headers', 'N/A')] *)
  http_response : exn → option (value * value);
}.

(** Ghost record of what a run did to the outside. *)
Inductive event :=
| EvApi (m : api_method) (args : list value) (kwargs : gmap pystr value)
        (r : res value)
| EvSleep (seconds : Z).

(** The attributes of a service object. *)
Record service := {
  api_key : value;
  client : bool;
  mock_mode : bool;
  test_phone : pystr;
  agents_cache : gmap key value;
  call_history : list value;
  max_retries : Z;
  retry_delay : Z;
}.

Record state (E : Env) := {
  self : service;
  world : World E;
  trace : list event;
}.
Arguments self {E} s.
Arguments world {E} s.
Arguments trace {E} s.

(** ** Computations: state passing with exceptions *)

Definition M (E : Env) (A : Type) : Type := state E → res A * state E.

Definition ret {E : Env} {A} (a : A) : M E A := λ st, (Ok a, st).

Definition bind {E : Env} {A B} (c : M E A) (k : A → M E B) : M E B :=
  λ st, match c st with
        | (Ok a, st') => k a st'
        | (Raise e, st') => (Raise e, st')
        end.

Definition raise {E : Env} {A} (e : exn) : M E A := λ st, (Raise e, st).

(** [try: c  except Exception as e: h e] *)
Definition try_except {E : Env} {A} (c : M E A) (h : exn → M E A) : M E A :=
  λ st, match c st with
        | (Ok a, st') => (Ok a, st')
        | (Raise e, st') => h e st'
        end.

(** A pure step that may raise. *)
Definition lift {E : Env} {A} (r : res A) : M E A := λ st, (r, st).

Declare Scope py_scope.
Delimit Scope py_scope with py.
Notation "'let*' x ':=' c 'in' k" := (bind c (λ x, k))
  (at level 10, x pattern, c at level 100, k at level 200) : py_scope.
Local Open Scope py_scope.

Definition get_self {E : Env} : M E service := λ st, (Ok (self st), st).

Definition set_self {E : Env} (s : service) : M E unit :=
  λ st, (Ok tt, {| self := s; world := world st; trace := trace st |}).

(** Reading a clock lets time pass. *)
Definition read_clock {E : Env} (clock : World E → Z * World E) : M E Z :=
  λ st, let (t, w) := clock (world st) in
        (Ok t, {| self := self st; world := w; trace := trace st |}).

(** One invocation of a client method. *)
Definition invoke {E : Env} (m : api_method) (args : list value)
    (kwargs : gmap pystr value) : M E value :=
  λ st, let (r, w) := api E m args kwargs (world st) in
        (r, {| self := self st; world := w;
               trace := trace st ++ [EvApi m args kwargs r] |}).

(** [time.sleep(seconds)]; a negative length is refused. *)
Definition sleep {E : Env} (seconds : Z) : M E unit :=
  λ st, if seconds <? 0
        then (Raise (Exn ValueError (py "sleep length must be non-negative")), st)
        else (Ok tt, {| self := self st; world := time_sleep E seconds (world st);
                        trace := trace st ++ [EvSleep seconds] |}).

(** ** Standard output *)

(** ASCII is part of every encoding a terminal or a pipe uses. *)
Definition encodable (E : Env) (c : N) : bool :=
  (c <? 128)%N || stdout_encodes E c.

Definition printable (E : Env) (text : pystr) : bool :=
  forallb (encodable E) text.

(** [print(text)].  What is written cannot be read back by the service, so
    the only effect kept is the exception raised for a text that standard
    output cannot encode; its message names the codec and the position and
    is abbreviated here. *)
Definition print {E : Env} (text : pystr) : M E unit :=
  λ st, if printable E text then (Ok tt, st)
        else (Raise (Exn UnicodeEncodeError (py "codec can't encode character")),
              st).

(** ** Dictionary access *)

(** [type(v).__name__] *)
Definition type_name (v : value) : pystr :=
  match v with
  | VNone => py "NoneType"
  | VBool _ => py "bool"
  | VInt _ => py "int"
  | VFloat _ => py "float"
  | VStr _ => py "str"
  | VList _ => py "list"
  | VDict _ => py "dict"
  end.

(** The message of the [AttributeError] for a method a value does not
    have. *)
Definition no_attribute (v : value) (name : pystr) : exn :=
  Exn AttributeError
    (py "'" ++ type_name v ++ py "' object has no attribute '" ++ name ++ py "'").

(** [v.get(k, default)] *)
Definition dict_get (v : value) (k : pystr) (default : value) : res value :=
  match v with
  | VDict d => Ok (match d !! k with Some x => x | None => default end)
  | _ => Raise (no_attribute v (py "get"))
  end.

(** [v[k]] for a string [k] *)
Definition getitem (v : value) (k : pystr) : res value :=
  match v with
  | VDict d => match d !! k with
               | Some x => Ok x
               | None => Raise (Exn KeyError k)
               end
  | _ => Raise (Exn TypeError (py "indices must be integers"))
  end.

(** [str(v)], the conversion applied by an f-string field. *)
Definition str (E : Env) (v : value) : pystr :=
  match v with
  | VStr s => s
  | _ => repr E v
  end.

(** [f"{type(v)}"] *)
Definition type_repr (v : value) : pystr :=
  py "<class '" ++ type_name v ++ py "'>".

(** [type(e).__name__] *)
Definition class_name (E : Env) (e : exn) : pystr :=
  match exn_kind_of e with
  | ValueError => py "ValueError"
  | TypeError => py "TypeError"
  | AttributeError => py "AttributeError"
  | KeyError => py "KeyError"
  | UnicodeEncodeError => py "UnicodeEncodeError"
  | ProviderError code => provider_class_name E code
  end.

(** [e.response] when [hasattr(e, 'response')]; the built-in exceptions
    have no such attribute. *)
Definition response_attr (E : Env) (e : exn) : option (value * value) :=
  match exn_kind_of e with
  | ProviderError _ => http_response E e
  | _ => None
  end.

(** ** Construction *)

(** The default of the [api_key] parameter of the constructor. *)
Definition default_api_key : pystr :=
  py "Zxw_8n3uvfGKhHMHv9jZwu5z0FncESPNnMjZC0R14J0".

(** [os.getenv(name)] *)
Definition getenv (environ : gmap pystr pystr) (name : pystr) : value :=
  match environ !! name with
  | Some s => VStr s
  | None => VNone
  end.

(** [OmniDimensionService(...)].  [arg] is [None] when the caller gives no
    argument, so that the parameter takes its default, and [Some v] when the
    caller passes [v] (which may be Python's [None]). *)
Definition __init__ (E : Env) (arg : option value)
    (environ : gmap pystr pystr) : res service :=
  let api_key_param :=
    match arg with
    | Some v => v
    | None => VStr default_api_key
    end in
  let key := py_or api_key_param (getenv environ (py "OMNIDIMENSION_API_KEY")) in
  if negb (truthy key)
  then Raise (Exn ValueError (py
    "API key must be provided either as parameter or OMNIDIMENSION_API_KEY environment variable"))
  else
    let build (has_client : bool) :=
      {| api_key := key;
         client := has_client;
         mock_mode := negb has_client;
         test_phone := py "+919548999129";
         agents_cache := ∅;
         call_history := [];
         max_retries := 3;
         retry_delay := 2 |} in
    match Client E with
    | Some make_client =>
        match make_client key with
        | Ok _ => Ok (build true)
        | Raise e => Raise e
        end
    | None => Ok (build false)
    end.

Definition with_agents_cache (s : service) (c : gmap key value) : service :=
  {| api_key := api_key s; client := client s; mock_mode := mock_mode s;
     test_phone := test_phone s; agents_cache := c;
     call_history := call_history s; max_retries := max_retries s;
     retry_delay := retry_delay s |}.

Definition with_call_history (s : service) (h : list value) : service :=
  {| api_key := api_key s; client := client s; mock_mode := mock_mode s;
     test_phone := test_phone s; agents_cache := agents_cache s;
     call_history := h; max_retries := max_retries s;
     retry_delay := retry_delay s |}.

(** Reaching a method of [self.client.agent] or [self.client.call]; there
    is none to reach when the client is [None]. *)
Definition client_attr {E : Env} (name : pystr) : M E unit :=
  let* s := get_self in
  if client s then ret tt
  else raise (no_attribute VNone name).

(** ** Utility methods *)

Definition _now {E : Env} : M E pystr :=
  let* t := read_clock (datetime_now E) in
  ret (strftime E (py "%Y-%m-%d %H:%M:%S") t).

Definition _tomorrow {E : Env} : M E pystr :=
  let* t := read_clock (datetime_now E) in
  ret (strftime E (py "%B %d, %Y") (t + 86400)).

Definition _handle_response (response : value) : value :=
  match response with
  | VDict d =>
      match d !! py "json" with
      | Some payload => payload
      | None => response
      end
  | _ => response
  end.

(** [str.isdigit] on one character: the ten ASCII digits, and beyond ASCII
    whatever the Unicode tables say. *)
Definition isdigit (E : Env) (c : N) : bool :=
  if (c <? 128)%N then (48 <=? c)%N && (c <=? 57)%N else isdigit_unicode E c.

(** [s.replace('+', '')] *)
Definition remove_plus (s : pystr) : pystr :=
  List.filter (λ c, negb (c =? 43)%N) s.

Definition _validate_phone_number (E : Env) (phone : value) : res bool :=
  if negb (truthy phone) then Ok false
  else
    match phone with
    | VStr s =>
        let clean_phone := List.filter (isdigit E) (remove_plus s) in
        let n := Z.of_nat (length clean_phone) in
        Ok ((10 <=? n) && (n <=? 15))
    | _ => Raise (no_attribute phone (py "replace"))
    end.

Fixpoint check_required_fields (config : gmap pystr value)
    (required_fields : list pystr) : res bool :=
  match required_fields with
  | [] => Ok true
  | field :: rest =>
      if negb (truthy (default VNone (config !! field)))
      then Raise (Exn ValueError
             (py "Agent configuration missing required field: " ++ field))
      else check_required_fields config rest
  end.

Definition _validate_agent_config (config : gmap pystr value) : res bool :=
  check_required_fields config
    [py "name"; py "welcome_message"; py "call_type"].

(** The line printed for a failed attempt that will be retried. *)
Definition retry_notice (E : Env) (attempt max_retries : Z) (e : exn) : pystr :=
  py "API call failed (attempt " ++ str E (VInt (attempt + 1)) ++ py "/"
  ++ str E (VInt max_retries) ++ py "): " ++ exn_str e.

(** The body of the [for attempt in range(self.max_retries)] loop, over the
    attempts still to run. *)
Fixpoint retry_loop {E : Env} (api_func : M E value) (attempts : list Z)
    (last_exception : option exn) : M E value :=
  match attempts with
  | [] =>
      match last_exception with
      | Some e => raise e
      | None => raise (Exn TypeError (py "exceptions must derive from BaseException"))
      end
  | attempt :: rest =>
      try_except api_func (λ e,
        let* s := get_self in
        let* _ :=
          (if attempt <? max_retries s - 1
           then
             let wait_time := retry_delay s * 2 ^ attempt in
             let* _ := print (retry_notice E attempt (max_retries s) e) in
             let* _ := print (py "Retrying in " ++ str E (VInt wait_time)
                              ++ py " seconds...") in
             sleep wait_time
           else
             print (py "All " ++ str E (VInt (max_retries s))
                    ++ py " attempts failed")) in
        retry_loop api_func rest (Some e))
  end.

(** [range(n)] *)
Definition range (n : Z) : list Z := Z.of_nat <$> seq 0 (Z.to_nat n).

Definition _retry_api_call {E : Env} (api_func : M E value) : M E value :=
  let* s := get_self in
  retry_loop api_func (range (max_retries s)) None.

(** ** Core API methods *)

(** The [agent_config] dictionary literal of [create_restaurant_agent]. *)
Definition agent_config (E : Env)
    (restaurant_name customer_name customer_email : value) : gmap pystr value :=
  let rn := str E restaurant_name in
  let cn := str E customer_name in
  let ce := str E customer_email in
  let section (title body : pystr) : value :=
    VDict (list_to_map [(py "title", VStr title); (py "body", VStr body)]) in
  list_to_map [
    (py "name", VStr (rn ++ py " - Booking Assistant for " ++ cn));
    (py "welcome_message",
      VStr (py "Hello! This is " ++ cn
            ++ py " calling to make a reservation at " ++ rn
            ++ py ". Could you please help me with booking a table?"));
    (py "context_breakdown", VList [
      section (py "Reservation Request")
        (py "I am " ++ cn
         ++ py " and I would like to make a reservation at " ++ rn
         ++ py ". I will provide the date, time, number of guests, and any special requests. Please be polite and professional when speaking with the restaurant staff.");
      section (py "Customer Information")
        (py "Customer Name: " ++ cn ++ py ", Email: " ++ ce
         ++ py ". Please provide this information if the restaurant asks for contact details.");
      section (py "Conversation Flow")
        (py "1. Greet the restaurant politely 2. Request to make a reservation 3. Provide all reservation details clearly 4. Confirm the booking details 5. Ask for confirmation number if available 6. Thank them and end the call politely")]);
    (py "call_type", VStr (py "Outgoing"));
    (py "voice_provider", VStr (py "eleven_labs"));
    (py "voice_external_id", VStr (py "JBFqnCBsd6RMkjVDRZzb"));
    (py "llm_service", VStr (py "gpt-4o-mini"));
    (py "bot_type", VStr (py "prompt"));
    (py "language", VList [VStr (py "en")]);
    (py "is_filler_enable", VBool false);
    (py "filler_after_sec", VFloat 0%Qc);
    (py "llm_straming_enabled", VBool false);
    (py "enable_web_search", VBool false)].

(** [self.agents_cache[agent_id] = agent_data] *)
Definition cache_agent {E : Env} (agent_id agent_data : value) : M E unit :=
  match hash_key agent_id with
  | None => raise (Exn TypeError
              (py "unhashable type: '" ++ type_name agent_id ++ py "'"))
  | Some k =>
      let* s := get_self in
      set_self (with_agents_cache s (<[k := agent_data]> (agents_cache s)))
  end.

(** The second half of [create_restaurant_agent]: obtain an identifier for
    the validated configuration, from the clock in mock mode and from the
    provider otherwise, and cache the agent under it.  The two lines that
    print [json.dumps(agent_config, indent=2)] are not listed: [json.dumps]
    escapes every character beyond ASCII, so they always print. *)
Definition register_agent {E : Env} (restaurant_name : value)
    (config : gmap pystr value) : M E (value * value) :=
  let* s := get_self in
  let* (agent_id, agent_data) :=
    (if mock_mode s
     then
       let* t := read_clock (time_time E) in
       let agent_id := VStr (py "mock_agent_" ++ repr E (VInt t)) in
       let* name := lift (getitem (VDict config) (py "name")) in
       let agent_data :=
         VDict (list_to_map [(py "id", agent_id); (py "name", name)]) in
       let* _ := print (py "[MOCK MODE] Created agent: " ++ str E agent_id) in
       ret (agent_id, agent_data)
     else
       try_except
         (let* _ := print (py "Creating agent for " ++ str E restaurant_name
                           ++ py "...") in
          let* _ := client_attr (py "agent") in
          let* response := _retry_api_call (invoke agent_create [] config) in
          let agent_data := _handle_response response in
          let* agent_id := lift (dict_get agent_data (py "id") VNone) in
          if negb (truthy agent_id)
          then raise (Exn ValueError
                 (py "Agent creation failed - no ID returned. Response: "
                  ++ str E agent_data))
          else
            let* _ := print (py "Agent created successfully: "
                             ++ str E agent_id) in
            ret (agent_id, agent_data))
         (λ e,
            let* _ := print (py "Error creating agent: " ++ exn_str e) in
            raise e)) in
  let* _ := cache_agent agent_id agent_data in
  ret (agent_id, agent_data).

Definition create_restaurant_agent {E : Env}
    (restaurant_name customer_info : value) : M E (value * value) :=
  if negb (truthy restaurant_name)
  then raise (Exn ValueError (py "Restaurant name is required"))
  else
    let* customer_name :=
      lift (dict_get customer_info (py "name") (VStr (py "Customer"))) in
    let* customer_email :=
      lift (dict_get customer_info (py "email") (VStr (py "customer@example.com"))) in
    let config := agent_config E restaurant_name customer_name customer_email in
    let* _ := lift (_validate_agent_config config) in
    register_agent restaurant_name config.

(** The call identifier of a normalized dispatch response:
    [call_data.get("id") or call_data.get("call_id") or call_data.get("uuid")] *)
Definition extract_call_id (call_data : value) : res value :=
  match dict_get call_data (py "id") VNone with
  | Raise e => Raise e
  | Ok a =>
      if truthy a then Ok a
      else match dict_get call_data (py "call_id") VNone with
           | Raise e => Raise e
           | Ok b =>
               if truthy b then Ok b
               else dict_get call_data (py "uuid") VNone
           end
  end.

(** [self.call_history.append({**call_data, "timestamp": self._now()})] *)
Definition record_call {E : Env} (call_data : value) : M E unit :=
  match call_data with
  | VDict d =>
      let* now := _now in
      let call_record := VDict (<[py "timestamp" := VStr now]> d) in
      let* s := get_self in
      set_self (with_call_history s (call_history s ++ [call_record]))
  | _ => raise (Exn TypeError
             (py "'" ++ type_name call_data ++ py "' object is not a mapping"))
  end.

(** The best-effort check of the agent before a real call: whatever goes
    wrong is printed, and forgotten once it has been printed. *)
Definition verify_agent {E : Env} (agent_id : value) : M E unit :=
  try_except
    (let* _ := client_attr (py "agent") in
     let* agent_response := invoke agent_get_agent [agent_id] ∅ in
     let agent_data := _handle_response agent_response in
     let* voice := lift (dict_get agent_data (py "voice_external_id") VNone) in
     let* _ :=
       (if negb (truthy voice)
        then print (py "Warning: Agent may not have proper voice configuration")
        else ret tt) in
     print (py "Agent " ++ str E agent_id ++ py " verified and ready for calls"))
    (λ e, print (py "Warning: Could not verify agent " ++ str E agent_id
                 ++ py ": " ++ exn_str e)).

(** What the handler of the dispatch prints before it raises the exception
    again.  The response body is printed inside a [try] of its own, whose
    bare handler prints a constant, so that line never raises. *)
Definition report_dispatch_failure {E : Env}
    (agent_id phone call_context : value) (e : exn) : M E unit :=
  let* _ := print (py "Error dispatching call: " ++ exn_str e) in
  let* _ := print (py "Exception type: " ++ class_name E e) in
  let* _ :=
    match response_attr E e with
    | Some (status_code, headers) =>
        let* _ := print (py "HTTP Status: " ++ str E status_code) in
        print (py "Response Headers: " ++ str E headers)
    | None => ret tt
    end in
  let* _ := print (py "Call parameters:") in
  let* _ := print (py "  - agent_id: " ++ str E agent_id ++ py " (type: "
                   ++ type_repr agent_id ++ py ")") in
  let* _ := print (py "  - to_number: " ++ str E phone ++ py " (type: "
                   ++ type_repr phone ++ py ")") in
  print (py "  - call_context: " ++ str E call_context ++ py " (type: "
         ++ type_repr call_context ++ py ")").

(** The keyword arguments of the dispatch call; the call context is
    defaulted once more as it is passed. *)
Definition dispatch_kwargs (agent_id phone call_context : value)
    : gmap pystr value :=
  list_to_map [
    (py "agent_id", agent_id);
    (py "to_number", phone);
    (py "call_context", py_or call_context (VDict ∅))].

Definition make_call {E : Env}
    (agent_id phone_number call_context : value) : M E (value * value) :=
  if negb (truthy agent_id)
  then raise (Exn ValueError (py "Agent ID is required"))
  else
    let* s := get_self in
    let phone := py_or phone_number (VStr (test_phone s)) in
    let* valid := lift (_validate_phone_number E phone) in
    if negb valid
    then raise (Exn ValueError (py "Invalid phone number: " ++ str E phone))
    else
      let call_context := py_or call_context (VDict ∅) in
      let* s := get_self in
      let* _ := (if negb (mock_mode s) then verify_agent agent_id else ret tt) in
      let* s := get_self in
      let* (call_id, call_data) :=
        (if mock_mode s
         then
           let* t := read_clock (time_time E) in
           let call_id := VStr (py "mock_call_" ++ repr E (VInt t)) in
           let call_data :=
             VDict (list_to_map [
               (py "id", call_id);
               (py "status", VStr (py "mock_initiated"));
               (py "agent_id", agent_id);
               (py "phone_number", phone)]) in
           let* _ := print (py "[MOCK MODE] Initiated call: "
                            ++ str E call_id) in
           ret (call_id, call_data)
         else
           try_except
             (let* _ := print (py "Dispatching call to " ++ str E phone
                               ++ py " using agent " ++ str E agent_id
                               ++ py "...") in
              let* _ := client_attr (py "call") in
              let* response :=
                _retry_api_call
                  (invoke call_dispatch_call []
                     (dispatch_kwargs agent_id phone call_context)) in
              let* _ := print (py "Raw API response: " ++ str E response) in
              let call_data := _handle_response response in
              let* call_id := lift (extract_call_id call_data) in
              if negb (truthy call_id)
              then raise (Exn ValueError
                     (py "Call dispatch failed - no call ID returned. Response: "
                      ++ str E call_data))
              else
                let* _ := print (py "Call dispatched successfully: "
                                 ++ str E call_id) in
                ret (call_id, call_data))
             (λ e,
                let* _ :=
                  report_dispatch_failure agent_id phone call_context e in
                raise e)) in
      let* _ := record_call call_data in
      ret (call_id, call_data).

Definition get_call_status {E : Env} (call_id : value) : M E value :=
  if negb (truthy call_id)
  then raise (Exn ValueError (py "Call ID is required"))
  else
    let* s := get_self in
    if mock_mode s
    then ret (VDict (list_to_map [
           (py "id", call_id);
           (py "status", VStr (py "mock_completed"));
           (py "summary", VStr (py "Mock reservation confirmed successfully."));
           (py "duration", VInt 45);
           (py "transcript", VStr (py "Mock conversation transcript"))]))
    else
      try_except
        (let* _ := client_attr (py "call") in
         let* response :=
           _retry_api_call (invoke call_get_call_log [call_id] ∅) in
         ret (_handle_response response))
        (λ e,
           let* _ := print (py "Error getting call status for "
                            ++ str E call_id ++ py ": " ++ exn_str e) in
           raise e).

(** [l[start:]] *)
Definition slice_from {A} (start : Z) (l : list A) : list A :=
  let n := Z.of_nat (length l) in
  let i := if start <? 0 then Z.max (n + start) 0 else Z.min start n in
  drop (Z.to_nat i) l.

(** The integer a value stands for under unary minus and slicing. *)
Definition as_index (v : value) : res Z :=
  match v with
  | VInt z => Ok z
  | VBool b => Ok (if b then 1 else 0)
  | _ => Raise (Exn TypeError (py "slice indices must be integers"))
  end.

Definition get_call_logs {E : Env} (agent_id page page_size : value) : M E value :=
  let* s := get_self in
  if mock_mode s
  then
    let* n := lift (as_index page_size) in
    ret (VDict (list_to_map [
      (py "data", VList (slice_from (- n) (call_history s)));
      (py "pagination", VDict (list_to_map [
         (py "page", page);
         (py "page_size", page_size);
         (py "total", VInt (Z.of_nat (length (call_history s))))]))]))
  else
    try_except
      (let* _ := client_attr (py "call") in
       let* response :=
         _retry_api_call (invoke call_get_call_logs [] (list_to_map [
           (py "agent_id", agent_id);
           (py "page", page);
           (py "page_size", page_size)])) in
       ret (_handle_response response))
      (λ e,
         let* _ := print (py "Error getting call logs: " ++ exn_str e) in
         raise e).

(** [not info or not info.get('name')] *)
Definition lacks_name (info : value) : res bool :=
  if negb (truthy info) then Ok true
  else match dict_get info (py "name") VNone with
       | Ok name => Ok (negb (truthy name))
       | Raise e => Raise e
       end.

(** The [try] block of [make_restaurant_reservation]. *)
Definition reservation_steps {E : Env}
    (restaurant_info reservation_details customer_info restaurant_phone : value)
    : M E value :=
  let* restaurant_name := lift (getitem restaurant_info (py "name")) in
  let* (agent_id, agent_data) :=
    create_restaurant_agent restaurant_name customer_info in
  (* [reservation_details.get] is looked up before its default is computed *)
  let* _ := lift (dict_get reservation_details (py "date") VNone) in
  let* tomorrow := _tomorrow in
  let* reservation_date :=
    lift (dict_get reservation_details (py "date") (VStr tomorrow)) in
  let* reservation_time :=
    lift (dict_get reservation_details (py "time") (VStr (py "7:00 PM"))) in
  let* party_size :=
    lift (dict_get reservation_details (py "party_size") (VInt 2)) in
  let* special_requests :=
    lift (dict_get reservation_details (py "special_requests") (VStr [])) in
  let* customer_name := lift (dict_get customer_info (py "name") VNone) in
  let* customer_phone := lift (dict_get customer_info (py "phone") (VStr [])) in
  let* customer_email := lift (dict_get customer_info (py "email") (VStr [])) in
  let* restaurant_name := lift (getitem restaurant_info (py "name")) in
  let call_context := VDict (list_to_map [
    (py "reservation_date", reservation_date);
    (py "reservation_time", reservation_time);
    (py "number_of_guests", VStr (str E party_size));
    (py "special_requests", special_requests);
    (py "customer_name", customer_name);
    (py "customer_phone", customer_phone);
    (py "customer_email", customer_email);
    (py "restaurant_name", restaurant_name);
    (py "booking_type", VStr (py "reservation"));
    (py "urgency", VStr (py "normal"))]) in
  let* s := get_self in
  let target_phone := py_or restaurant_phone (VStr (test_phone s)) in
  let* (call_id, call_data) := make_call agent_id target_phone call_context in
  let* call_status := get_call_status call_id in
  let* now := _now in
  let* restaurant := lift (getitem restaurant_info (py "name")) in
  let* customer := lift (dict_get customer_info (py "name") VNone) in
  let result := VDict (list_to_map [
    (py "success", VBool true);
    (py "agent_id", agent_id);
    (py "call_id", call_id);
    (py "agent_data", agent_data);
    (py "call_data", call_data);
    (py "call_status", call_status);
    (py "timestamp", VStr now);
    (py "restaurant", restaurant);
    (py "customer", customer);
    (py "reservation", reservation_details);
    (py "target_phone", target_phone)]) in
  let* _ := print (py "Reservation process completed successfully. Call ID: "
                   ++ str E call_id) in
  ret result.

(** The [except Exception as e] block of [make_restaurant_reservation]. *)
Definition reservation_failed {E : Env}
    (restaurant_info reservation_details customer_info : value) (e : exn)
    : M E value :=
  let* _ := print (py "Reservation process failed: " ++ exn_str e) in
  let* now := _now in
  let* restaurant := lift (getitem restaurant_info (py "name")) in
  let* customer := lift (dict_get customer_info (py "name") VNone) in
  ret (VDict (list_to_map [
    (py "success", VBool false);
    (py "error", VStr (exn_str e));
    (py "timestamp", VStr now);
    (py "restaurant", restaurant);
    (py "customer", customer);
    (py "reservation", reservation_details)])).

Definition make_restaurant_reservation {E : Env}
    (restaurant_info reservation_details customer_info : value) : M E value :=
  let* no_restaurant := lift (lacks_name restaurant_info) in
  if no_restaurant
  then raise (Exn ValueError (py "Restaurant info with name is required"))
  else
    let* no_customer := lift (lacks_name customer_info) in
    if no_customer
    then raise (Exn ValueError (py "Customer info with name is required"))
    else
      if negb (truthy reservation_details)
      then raise (Exn ValueError (py "Reservation details are required"))
      else
        let* restaurant_phone :=
          lift (dict_get restaurant_info (py "phone") VNone) in
        let* phone_ok :=
          (if truthy restaurant_phone
           then lift (_validate_phone_number E restaurant_phone)
           else ret true) in
        if negb phone_ok
        then raise (Exn ValueError
               (py "Invalid restaurant phone number: " ++ str E restaurant_phone))
        else
          let* restaurant_name := lift (getitem restaurant_info (py "name")) in
          let* _ := print (py "Starting reservation process for "
                           ++ str E restaurant_name) in
          try_except
            (reservation_steps restaurant_info reservation_details
               customer_info restaurant_phone)
            (reservation_failed restaurant_info reservation_details
               customer_info).

Definition get_agent_details {E : Env} (agent_id : value) : M E value :=
  let* s := get_self in
  if mock_mode s
  then
    let placeholder := VDict (list_to_map [
      (py "id", agent_id); (py "status", VStr (py "mock"))]) in
    match hash_key agent_id with
    | None => raise (Exn TypeError
                (py "unhashable type: '" ++ type_name agent_id ++ py "'"))
    | Some k => ret (default placeholder (agents_cache s !! k))
    end
  else
    try_except
      (let* _ := client_attr (py "agent") in
       let* response := invoke agent_get_agent [agent_id] ∅ in
       ret (_handle_response response))
      (λ e,
         let* _ := print (py "Error getting agent details for "
                          ++ str E agent_id ++ py ": " ++ exn_str e) in
         raise e).

Definition test_api_connection {E : Env} : M E value :=
  let* s := get_self in
  if mock_mode s
  then ret (VDict (list_to_map [
         (py "status", VStr (py "mock_mode"));
         (py "api_accessible", VBool false)]))
  else
    try_except
      (let* _ := client_attr (py "call") in
       let* response :=
         _retry_api_call (invoke call_get_call_logs []
                            (list_to_map [(py "page_size", VInt 1)])) in
       ret (VDict (list_to_map [
         (py "status", VStr (py "connected"));
         (py "api_accessible", VBool true);
         (py "response", response)])))
      (λ e, ret (VDict (list_to_map [
         (py "status", VStr (py "error"));
         (py "api_accessible", VBool false);
         (py "error", VStr (exn_str e))]))).

(** ** The service as a whole *)

(** A call of one public method by a client of the service. *)
Inductive operation :=
| CreateRestaurantAgent (restaurant_name customer_info : value)
| MakeCall (agent_id phone_number call_context : value)
| GetCallStatus (call_id : value)
| GetCallLogs (agent_id page page_size : value)
| MakeRestaurantReservation
    (restaurant_info reservation_details customer_info : value)
| GetAgentDetails (agent_id : value)
| TestApiConnection.

(** The state in which a call leaves the service, whether it returned or
    raised. *)
Definition perform {E : Env} (op : operation) (st : state E) : state E :=
  match op with
  | CreateRestaurantAgent rn ci => snd (create_restaurant_agent rn ci st)
  | MakeCall a p c => snd (make_call a p c st)
  | GetCallStatus c => snd (get_call_status c st)
  | GetCallLogs a p n => snd (get_call_logs a p n st)
  | MakeRestaurantReservation ri rd ci =>
      snd (make_restaurant_reservation ri rd ci st)
  | GetAgentDetails a => snd (get_agent_details a st)
  | TestApiConnection => snd (test_api_connection st)
  end.

Definition perform_all {E : Env} (ops : list operation) (st : state E)
    : state E :=
  foldl (λ st op, perform op st) st ops.

(** ** Notions used to state the properties *)

(** The number of digit characters of a string. *)
Definition digit_count (E : Env) (s : pystr) : nat :=
  length (List.filter (isdigit E) s).

(** A result object tagged as a failure: a mapping whose [success] is
    [False]. *)
Definition is_failure_result (r : res value) : Prop :=
  ∃ d, r = Ok (VDict d) ∧ d !! py "success" = Some (VBool false).

(** What a run of attempts that all fail does to the outside: one invocation
    per exception raised, and between two consecutive invocations a wait of
    [base_delay * 2 ^ attempt_index]. *)
Fixpoint failed_attempts (m : api_method) (args : list value)
    (kwargs : gmap pystr value) (base_delay attempt_index : Z)
    (failures : list exn) : list event :=
  match failures with
  | [] => []
  | e :: later =>
      EvApi m args kwargs (Raise e) ::
      match later with
      | [] => []
      | _ :: _ =>
          EvSleep (base_delay * 2 ^ attempt_index) ::
          failed_attempts m args kwargs base_delay (attempt_index + 1) later
      end
  end.

Definition is_invocation (ev : event) : bool :=
  match ev with
  | EvApi _ _ _ _ => true
  | EvSleep _ => false
  end.

(** The waits of a trace, in order. *)
Definition waits (evs : list event) : list Z :=
  omap (λ ev, match ev with EvSleep s => Some s | EvApi _ _ _ _ => None end) evs.

(** The first of the keys [id], [call_id], [uuid] that is present in a
    mapping, with its value. *)
Definition first_present (d : gmap pystr value) : option value :=
  match d !! py "id" with
  | Some v => Some v
  | None =>
      match d !! py "call_id" with
      | Some v => Some v
      | None => d !! py "uuid"
      end
  end.

(** The first value of [id], [call_id], [uuid] that is present and true. *)
Definition first_truthy (d : gmap pystr value) : option value :=
  List.find truthy
    (omap (λ k, d !! k) [py "id"; py "call_id"; py "uuid"]).

(** The last [n] entries of a list (all of it when it has fewer). *)
Definition trailing {A} (n : nat) (l : list A) : list A :=
  drop (length l - n) l.

(** The mapping [get_call_logs] answers with in mock mode. *)
Definition call_logs_page (data : list value) (page page_size : value)
    (total : nat) : value :=
  VDict (list_to_map [
    (py "data", VList data);
    (py "pagination", VDict (list_to_map [
       (py "page", page);
       (py "page_size", page_size);
       (py "total", VInt (Z.of_nat total))]))]).

(** The client library, when there is one, makes a client for this key. *)
Definition client_accepts (E : Env) (key : value) : Prop :=
  match Client E with
  | Some make_client => make_client key = Ok tt
  | None => True
  end.

(** Standard output can encode the text of each of these values. *)
Definition all_printable (E : Env) (values : list value) : bool :=
  forallb (λ v, printable E (str E v)) values.

(** A computation that leaves the attributes of [self] related by [R] to
    what they were. *)
Definition preserves {E : Env} {A} (R : service → service → Prop)
    (c : M E A) : Prop :=
  ∀ st, R (self st) (self (snd (c st))).

(** No agent leaves the cache. *)
Definition cache_grows (s s' : service) : Prop :=
  dom (agents_cache s) ⊆ dom (agents_cache s').

(** ** Sample environments *)

(** The decimal digits of a number, most significant first. *)
Fixpoint digits (fuel : nat) (n : N) (acc : pystr) : pystr :=
  match fuel with
  | O => acc
  | S fuel =>
      let acc := (48 + n `mod` 10)%N :: acc in
      if (n `div` 10 =? 0)%N then acc else digits fuel (n `div` 10)%N acc
  end.

Definition decimal (z : Z) : pystr :=
  (if z <? 0 then py "-" else [])
  ++ digits (S (N.to_nat (N.log2 (Z.abs_N z)))) (Z.abs_N z) [].

(** The text of a value in the sample environments: integers in decimal,
    anything else that is not a string as a placeholder. *)
Definition sample_repr (v : value) : pystr :=
  match v with
  | VInt z => decimal z
  | _ => py "<object>"
  end.

Definition digits_ascii (fuel : nat) (n : N) (acc : pystr) :
  forallb (λ c, (c <? 128)%N) acc = true →
  forallb (λ c, (c <? 128)%N) (digits fuel n acc) = true.
Proof.
  revert n acc. induction fuel as [|fuel IH]; intros n acc Hacc; [exact Hacc|].
  assert (forallb (λ c, (c <? 128)%N) ((48 + n `mod` 10)%N :: acc) = true)
    as Hcons.
  { cbn [forallb]. rewrite Hacc, andb_true_r. apply N.ltb_lt.
    pose proof (N.mod_upper_bound n 10). lia. }
  cbn [digits]. destruct (n `div` 10 =? 0)%N; [exact Hcons|].
  apply IH, Hcons.
Qed.

Definition sample_repr_ascii (z : Z) :
  forallb (λ c, (c <? 128)%N) (sample_repr (VInt z)) = true.
Proof.
  cbn [sample_repr]. unfold decimal. rewrite forallb_app.
  rewrite digits_ascii by reflexivity.
  destruct (z <? 0); reflexivity.
Qed.

(** A provider answering every method from a fixed table, in front of a
    standard output that encodes ASCII and the code points [encodes]
    accepts; the world is the clock, which every interaction advances. *)
Definition console (encodes : N → bool) (answer : api_method → res value)
    (has_library : bool) : Env := {|
  World := Z;
  api := λ m _ _ w, (answer m, w + 1);
  time_time := λ w, (w, w + 1);
  datetime_now := λ w, (w, w + 1);
  time_sleep := λ s w, w + s;
  strftime := λ fmt t, fmt ++ py (pretty t);
  repr := sample_repr;
  isdigit_unicode := λ _, false;
  Client := if has_library then Some (λ _, Ok tt) else None;
  stdout_encodes := encodes;
  repr_int_ascii := sample_repr_ascii;
  provider_class_name := λ _, py "APIError";
  http_response := λ _, None;
|}.

(** The same in front of a UTF-8 terminal. *)
Definition scripted (answer : api_method → res value) (has_library : bool)
    : Env :=
  console (λ _, true) answer has_library.

(** The provider is down: every call fails. *)
Definition provider_down : Env :=
  scripted (λ _, Raise (Exn (ProviderError 503) (py "Service Unavailable"))) true.



(** The client library is not installed. *)
Definition no_library : Env :=
  scripted (λ _, Raise (Exn (ProviderError 0) (py "unreachable"))) false.

(** A dispatch response with an empty [id] next to a usable [call_id]. *)
Definition empty_id_response : gmap pystr value :=
  list_to_map [(py "id", VStr []); (py "call_id", VStr (py "call-17"))].

(** The provider answers every dispatch with it. *)
Definition empty_id_provider : Env :=
  scripted (λ m,
    match m with
    | call_dispatch_call => Ok (VDict empty_id_response)
    | _ => Ok (VDict (list_to_map [(py "id", VStr (py "agent-4"))]))
    end) true.

Definition sample_service (mock : bool) : service :=
  {| api_key := VStr (py "sk-test"); client := negb mock; mock_mode := mock;
     test_phone := py "+919548999129"; agents_cache := ∅; call_history := [];
     max_retries := 3; retry_delay := 2 |}.

Definition sample_state (E : Env) (mock : bool) (w : World E) : state E :=
  {| self := sample_service mock; world := w; trace := [] |}.

(** A mock-mode service that has placed three calls. *)
Definition three_calls : list value :=
  (λ i, VDict (list_to_map [(py "id", VStr (py "mock_call_" ++ py (pretty i)))]))
    <$> [1; 2; 3].

Definition busy_state (E : Env) (w : World E) : state E :=
  {| self := with_call_history (sample_service true) three_calls;
     world := w; trace := [] |}.

(** A customer session in mock mode: what is asked of the service after an
    agent for Spice Garden has been created. *)
Definition spice_garden : value := VStr (py "Spice Garden").

Definition ayush : value :=
  VDict (list_to_map [(py "name", VStr (py "Ayush Kumar"))]).

Definition later_calls : list operation :=
  [ MakeCall (VStr (py "mock_agent_100")) (VStr (py "+919876543210")) VNone;
    GetCallLogs VNone (VInt 1) (VInt 30);
    CreateRestaurantAgent (VStr (py "Curry Leaf")) ayush;
    MakeRestaurantReservation VNone VNone VNone;
    GetAgentDetails (VList []);
    TestApiConnection ].

(** The reservation request of the demonstration script. *)
Definition spice_garden_info : value :=
  VDict (list_to_map [(py "name", spice_garden);
                      (py "phone", VStr (py "+919876543210"))]).

Definition dinner_for_four : value :=
  VDict (list_to_map [(py "date", VStr (py "2025-06-23"));
                      (py "time", VStr (py "7:30 PM"));
                      (py "party_size", VInt 4)]).

(** What a run of the retry wrapper does to the outside in general: every
    failed attempt but the last is followed by its wait, and the run ends
    with the invocation whose outcome the wrapper hands on. *)
Fixpoint retry_events (m : api_method) (args : list value)
    (kwargs : gmap pystr value) (base_delay attempt_index : Z)
    (failures : list exn) (final : res value) : list event :=
  match failures with
  | [] => [EvApi m args kwargs final]
  | e :: later =>
      EvApi m args kwargs (Raise e) ::
      EvSleep (base_delay * 2 ^ attempt_index) ::
      retry_events m args kwargs base_delay (attempt_index + 1) later final
  end.

(** How a run of the wrapper can end: with the outcome of its last
    invocation, or, when that was a failure to be retried whose message
    standard output cannot encode, with the exception of the [print]. *)
Definition retry_outcome (E : Env) (r final : res value) (spent : Prop) : Prop :=
  r = final ∧ (∀ e, final = Raise e → spent)
  ∨ (∃ e, final = Raise e ∧ printable E (exn_str e) = false)
    ∧ (∃ e', r = Raise e' ∧ exn_kind_of e' = UnicodeEncodeError)
    ∧ ¬ spent.

(** The seconds slept in all. *)
Definition total_wait (evs : list event) : Z := foldr Z.add 0 (waits evs).

(** A provider that is down until the clock reaches 4 and answers with an
    agent afterwards. *)
Definition recovering_provider : Env := {|
  World := Z;
  api := λ _ _ _ w,
    (if w <? 4
     then Raise (Exn (ProviderError 503) (py "Service Unavailable"))
     else Ok (VDict (list_to_map [(py "id", VStr (py "agent-4"))])),
     w + 1);
  time_time := λ w, (w, w + 1);
  datetime_now := λ w, (w, w + 1);
  time_sleep := λ s w, w + s;
  strftime := λ fmt t, fmt ++ py (pretty t);
  repr := sample_repr;
  isdigit_unicode := λ _, false;
  Client := Some (λ _, Ok tt);
  stdout_encodes := λ _, true;
  repr_int_ascii := sample_repr_ascii;
  provider_class_name := λ _, py "APIError";
  http_response := λ _, None;
|}.

(** A service whose retry settings were changed after construction. *)
Definition with_max_retries (s : service) (n : Z) : service :=
  {| api_key := api_key s; client := client s; mock_mode := mock_mode s;
     test_phone := test_phone s; agents_cache := agents_cache s;
     call_history := call_history s; max_retries := n;
     retry_delay := retry_delay s |}.

Definition no_retry_state : state provider_down :=
  Build_state provider_down (with_max_retries (sample_service false) 0) 0 [].

(** The call history is only ever extended at its end. *)
Definition history_grows (s s' : service) : Prop :=
  call_history s `prefix_of` call_history s'.

(** The attributes set once by the constructor. *)
Definition same_settings (s s' : service) : Prop :=
  api_key s' = api_key s ∧ client s' = client s
  ∧ mock_mode s' = mock_mode s ∧ test_phone s' = test_phone s
  ∧ max_retries s' = max_retries s ∧ retry_delay s' = retry_delay s.

(** A computation that, run in mock mode, does nothing to the outside (no
    provider call, no sleep) and stays in mock mode. *)
Definition quiet {E : Env} {A} (c : M E A) : Prop :=
  ∀ st, mock_mode (self st) = true →
        trace (snd (c st)) = trace st
        ∧ mock_mode (self (snd (c st))) = true.

(** A field of a returned mapping. *)
Definition result_field (r : res value) (k : pystr) : option value :=
  match r with
  | Ok (VDict d) => d !! k
  | _ => None
  end.

(** No client library, and a clock that stays within one second. *)
Definition frozen_clock : Env := {|
  World := Z;
  api := λ _ _ _ w, (Raise (Exn (ProviderError 0) (py "unreachable")), w);
  time_time := λ w, (w, w);
  datetime_now := λ w, (w, w);
  time_sleep := λ s w, w + s;
  strftime := λ fmt t, fmt ++ py (pretty t);
  repr := sample_repr;
  isdigit_unicode := λ _, false;
  Client := None;
  stdout_encodes := λ _, true;
  repr_int_ascii := sample_repr_ascii;
  provider_class_name := λ _, py "APIError";
  http_response := λ _, None;
|}.

(** * Properties *)

(** ** Running a computation step by step *)

Lemma run_bind_lift {E : Env} {A B} (a : A) (k : A → M E B) (st : state E) :
  bind (lift (Ok a)) k st = k a st.
Proof. reflexivity. Qed.

Lemma run_bind_get_self {E : Env} {B} (k : service → M E B) (st : state E) :
  bind get_self k st = k (self st) st.
Proof. reflexivity. Qed.

Lemma run_bind {E : Env} {A B} (c : M E A) (k : A → M E B)
    (st st1 : state E) (a : A) :
  c st = (Ok a, st1) → bind c k st = k a st1.
Proof. intros Hc. unfold bind. by rewrite Hc. Qed.

Lemma dict_get_VDict (d : gmap pystr value) (k : pystr) (dflt : value) :
  dict_get (VDict d) k dflt = Ok (default dflt (d !! k)).
Proof. reflexivity. Qed.

Lemma getitem_VDict (d : gmap pystr value) (k : pystr) (x : value) :
  d !! k = Some x → getitem (VDict d) k = Ok x.
Proof. intros Hk. cbn. by rewrite Hk. Qed.

Lemma run_bind_ret {E : Env} {A B} (a : A) (k : A → M E B) (st : state E) :
  bind (ret a) k st = k a st.
Proof. reflexivity. Qed.

Lemma run_bind_raise {E : Env} {A B} (c : M E A) (k : A → M E B)
    (st st1 : state E) (e : exn) :
  c st = (Raise e, st1) → bind c k st = (Raise e, st1).
Proof. intros Hc. unfold bind. by rewrite Hc. Qed.

Lemma run_try_Ok {E : Env} {A} (c : M E A) (h : exn → M E A)
    (st st1 : state E) (a : A) :
  c st = (Ok a, st1) → try_except c h st = (Ok a, st1).
Proof. intros Hc. unfold try_except. by rewrite Hc. Qed.

Lemma run_try_Raise {E : Env} {A} (c : M E A) (h : exn → M E A)
    (st st1 : state E) (e : exn) :
  c st = (Raise e, st1) → try_except c h st = h e st1.
Proof. intros Hc. unfold try_except. by rewrite Hc. Qed.

(** ** Standard output *)

Lemma printable_app (E : Env) (a b : pystr) :
  printable E (a ++ b) = printable E a && printable E b.
Proof. apply forallb_app. Qed.

Lemma printable_ascii (E : Env) (text : pystr) :
  forallb (λ c, (c <? 128)%N) text = true → printable E text = true.
Proof.
  unfold printable, encodable. rewrite !forallb_forall.
  intros Hascii c Hc. by rewrite (Hascii c Hc).
Qed.

Lemma printable_repr_int (E : Env) (z : Z) :
  printable E (repr E (VInt z)) = true.
Proof. apply printable_ascii, repr_int_ascii. Qed.

Lemma printable_int (E : Env) (z : Z) : printable E (str E (VInt z)) = true.
Proof. apply printable_repr_int. Qed.

Lemma printable_type_repr (E : Env) (v : value) :
  printable E (type_repr v) = true.
Proof. by destruct v. Qed.

Lemma print_ok {E : Env} (text : pystr) (st : state E) :
  printable E text = true → print text st = (Ok tt, st).
Proof. intros Htext. unfold print. by rewrite Htext. Qed.

Lemma print_fails {E : Env} (text : pystr) (st : state E) :
  printable E text = false →
  print text st
  = (Raise (Exn UnicodeEncodeError (py "codec can't encode character")), st).
Proof. intros Htext. unfold print. by rewrite Htext. Qed.

Lemma print_outcome {E : Env} (text : pystr) (st st' : state E)
    (r : res unit) :
  print text st = (r, st') →
  st' = st
  ∧ (r = Ok tt ∧ printable E text = true
     ∨ (∃ e, r = Raise e ∧ exn_kind_of e = UnicodeEncodeError)
       ∧ printable E text = false).
Proof.
  unfold print. destruct (printable E text); intros [= <- <-];
    (split; [reflexivity|]); [by left|right; eauto].
Qed.

(** A text put together from literals, integers and texts known to be
    printable. *)
Lemma printable_app_intro (E : Env) (a b : pystr) :
  printable E a = true → printable E b = true → printable E (a ++ b) = true.
Proof. intros Ha Hb. by rewrite printable_app, Ha, Hb. Qed.

Ltac solve_printable :=
  repeat match goal with
         | |- printable _ (_ ++ _) = true => apply printable_app_intro
         end;
  lazymatch goal with
  | |- printable _ (repr _ (VInt _)) = true => apply printable_repr_int
  | |- printable _ (str _ (VInt _)) = true => apply printable_int
  | |- printable _ (type_repr _) = true => apply printable_type_repr
  | |- printable _ (py _) = true => reflexivity
  | |- _ => assumption
  end.

(** The same as a rewriting step: what decides whether a text prints are
    its parts that are not literals. *)
Ltac simpl_printable :=
  rewrite ?printable_app;
  repeat match goal with
         | |- context [printable ?E (py ?s)] =>
             change (printable E (py s)) with true
         | |- context [printable ?E (type_repr ?v)] =>
             rewrite (printable_type_repr E v)
         | |- context [printable ?E (str ?E (VInt ?z))] =>
             rewrite (printable_int E z)
         end;
  rewrite ?andb_true_l, ?andb_true_r.

Lemma run_bind_print {E : Env} {B} (text : pystr) (k : unit → M E B)
    (st : state E) :
  printable E text = true → bind (print text) k st = k tt st.
Proof. intros Htext. unfold bind. by rewrite print_ok. Qed.

(** ** Validation helpers and normalization *)

Lemma digits_of_remove_plus (E : Env) (s : pystr) :
  List.filter (isdigit E) (remove_plus s) = List.filter (isdigit E) s.
Proof.
  induction s as [|c s IH]; [reflexivity|].
  unfold remove_plus in *. simpl.
  destruct (N.eqb_spec c 43) as [->|Hc]; simpl.
  - exact IH.
  - destruct (isdigit E c); simpl; by rewrite IH.
Qed.

Lemma in_range_decide (n : nat) :
  (10 <=? Z.of_nat n) && (Z.of_nat n <=? 15) = bool_decide (10 ≤ n ≤ 15)%nat.
Proof.
  destruct (Z.leb_spec 10 (Z.of_nat n)), (Z.leb_spec (Z.of_nat n) 15); simpl;
    symmetry; first [apply bool_decide_eq_true; lia | apply bool_decide_eq_false; lia].
Qed.

(** C3.  A string passes [_validate_phone_number] exactly when it holds
    between 10 and 15 digit characters, whatever else it holds;
    ["+919876543210"] passes, ["12345"] and the empty string do not. *)
Theorem validate_phone_number_digit_count (E : Env) :
  (∀ s : pystr,
     _validate_phone_number E (VStr s)
     = Ok (bool_decide (10 ≤ digit_count E s ≤ 15)%nat))
  ∧ _validate_phone_number E (VStr (py "+919876543210")) = Ok true
  ∧ _validate_phone_number E (VStr (py "12345")) = Ok false
  ∧ _validate_phone_number E (VStr []) = Ok false.
Proof.
  split; [|repeat split; reflexivity].
  intros s. unfold _validate_phone_number, digit_count.
  destruct s as [|c s]; [reflexivity|].
  cbn [truthy negb]. rewrite digits_of_remove_plus. f_equal. apply in_range_decide.
Qed.

(** C8.  A mapping without the [json] key, and any value that is not a
    mapping, comes back from [_handle_response] as it went in, so that
    normalizing twice is normalizing once. *)
Theorem handle_response_flat (x : value) :
  (∀ d, x = VDict d → d !! py "json" = None) →
  _handle_response x = x
  ∧ _handle_response (_handle_response x) = _handle_response x.
Proof.
  intros Hflat.
  assert (_handle_response x = x) as Hx.
  { destruct x as [| | | | | |d]; try reflexivity.
    unfold _handle_response. by rewrite (Hflat d eq_refl). }
  by rewrite !Hx.
Qed.

Lemma handle_response_flat_witness :
  let x := VDict (list_to_map [(py "id", VStr (py "agent-4"))]) in
  _handle_response x = x
  ∧ _handle_response (_handle_response x) = _handle_response x.
Proof.
  apply (handle_response_flat
           (VDict (list_to_map [(py "id", VStr (py "agent-4"))]))).
  intros d Hd. injection Hd as <-. vm_compute. reflexivity.
Defined.

(** ** Call logs in mock mode *)

Lemma slice_from_zero {A} (l : list A) : slice_from (- 0) l = l.
Proof.
  unfold slice_from. change (- 0) with 0. cbn [Z.ltb Z.compare].
  rewrite Z.min_l by lia. reflexivity.
Qed.

Lemma slice_from_trailing {A} (n : Z) (l : list A) :
  0 < n → slice_from (- n) l = trailing (Z.to_nat n) l.
Proof.
  intros Hn. unfold slice_from, trailing.
  destruct (Z.ltb_spec (- n) 0); [|lia].
  f_equal. lia.
Qed.

Lemma trailing_length {A} (n : nat) (l : list A) :
  length (trailing n l) = (n `min` length l)%nat.
Proof. unfold trailing. rewrite length_drop. lia. Qed.

Lemma trailing_suffix {A} (n : nat) (l : list A) : trailing n l `suffix_of` l.
Proof. apply suffix_drop. Qed.

(** C9.  In mock mode [get_call_logs] answers without touching anything; a
    [page_size] of 0 yields the whole call history, a positive [page_size]
    its trailing [page_size] entries, and [total] is the length of the whole
    history whatever [page] and [page_size] are. *)
Theorem get_call_logs_mock_page (E : Env) (agent_id page page_size : value)
    (n : Z) (st : state E) :
  mock_mode (self st) = true →
  as_index page_size = Ok n →
  ∃ data,
    get_call_logs agent_id page page_size st
    = (Ok (call_logs_page data page page_size
             (length (call_history (self st)))), st)
    ∧ (n = 0 → data = call_history (self st))
    ∧ (0 < n → data = trailing (Z.to_nat n) (call_history (self st))).
Proof.
  intros Hmock Hsize.
  exists (slice_from (- n) (call_history (self st))).
  split; [|split].
  - unfold get_call_logs, bind, get_self, lift. rewrite Hmock, Hsize.
    reflexivity.
  - intros ->. apply slice_from_zero.
  - apply slice_from_trailing.
Qed.

Lemma get_call_logs_mock_page_witness :
  ∃ data,
    get_call_logs VNone (VInt 1) (VInt 2) (busy_state no_library 0)
    = (Ok (call_logs_page data (VInt 1) (VInt 2) 3), busy_state no_library 0)
    ∧ (2 = 0 → data = three_calls)
    ∧ (0 < 2 → data = trailing 2 three_calls).
Proof.
  apply (get_call_logs_mock_page no_library VNone (VInt 1) (VInt 2) 2
           (busy_state no_library 0)); reflexivity.
Defined.

Example get_call_logs_page_size_zero :
  fst (get_call_logs VNone (VInt 1) (VInt 0) (busy_state no_library 0))
  = Ok (call_logs_page three_calls (VInt 1) (VInt 0) 3).
Proof. reflexivity. Qed.

(** ** The synthesized agent configuration *)

Lemma app_literal_nonempty (a b c : pystr) : b ≠ [] → a ++ b ++ c ≠ [].
Proof. intros Hb. destruct a, b; done. Qed.

Lemma truthy_VStr (s : pystr) : s ≠ [] → truthy (VStr s) = true.
Proof. by destruct s. Qed.

Lemma agent_config_name (E : Env) (rn cn ce : value) :
  agent_config E rn cn ce !! py "name"
  = Some (VStr (str E rn ++ py " - Booking Assistant for " ++ str E cn)).
Proof. reflexivity. Qed.

Lemma agent_config_welcome_message (E : Env) (rn cn ce : value) :
  agent_config E rn cn ce !! py "welcome_message"
  = Some (VStr (py "Hello! This is " ++ str E cn
            ++ py " calling to make a reservation at " ++ str E rn
            ++ py ". Could you please help me with booking a table?")).
Proof. reflexivity. Qed.

Lemma agent_config_call_type (E : Env) (rn cn ce : value) :
  agent_config E rn cn ce !! py "call_type" = Some (VStr (py "Outgoing")).
Proof. reflexivity. Qed.

Lemma agent_config_valid (E : Env) (rn cn ce : value) :
  _validate_agent_config (agent_config E rn cn ce) = Ok true.
Proof.
  unfold _validate_agent_config, check_required_fields.
  rewrite agent_config_name, agent_config_welcome_message, agent_config_call_type.
  cbn [default id].
  rewrite truthy_VStr by (apply app_literal_nonempty; discriminate).
  rewrite truthy_VStr by (apply (app_literal_nonempty []); discriminate).
  rewrite truthy_VStr by discriminate.
  reflexivity.
Qed.

(** C10.  Whatever the restaurant name and the customer mapping, the
    synthesized configuration carries non-empty [name], [welcome_message]
    and [call_type] strings and passes [_validate_agent_config]; with a
    non-empty restaurant name, [create_restaurant_agent] therefore always
    gets past its validation step and goes on to register the agent. *)
Theorem agent_config_always_valid (E : Env) (restaurant_name : value)
    (customer_info : gmap pystr value) (st : state E) :
  truthy restaurant_name = true →
  let customer_name :=
    default (VStr (py "Customer")) (customer_info !! py "name") in
  let customer_email :=
    default (VStr (py "customer@example.com")) (customer_info !! py "email") in
  let config :=
    agent_config E restaurant_name customer_name customer_email in
  (∃ name welcome_message,
     config !! py "name" = Some (VStr name) ∧ name ≠ []
     ∧ config !! py "welcome_message" = Some (VStr welcome_message)
     ∧ welcome_message ≠ []
     ∧ config !! py "call_type" = Some (VStr (py "Outgoing")))
  ∧ _validate_agent_config config = Ok true
  ∧ create_restaurant_agent restaurant_name (VDict customer_info) st
    = register_agent restaurant_name config st.
Proof.
  intros Hname customer_name customer_email config.
  split; [|split].
  - eexists _, _.
    split; [apply agent_config_name|].
    split; [apply app_literal_nonempty; discriminate|].
    split; [apply agent_config_welcome_message|].
    split; [apply (app_literal_nonempty []); discriminate|].
    apply agent_config_call_type.
  - apply agent_config_valid.
  - unfold create_restaurant_agent. rewrite Hname. cbn [negb].
    change (bind (lift (_validate_agent_config config))
              (λ _, register_agent restaurant_name config) st
            = register_agent restaurant_name config st).
    unfold bind, lift. unfold config. rewrite agent_config_valid. reflexivity.
Qed.

Lemma agent_config_always_valid_witness :
  let customer_info : gmap pystr value :=
    list_to_map [(py "name", VStr (py "Ayush Kumar"))] in
  let config :=
    agent_config no_library (VStr (py "Spice Garden"))
      (default (VStr (py "Customer")) (customer_info !! py "name"))
      (default (VStr (py "customer@example.com")) (customer_info !! py "email")) in
  (∃ name welcome_message,
     config !! py "name" = Some (VStr name) ∧ name ≠ []
     ∧ config !! py "welcome_message" = Some (VStr welcome_message)
     ∧ welcome_message ≠ []
     ∧ config !! py "call_type" = Some (VStr (py "Outgoing")))
  ∧ _validate_agent_config config = Ok true
  ∧ create_restaurant_agent (VStr (py "Spice Garden")) (VDict customer_info)
      (sample_state no_library true 0)
    = register_agent (VStr (py "Spice Garden")) config
        (sample_state no_library true 0).
Proof.
  apply (agent_config_always_valid no_library (VStr (py "Spice Garden"))
           (list_to_map [(py "name", VStr (py "Ayush Kumar"))])
           (sample_state no_library true 0)).
  reflexivity.
Defined.

(** ** Construction *)

Lemma init_needs_credential (E : Env) (arg : value)
    (environ : gmap pystr pystr) :
  truthy arg = false →
  truthy (getenv environ (py "OMNIDIMENSION_API_KEY")) = false →
  ∃ msg, __init__ E (Some arg) environ = Raise (Exn ValueError msg).
Proof.
  intros Harg Henv. unfold __init__, py_or. rewrite Harg, Henv. cbn [negb].
  eexists. reflexivity.
Qed.

Lemma init_success_has_credential (E : Env) (arg : option value)
    (environ : gmap pystr pystr) (s : service) :
  __init__ E arg environ = Ok s → truthy (api_key s) = true.
Proof.
  unfold __init__.
  destruct (truthy (py_or _ _)) eqn:Hkey; cbn [negb]; [|discriminate].
  destruct (Client E) as [make_client|].
  - destruct (make_client _); [|discriminate]. by intros [= <-].
  - by intros [= <-].
Qed.

Lemma init_settings (E : Env) (arg : option value)
    (environ : gmap pystr pystr) (s : service) :
  __init__ E arg environ = Ok s →
  max_retries s = 3 ∧ retry_delay s = 2 ∧ agents_cache s = ∅
  ∧ call_history s = [] ∧ mock_mode s = negb (client s).
Proof.
  unfold __init__. destruct (truthy (py_or _ _)); cbn [negb]; [|discriminate].
  destruct (Client E) as [make_client|].
  - destruct (make_client _); [|discriminate]. by intros [= <-].
  - by intros [= <-].
Qed.

(** C2.  Constructed with no argument and an empty environment, the service
    comes up with the key written into the signature of the constructor,
    whether or not the client library is there: no configuration error is
    raised. *)
Theorem init_without_key_succeeds :
  (∃ s, __init__ no_library None ∅ = Ok s
        ∧ api_key s = VStr default_api_key ∧ mock_mode s = true)
  ∧ (∃ s, __init__ provider_down None ∅ = Ok s
          ∧ api_key s = VStr default_api_key ∧ mock_mode s = false).
Proof. split; eexists; (split; [reflexivity|split; reflexivity]). Qed.

(** ** Failing fast *)

(** C1.  Called with restaurant information that is empty or has no
    (non-empty) name, [make_restaurant_reservation] raises its [ValueError]
    to the caller and leaves everything as it was: the agent cache, the call
    history, the world and the record of provider calls. *)
Theorem reservation_without_name_raises (E : Env)
    (restaurant_info reservation_details customer_info : value)
    (st : state E) :
  lacks_name restaurant_info = Ok true →
  make_restaurant_reservation restaurant_info reservation_details
    customer_info st
  = (Raise (Exn ValueError (py "Restaurant info with name is required")), st).
Proof.
  intros Hname. unfold make_restaurant_reservation, bind, lift.
  rewrite Hname. reflexivity.
Qed.

Lemma reservation_without_name_raises_witness :
  lacks_name (VDict (list_to_map [(py "phone", VStr (py "+919876543210"))]))
  = Ok true
  ∧ make_restaurant_reservation
      (VDict (list_to_map [(py "phone", VStr (py "+919876543210"))]))
      (VDict (list_to_map [(py "party_size", VInt 4)]))
      (VDict (list_to_map [(py "name", VStr (py "Ayush Kumar"))]))
      (sample_state no_library true 0)
    = (Raise (Exn ValueError (py "Restaurant info with name is required")),
       sample_state no_library true 0).
Proof.
  split; [reflexivity|].
  apply (reservation_without_name_raises no_library).
  reflexivity.
Defined.

(** With an empty name the caller gets the exception, not a failure-tagged
    result object. *)
Lemma reservation_empty_name_no_result :
  lacks_name (VDict (list_to_map [(py "name", VStr [])])) = Ok true
  ∧ ¬ is_failure_result
        (fst (make_restaurant_reservation
                (VDict (list_to_map [(py "name", VStr [])]))
                (VDict (list_to_map [(py "party_size", VInt 4)]))
                (VDict (list_to_map [(py "name", VStr (py "Ayush Kumar"))]))
                (sample_state no_library true 0))).
Proof.
  split; [reflexivity|].
  intros [d [Hd _]]. vm_compute in Hd. discriminate Hd.
Qed.

(** C5.  With an agent identifier and a resolved phone number (the one
    given, or the fallback test number) that fails validation, [make_call]
    raises a [ValueError] naming the number and leaves the service and the
    world as they were; in particular nothing is appended to the call
    history. *)
Theorem make_call_invalid_phone (E : Env)
    (agent_id phone_number call_context : value) (st : state E) :
  truthy agent_id = true →
  _validate_phone_number E
    (py_or phone_number (VStr (test_phone (self st)))) = Ok false →
  make_call agent_id phone_number call_context st
  = (Raise (Exn ValueError
       (py "Invalid phone number: "
        ++ str E (py_or phone_number (VStr (test_phone (self st)))))), st).
Proof.
  intros Hagent Hphone. unfold make_call. rewrite Hagent. cbn [negb].
  unfold bind at 1, get_self at 1.
  unfold bind at 1, lift at 1. rewrite Hphone. reflexivity.
Qed.

Lemma make_call_invalid_phone_witness :
  make_call (VStr (py "mock_agent_1")) (VStr (py "12345")) VNone
    (busy_state no_library 0)
  = (Raise (Exn ValueError
       (py "Invalid phone number: "
        ++ str no_library
             (py_or (VStr (py "12345"))
                (VStr (test_phone (self (busy_state no_library 0))))))),
     busy_state no_library 0).
Proof.
  apply (make_call_invalid_phone no_library (VStr (py "mock_agent_1"))
           (VStr (py "12345")) VNone (busy_state no_library 0));
    reflexivity.
Defined.

(** ** The retry wrapper *)

Section AllAttemptsFail.
Context (E : Env) (m : api_method) (args : list value)
  (kwargs : gmap pystr value).
Hypothesis always_fails : ∀ w, ∃ e, fst (api E m args kwargs w) = Raise e.
Hypothesis messages_print :
  ∀ w e, fst (api E m args kwargs w) = Raise e → printable E (exn_str e) = true.

Lemma invoke_fails (st : state E) :
  ∃ e w,
    invoke m args kwargs st
    = (Raise e, {| self := self st; world := w;
                   trace := trace st ++ [EvApi m args kwargs (Raise e)] |})
    ∧ printable E (exn_str e) = true.
Proof.
  unfold invoke. destruct (always_fails (world st)) as [e He].
  pose proof (messages_print (world st) e He) as Hprint.
  destruct (api E m args kwargs (world st)) as [r w]. simpl in He. subst r.
  by exists e, w.
Qed.

Lemma retry_loop_all_fail (len : nat) :
  ∀ (k : nat) (last_exception : option exn) (st : state E),
    Z.of_nat (k + len) = max_retries (self st) →
    0 ≤ retry_delay (self st) →
    ∃ failures st',
      retry_loop (invoke m args kwargs) (Z.of_nat <$> seq k len)
        last_exception st
      = (Raise (default
                  (default (Exn TypeError
                     (py "exceptions must derive from BaseException"))
                     last_exception)
                  (last failures)), st')
      ∧ length failures = len
      ∧ self st' = self st
      ∧ trace st'
        = trace st ++ failed_attempts m args kwargs (retry_delay (self st))
                        (Z.of_nat k) failures
      ∧ Forall (λ e, printable E (exn_str e) = true) failures.
Proof.
  induction len as [|len IH]; intros k last_exception st Hk Hd.
  - exists [], st. cbn. rewrite app_nil_r. by destruct last_exception.
  - cbn [seq fmap list_fmap retry_loop]. unfold try_except.
    destruct (invoke_fails st) as (e0 & w & -> & Hprint).
    rewrite run_bind_get_self. cbn [self].
    destruct len as [|len].
    + (* the final attempt: no wait *)
      destruct (Z.ltb_spec (Z.of_nat k) (max_retries (self st) - 1)); [lia|].
      cbv beta iota.
      rewrite run_bind_print by solve_printable.
      exists [e0]. eexists. cbn. split; [reflexivity|].
      repeat split; try done. by repeat constructor.
    + destruct (Z.ltb_spec (Z.of_nat k) (max_retries (self st) - 1)); [|lia].
      cbv beta iota zeta. unfold bind at 1.
      rewrite run_bind_print by (unfold retry_notice; solve_printable).
      rewrite run_bind_print by solve_printable.
      unfold sleep at 1.
      destruct (Z.ltb_spec (retry_delay (self st) * 2 ^ Z.of_nat k) 0);
        [nia|].
      cbn [self world trace].
      edestruct (IH (S k) (Some e0))
        as (failures & st' & Hrun & Hlen & Hself & Htrace & Hprinted);
        [| |rewrite Hrun]; cbn [self]; [lia|lia|].
      destruct failures as [|e1 failures]; [discriminate|].
      exists (e0 :: e1 :: failures), st'.
      split.
      { rewrite last_cons_cons.
        destruct (last (e1 :: failures)) eqn:Hlast; [reflexivity|].
        by apply last_None in Hlast. } split; [cbn in *; lia|]. split; [exact Hself|].
      split; [|by constructor].
      rewrite Htrace. cbn [trace failed_attempts].
      rewrite <- !app_assoc. cbn [app].
      replace (Z.of_nat (S k)) with (Z.of_nat k + 1) by lia. reflexivity.
Qed.
End AllAttemptsFail.







Example retry_provider_down_trace :
  let down := Exn (ProviderError 503) (py "Service Unavailable") in
  let run :=
    _retry_api_call (invoke agent_create [] ∅)
      (sample_state provider_down false 0) in
  fst run = Raise down
  ∧ trace (snd run)
    = [EvApi agent_create [] ∅ (Raise down); EvSleep 2;
       EvApi agent_create [] ∅ (Raise down); EvSleep 4;
       EvApi agent_create [] ∅ (Raise down)].
Proof. split; reflexivity. Qed.

(** ** What the methods do to [self] *)

Create HintDb preserves.

Section Preserves.
Context {E : Env} (R : service → service → Prop).
Context `{!Reflexive R, !Transitive R}.

Lemma preserves_ret {A} (a : A) : preserves (E:=E) R (ret a).
Proof. intros st. reflexivity. Qed.

Lemma preserves_raise {A} (e : exn) : preserves (E:=E) (A:=A) R (raise e).
Proof. intros st. reflexivity. Qed.

Lemma preserves_lift {A} (r : res A) : preserves (E:=E) R (lift r).
Proof. intros st. reflexivity. Qed.

Lemma preserves_get_self : preserves (E:=E) R get_self.
Proof. intros st. reflexivity. Qed.

Lemma preserves_read_clock clock : preserves (E:=E) R (read_clock clock).
Proof. intros st. unfold read_clock. destruct (clock _). reflexivity. Qed.

Lemma preserves_invoke m args kwargs :
  preserves (E:=E) R (invoke m args kwargs).
Proof. intros st. unfold invoke. destruct (api _ _ _ _ _). reflexivity. Qed.

Lemma preserves_sleep seconds : preserves (E:=E) R (sleep seconds).
Proof. intros st. unfold sleep. destruct (_ <? _); reflexivity. Qed.

Lemma preserves_print text : preserves (E:=E) R (print text).
Proof. intros st. unfold print. destruct (printable _ _); reflexivity. Qed.

Lemma preserves_bind {A B} (c : M E A) (k : A → M E B) :
  preserves R c → (∀ a, preserves R (k a)) → preserves R (bind c k).
Proof.
  intros Hc Hk st. unfold bind. specialize (Hc st).
  destruct (c st) as [[a|e] st1]; [|exact Hc].
  etransitivity; [exact Hc|apply Hk].
Qed.

Lemma preserves_try_except {A} (c : M E A) (h : exn → M E A) :
  preserves R c → (∀ e, preserves R (h e)) → preserves R (try_except c h).
Proof.
  intros Hc Hh st. unfold try_except. specialize (Hc st).
  destruct (c st) as [[a|e] st1]; [exact Hc|].
  etransitivity; [exact Hc|apply Hh].
Qed.

Lemma preserves_update (f : service → service) :
  (∀ s, R s (f s)) →
  preserves (E:=E) R (let* s := get_self in set_self (f s)).
Proof. intros Hf st. apply Hf. Qed.

Ltac preserves_step :=
  first
    [ apply preserves_ret | apply preserves_raise | apply preserves_lift
    | apply preserves_get_self | apply preserves_read_clock
    | apply preserves_invoke | apply preserves_sleep | apply preserves_print
    | assumption
    | solve [auto 1 with preserves nocore]
    | apply preserves_update; solve [auto 1 with preserves nocore]
    | apply preserves_bind; [|intros ?]
    | apply preserves_try_except; [|intros ?]
    | match goal with
      | |- preserves _ (if ?b then _ else _) => destruct b
      | |- preserves _ (match ?x with _ => _ end) => destruct x
      end ].

Lemma preserves_client_attr name : preserves (E:=E) R (client_attr name).
Proof. unfold client_attr. repeat preserves_step. Qed.

Lemma preserves__now : preserves (E:=E) R _now.
Proof. unfold _now. repeat preserves_step. Qed.

Lemma preserves__tomorrow : preserves (E:=E) R _tomorrow.
Proof. unfold _tomorrow. repeat preserves_step. Qed.

Lemma preserves_retry_loop (api_func : M E value) (attempts : list Z) :
  preserves R api_func →
  ∀ last_exception, preserves R (retry_loop api_func attempts last_exception).
Proof.
  intros Hf. induction attempts as [|attempt rest IH]; intros last_exception;
    cbn [retry_loop]; repeat preserves_step; apply IH.
Qed.

Lemma preserves__retry_api_call (api_func : M E value) :
  preserves R api_func → preserves R (_retry_api_call api_func).
Proof.
  intros Hf. unfold _retry_api_call. repeat preserves_step.
  by apply preserves_retry_loop.
Qed.

Lemma preserves_retry_invoke m args kwargs :
  preserves (E:=E) R (_retry_api_call (invoke m args kwargs)).
Proof. apply preserves__retry_api_call, preserves_invoke. Qed.

Lemma preserves_verify_agent agent_id :
  preserves (E:=E) R (verify_agent agent_id).
Proof.
  unfold verify_agent.
  pose proof preserves_client_attr. repeat preserves_step.
Qed.

Lemma preserves_report_dispatch_failure agent_id phone call_context e :
  preserves (E:=E) R (report_dispatch_failure agent_id phone call_context e).
Proof. unfold report_dispatch_failure. repeat preserves_step. Qed.

#[local] Hint Resolve preserves_client_attr preserves__now preserves__tomorrow
  preserves_retry_invoke preserves_verify_agent
  preserves_report_dispatch_failure : preserves.

Lemma preserves_get_call_status call_id :
  preserves (E:=E) R (get_call_status call_id).
Proof. unfold get_call_status. repeat preserves_step. Qed.

Lemma preserves_get_call_logs agent_id page page_size :
  preserves (E:=E) R (get_call_logs agent_id page page_size).
Proof. unfold get_call_logs. repeat preserves_step. Qed.

Lemma preserves_get_agent_details agent_id :
  preserves (E:=E) R (get_agent_details agent_id).
Proof. unfold get_agent_details. repeat preserves_step. Qed.

Lemma preserves_test_api_connection :
  preserves (E:=E) R test_api_connection.
Proof. unfold test_api_connection. repeat preserves_step. Qed.

(** The two assignments to attributes of [self]. *)
Hypothesis caching_allowed :
  ∀ s k v, R s (with_agents_cache s (<[k := v]> (agents_cache s))).
Hypothesis recording_allowed :
  ∀ s r, R s (with_call_history s (call_history s ++ [r])).

#[local] Hint Resolve caching_allowed recording_allowed : preserves.

Lemma preserves_cache_agent agent_id agent_data :
  preserves (E:=E) R (cache_agent agent_id agent_data).
Proof. unfold cache_agent. repeat preserves_step. Qed.

Lemma preserves_record_call call_data :
  preserves (E:=E) R (record_call call_data).
Proof. unfold record_call. repeat preserves_step. Qed.

#[local] Hint Resolve preserves_cache_agent preserves_record_call
  preserves_get_call_status : preserves.

Lemma preserves_register_agent restaurant_name config :
  preserves (E:=E) R (register_agent restaurant_name config).
Proof. unfold register_agent. repeat preserves_step. Qed.

#[local] Hint Resolve preserves_register_agent : preserves.

Lemma preserves_create_restaurant_agent restaurant_name customer_info :
  preserves (E:=E) R (create_restaurant_agent restaurant_name customer_info).
Proof. unfold create_restaurant_agent. repeat preserves_step. Qed.

Lemma preserves_make_call agent_id phone_number call_context :
  preserves (E:=E) R (make_call agent_id phone_number call_context).
Proof. unfold make_call. repeat preserves_step. Qed.

#[local] Hint Resolve preserves_create_restaurant_agent preserves_make_call
  : preserves.

Lemma preserves_make_restaurant_reservation ri rd ci :
  preserves (E:=E) R (make_restaurant_reservation ri rd ci).
Proof.
  unfold make_restaurant_reservation, reservation_steps, reservation_failed.
  repeat preserves_step.
Qed.

Lemma preserves_perform (op : operation) (st : state E) :
  R (self st) (self (perform op st)).
Proof.
  destruct op; cbn [perform].
  - apply preserves_create_restaurant_agent.
  - apply preserves_make_call.
  - apply preserves_get_call_status.
  - apply preserves_get_call_logs.
  - apply preserves_make_restaurant_reservation.
  - apply preserves_get_agent_details.
  - apply preserves_test_api_connection.
Qed.

Lemma preserves_perform_all (ops : list operation) :
  ∀ st : state E, R (self st) (self (perform_all ops st)).
Proof.
  induction ops as [|op ops IH]; intros st; [reflexivity|].
  cbn [perform_all foldl]. etransitivity; [apply preserves_perform|apply IH].
Qed.
End Preserves.

(** ** The agent cache *)

#[local] Instance cache_grows_refl : Reflexive cache_grows.
Proof. intros s. unfold cache_grows. set_solver. Qed.

#[local] Instance cache_grows_trans : Transitive cache_grows.
Proof. intros s1 s2 s3. unfold cache_grows. set_solver. Qed.

Lemma cache_grows_by_caching (s : service) (k : key) (v : value) :
  cache_grows s (with_agents_cache s (<[k := v]> (agents_cache s))).
Proof. unfold cache_grows. cbn. rewrite dom_insert_L. set_solver. Qed.

Lemma cache_grows_by_recording (s : service) (r : value) :
  cache_grows s (with_call_history s (call_history s ++ [r])).
Proof. unfold cache_grows. reflexivity. Qed.

Lemma cache_never_shrinks {E : Env} (ops : list operation) (st : state E) :
  cache_grows (self st) (self (perform_all ops st)).
Proof.
  apply (preserves_perform_all cache_grows);
    auto using cache_grows_by_caching, cache_grows_by_recording.
Qed.

Lemma cache_agent_ok {E : Env} (agent_id agent_data : value)
    (st st' : state E) :
  cache_agent agent_id agent_data st = (Ok tt, st') →
  ∃ k, hash_key agent_id = Some k
       ∧ agents_cache (self st') !! k = Some agent_data.
Proof.
  unfold cache_agent. destruct (hash_key agent_id) as [k|]; [|discriminate].
  intros [= <-]. exists k. split; [reflexivity|]. cbn. apply lookup_insert_eq.
Qed.

Lemma bind_Ok {E : Env} {A B} (c : M E A) (k : A → M E B)
    (st st' : state E) (b : B) :
  bind c k st = (Ok b, st') →
  ∃ a st1, c st = (Ok a, st1) ∧ k a st1 = (Ok b, st').
Proof.
  unfold bind. destruct (c st) as [[a|e] st1]; [|discriminate].
  intros Hk. by exists a, st1.
Qed.

Lemma register_agent_ok {E : Env} (restaurant_name : value)
    (config : gmap pystr value)
    (agent_id agent_data : value) (st st' : state E) :
  register_agent restaurant_name config st = (Ok (agent_id, agent_data), st') →
  ∃ k, hash_key agent_id = Some k
       ∧ agents_cache (self st') !! k = Some agent_data.
Proof.
  unfold register_agent. intros Hrun.
  apply bind_Ok in Hrun as (s & st0 & _ & Hrun).
  apply bind_Ok in Hrun as ([a d] & st1 & _ & Hrun).
  apply bind_Ok in Hrun as ([] & st2 & Hcache & Hret).
  injection Hret as <- <- <-. by eapply cache_agent_ok.
Qed.

Lemma create_restaurant_agent_ok {E : Env} (restaurant_name customer_info : value)
    (agent_id agent_data : value) (st st' : state E) :
  create_restaurant_agent restaurant_name customer_info st
  = (Ok (agent_id, agent_data), st') →
  ∃ config,
    register_agent restaurant_name config st = (Ok (agent_id, agent_data), st').
Proof.
  unfold create_restaurant_agent.
  destruct (truthy restaurant_name); cbn [negb]; [|discriminate].
  unfold bind at 1, lift at 1.
  destruct (dict_get customer_info (py "name") _) as [cn|]; [|discriminate].
  unfold bind at 1, lift at 1.
  destruct (dict_get customer_info (py "email") _) as [ce|]; [|discriminate].
  unfold bind at 1, lift at 1.
  destruct (_validate_agent_config _); [|discriminate].
  intros Hreg. eexists. exact Hreg.
Qed.

(** C7.  The identifier that a successful [create_restaurant_agent] returns
    is hashable, is a key of the agent cache when the call returns, with the
    returned agent data as its entry, and is still a key after any further
    calls of the methods of the service, whether they return or raise. *)
Theorem created_agent_stays_cached (E : Env)
    (restaurant_name customer_info agent_id agent_data : value)
    (st st' : state E) (ops : list operation) :
  create_restaurant_agent restaurant_name customer_info st
  = (Ok (agent_id, agent_data), st') →
  ∃ k, hash_key agent_id = Some k
       ∧ agents_cache (self st') !! k = Some agent_data
       ∧ k ∈ dom (agents_cache (self (perform_all ops st'))).
Proof.
  intros Hcreate.
  apply create_restaurant_agent_ok in Hcreate as [config Hreg].
  apply register_agent_ok in Hreg as (k & Hk & Hcached).
  exists k. split; [exact Hk|]. split; [exact Hcached|].
  apply (cache_never_shrinks ops st'). apply elem_of_dom. by eexists.
Qed.

Lemma created_agent_stays_cached_witness :
  let st := sample_state no_library true 100 in
  let agent_id := VStr (py "mock_agent_100") in
  let agent_data :=
    VDict (list_to_map [
      (py "id", agent_id);
      (py "name", VStr (py "Spice Garden - Booking Assistant for Ayush Kumar"))]) in
  ∃ k, hash_key agent_id = Some k
       ∧ agents_cache
           (self (snd (create_restaurant_agent spice_garden ayush st))) !! k
         = Some agent_data
       ∧ k ∈ dom (agents_cache
                    (self (perform_all later_calls
                             (snd (create_restaurant_agent spice_garden ayush st))))).
Proof.
  apply (created_agent_stays_cached no_library spice_garden ayush
           (VStr (py "mock_agent_100"))
           (VDict (list_to_map [
              (py "id", VStr (py "mock_agent_100"));
              (py "name",
               VStr (py "Spice Garden - Booking Assistant for Ayush Kumar"))]))
           (sample_state no_library true 100)
           (snd (create_restaurant_agent spice_garden ayush
                   (sample_state no_library true 100)))
           later_calls).
  vm_compute. reflexivity.
Defined.

(** ** The call identifier of a dispatched call *)

Lemma extract_call_id_first_truthy (d : gmap pystr value) :
  match first_truthy d with
  | Some call_id =>
      extract_call_id (VDict d) = Ok call_id ∧ truthy call_id = true
  | None => ∃ v, extract_call_id (VDict d) = Ok v ∧ truthy v = false
  end.
Proof.
  unfold first_truthy, extract_call_id, dict_get.
  cbn [omap list_omap].
  destruct (d !! py "id") as [a|], (d !! py "call_id") as [b|],
    (d !! py "uuid") as [c|]; cbn [List.find option_bind mbind];
    repeat match goal with
      | |- context [truthy ?v] =>
          lazymatch v with
          | VNone => change (truthy VNone) with false; cbn iota
          | _ => is_var v; destruct (truthy v) eqn:?
          end
      end;
    first [ by split | by eexists ].
Qed.

Lemma record_call_ok {E : Env} (d : gmap pystr value) (st : state E) :
  fst (record_call (VDict d) st) = Ok tt.
Proof.
  unfold record_call, _now, read_clock, bind.
  destruct (datetime_now E (world st)). reflexivity.
Qed.

Lemma run_client_attr {E : Env} (name : pystr) (st : state E) :
  client (self st) = true → client_attr name st = (Ok tt, st).
Proof. intros Hclient. unfold client_attr, bind, get_self. by rewrite Hclient. Qed.

Lemma run_client_attr_missing {E : Env} (name : pystr) (st : state E) :
  client (self st) = false →
  client_attr name st = (Raise (no_attribute VNone name), st).
Proof. intros Hclient. unfold client_attr, bind, get_self. by rewrite Hclient. Qed.

Lemma all_printable_cons (E : Env) (v : value) (values : list value) :
  all_printable E (v :: values) = true →
  printable E (str E v) = true ∧ all_printable E values = true.
Proof. apply andb_prop. Qed.

(** C6, as the code has it.  In real mode, once the agent identifier and the
    phone number are accepted, the check of the agent has completed and the
    dispatch call (retries included) has returned a response that
    normalizes to a mapping, and provided standard output can encode what
    the method prints on the way (agent identifier, phone number, call
    context, response, call identifier), the call identifier is the first
    of the values under [id], [call_id] and [uuid] that is present and
    true; when there is none, [make_call] raises a [ValueError] and records
    nothing. *)
Theorem make_call_takes_first_truthy_id (E : Env)
    (agent_id phone_number call_context response : value)
    (d : gmap pystr value) (st st1 st2 : state E) :
  truthy agent_id = true →
  mock_mode (self st) = false →
  client (self st) = true →
  let phone := py_or phone_number (VStr (test_phone (self st))) in
  let context := py_or call_context (VDict ∅) in
  _validate_phone_number E phone = Ok true →
  verify_agent agent_id st = (Ok tt, st1) →
  _retry_api_call
    (invoke call_dispatch_call [] (dispatch_kwargs agent_id phone context)) st1
  = (Ok response, st2) →
  _handle_response response = VDict d →
  all_printable E [agent_id; phone; context; response; VDict d] = true →
  (∀ call_id, first_truthy d = Some call_id →
              printable E (str E call_id) = true) →
  match first_truthy d with
  | Some call_id =>
      fst (make_call agent_id phone_number call_context st)
      = Ok (call_id, VDict d)
  | None =>
      make_call agent_id phone_number call_context st
      = (Raise (Exn ValueError
           (py "Call dispatch failed - no call ID returned. Response: "
            ++ str E (VDict d))), st2)
  end.
Proof.
  intros Hagent Hmock Hclient phone context Hphone Hverify Hdispatch Hnormal
    Hlog Hid_print.
  apply all_printable_cons in Hlog as [Hagent_print Hlog].
  apply all_printable_cons in Hlog as [Hphone_print Hlog].
  apply all_printable_cons in Hlog as [Hcontext_print Hlog].
  apply all_printable_cons in Hlog as [Hresponse_print Hlog].
  apply all_printable_cons in Hlog as [Hdata_print _].
  pose proof (preserves_verify_agent eq agent_id st) as Hself1.
  rewrite Hverify in Hself1. cbn [snd] in Hself1.
  assert (client (self st1) = true) as Hclient1 by (by rewrite <- Hself1).
  pose proof (extract_call_id_first_truthy d) as Hid.
  unfold make_call. rewrite Hagent. cbn [negb].
  rewrite run_bind_get_self. fold phone. rewrite Hphone, run_bind_lift.
  cbn [negb]. rewrite run_bind_get_self, Hmock. cbn [negb].
  rewrite (run_bind _ _ _ _ _ Hverify).
  rewrite run_bind_get_self, <- Hself1, Hmock.
  fold context.
  destruct (first_truthy d) as [call_id|].
  - destruct Hid as [Hid Htrue].
    erewrite run_bind; cycle 1.
    { apply run_try_Ok.
      rewrite run_bind_print by solve_printable.
      rewrite (run_bind _ _ _ _ _ (run_client_attr _ st1 Hclient1)).
      rewrite (run_bind _ _ _ _ _ Hdispatch).
      rewrite run_bind_print by solve_printable.
      rewrite Hnormal, Hid, run_bind_lift, Htrue. cbn [negb].
      rewrite run_bind_print by (specialize (Hid_print _ eq_refl); solve_printable).
      reflexivity. }
    cbv beta iota.
    pose proof (record_call_ok d st2) as Hrec.
    unfold bind at 1.
    destruct (record_call (VDict d) st2) as [r st3]. cbn in Hrec. subst r.
    reflexivity.
  - destruct Hid as (v & Hid & Hfalse).
    erewrite run_bind_raise; [reflexivity|].
    erewrite run_try_Raise; cycle 1.
    { rewrite run_bind_print by solve_printable.
      rewrite (run_bind _ _ _ _ _ (run_client_attr _ st1 Hclient1)).
      rewrite (run_bind _ _ _ _ _ Hdispatch).
      rewrite run_bind_print by solve_printable.
      rewrite Hnormal, Hid, run_bind_lift, Hfalse. reflexivity. }
    unfold report_dispatch_failure.
    unfold bind at 1.
    rewrite run_bind_print by solve_printable.
    rewrite run_bind_print by reflexivity.
    cbn [response_attr exn_kind_of]. rewrite run_bind_ret.
    rewrite run_bind_print by reflexivity.
    rewrite run_bind_print by solve_printable.
    rewrite run_bind_print by solve_printable.
    rewrite print_ok by solve_printable.
    reflexivity.
Qed.

Lemma make_call_takes_first_truthy_id_witness :
  fst (make_call (VStr (py "agent-4")) VNone VNone
         (sample_state empty_id_provider false 0))
  = Ok (VStr (py "call-17"), VDict empty_id_response).
Proof.
  refine (make_call_takes_first_truthy_id empty_id_provider
            (VStr (py "agent-4")) VNone VNone (VDict empty_id_response)
            empty_id_response (sample_state empty_id_provider false 0)
            (snd (verify_agent (VStr (py "agent-4"))
                    (sample_state empty_id_provider false 0)))
            (snd (_retry_api_call
                    (invoke call_dispatch_call []
                       (dispatch_kwargs (VStr (py "agent-4"))
                          (VStr (py "+919548999129")) (VDict ∅)))
                    (snd (verify_agent (VStr (py "agent-4"))
                            (sample_state empty_id_provider false 0)))))
            _ _ _ _ _ _ _ _ _); try reflexivity.
  intros call_id [= <-]. reflexivity.
Defined.

(** The identifier is not the value of the first key that is present:
    here [id] is present, with an empty value, and [call_id] is taken. *)
Lemma make_call_skips_empty_id :
  first_present empty_id_response = Some (VStr [])
  ∧ fst (make_call (VStr (py "agent-4")) VNone VNone
           (sample_state empty_id_provider false 0))
    = Ok (VStr (py "call-17"), VDict empty_id_response).
Proof. split; reflexivity. Qed.

(** ** A whole reservation in mock mode *)

Example reservation_in_mock_mode :
  let run :=
    make_restaurant_reservation spice_garden_info dinner_for_four ayush
      (sample_state no_library true 100) in
  result_field (fst run) (py "success") = Some (VBool true)
  ∧ result_field (fst run) (py "restaurant") = Some spice_garden
  ∧ result_field (fst run) (py "target_phone")
    = Some (VStr (py "+919876543210"))
  ∧ result_field (fst run) (py "agent_id") = Some (VStr (py "mock_agent_100"))
  ∧ (λ record, result_field (Ok record) (py "agent_id"))
      <$> call_history (self (snd run))
    = [Some (VStr (py "mock_agent_100"))]
  ∧ trace (snd run) = [].
Proof. vm_compute. repeat split. Qed.

(** * Further properties *)

(** ** The retry wrapper, whatever the provider does *)

Lemma printable_retry_notice (E : Env) (attempt max_retries : Z) (e : exn) :
  printable E (retry_notice E attempt max_retries e) = printable E (exn_str e).
Proof.
  unfold retry_notice. rewrite !printable_app, !printable_int.
  reflexivity.
Qed.

Lemma retry_loop_shape {E : Env} (m : api_method) (args : list value)
    (kwargs : gmap pystr value) (len : nat) :
  ∀ (k : nat) (last_exception : option exn) (st : state E),
    Z.of_nat (k + S len) = max_retries (self st) →
    0 ≤ retry_delay (self st) →
    ∃ failures final r st',
      retry_loop (invoke m args kwargs) (Z.of_nat <$> seq k (S len))
        last_exception st = (r, st')
      ∧ self st' = self st
      ∧ trace st'
        = trace st ++ retry_events m args kwargs (retry_delay (self st))
                        (Z.of_nat k) failures final
      ∧ (length failures ≤ len)%nat
      ∧ Forall (λ e, printable E (exn_str e) = true) failures
      ∧ retry_outcome E r final (length failures = len).
Proof.
  induction len as [|len IH]; intros k last_exception st Hk Hd;
    [cbn [seq fmap list_fmap]
    |change (Z.of_nat <$> seq k (S (S len)))
       with (Z.of_nat k :: (Z.of_nat <$> seq (S k) (S len)))];
    cbn [retry_loop]; unfold try_except, invoke at 1;
    destruct (api E m args kwargs (world st)) as [[v|e0] w] eqn:Hapi.
  - exists [], (Ok v), (Ok v). eexists.
    split; [reflexivity|]. split; [reflexivity|]. split; [reflexivity|].
    split; [cbn; lia|]. split; [constructor|]. by left.
  - rewrite run_bind_get_self. cbn [self].
    destruct (Z.ltb_spec (Z.of_nat k) (max_retries (self st) - 1)); [lia|].
    cbv beta iota. rewrite run_bind_print by solve_printable.
    exists [], (Raise e0), (Raise e0). eexists.
    split; [reflexivity|]. split; [reflexivity|]. split; [reflexivity|].
    split; [cbn; lia|]. split; [constructor|]. by left.
  - exists [], (Ok v), (Ok v). eexists.
    split; [reflexivity|]. split; [reflexivity|]. split; [reflexivity|].
    split; [cbn; lia|]. split; [constructor|]. by left.
  - rewrite run_bind_get_self. cbn [self].
    destruct (Z.ltb_spec (Z.of_nat k) (max_retries (self st) - 1)); [|lia].
    cbv beta iota zeta. unfold bind at 1.
    destruct (printable E (exn_str e0)) eqn:Hprint.
    + rewrite run_bind_print by (by rewrite printable_retry_notice).
      rewrite run_bind_print by solve_printable.
      unfold sleep at 1.
      destruct (Z.ltb_spec (retry_delay (self st) * 2 ^ Z.of_nat k) 0); [nia|].
      cbn [self world trace].
      edestruct (IH (S k) (Some e0))
        as (failures & final & r & st' & Hrun & Hself & Htrace & Hlen
            & Hprinted & Hend);
        [| |rewrite Hrun]; cbn [self]; [lia|lia|].
      exists (e0 :: failures), final, r, st'.
      split; [reflexivity|]. split; [exact Hself|].
      split; [|split; [cbn; lia|split; [by constructor|]]].
      * rewrite Htrace. cbn [trace retry_events].
        rewrite <- !app_assoc. cbn [app].
        replace (Z.of_nat (S k)) with (Z.of_nat k + 1) by lia. reflexivity.
      * destruct Hend as [[-> Hall]|(Hfinal & Hr & Hleft)]; [left|right].
        -- split; [reflexivity|]. intros e He. cbn. f_equal. by eapply Hall.
        -- split; [exact Hfinal|]. split; [exact Hr|]. cbn. lia.
    + unfold bind at 1.
      rewrite print_fails by (by rewrite printable_retry_notice).
      exists [], (Raise e0). eexists. eexists.
      split; [reflexivity|]. split; [reflexivity|]. split; [reflexivity|].
      split; [cbn; lia|]. split; [constructor|].
      right. split; [by exists e0|]. split; [by eexists|]. cbn. lia.
Qed.

Lemma retry_shape {E : Env} (m : api_method) (args : list value)
    (kwargs : gmap pystr value) (st : state E) :
  1 ≤ max_retries (self st) →
  0 ≤ retry_delay (self st) →
  ∃ failures final r st',
    _retry_api_call (invoke m args kwargs) st = (r, st')
    ∧ self st' = self st
    ∧ trace st'
      = trace st ++ retry_events m args kwargs (retry_delay (self st)) 0
                      failures final
    ∧ Z.of_nat (length failures) < max_retries (self st)
    ∧ Forall (λ e, printable E (exn_str e) = true) failures
    ∧ retry_outcome E r final
        (Z.of_nat (S (length failures)) = max_retries (self st)).
Proof.
  intros Hn Hd. unfold _retry_api_call, bind at 1, get_self at 1, range.
  destruct (Z.to_nat (max_retries (self st))) as [|len] eqn:Hlen; [lia|].
  destruct (retry_loop_shape m args kwargs len 0 None st)
    as (failures & final & r & st' & Hrun & Hself & Htrace & Hle & Hprinted
        & Hend);
    [lia|done|].
  exists failures, final, r, st'. split; [exact Hrun|]. split; [exact Hself|].
  split; [exact Htrace|]. split; [lia|]. split; [exact Hprinted|].
  destruct Hend as [[-> Hall]|(Hfinal & Hr & Hleft)]; [left|right].
  - split; [reflexivity|]. intros e He. specialize (Hall e He). lia.
  - split; [exact Hfinal|]. split; [exact Hr|]. lia.
Qed.

Lemma retry_events_invocations m args kwargs d failures final :
  ∀ i, length (List.filter is_invocation
                 (retry_events m args kwargs d i failures final))
       = S (length failures).
Proof.
  induction failures as [|e later IH]; intros i; [reflexivity|].
  cbn [retry_events List.filter is_invocation length]. f_equal. apply IH.
Qed.

Lemma retry_events_last m args kwargs d failures final :
  ∀ i, last (retry_events m args kwargs d i failures final)
       = Some (EvApi m args kwargs final).
Proof.
  induction failures as [|e later IH]; intros i; [reflexivity|].
  cbn [retry_events]. rewrite last_cons_cons.
  destruct later as [|e' later]; [reflexivity|].
  specialize (IH (i + 1)). cbn [retry_events] in *.
  by rewrite last_cons_cons.
Qed.

Lemma retry_events_total_wait m args kwargs d failures final :
  ∀ i : nat,
    total_wait (retry_events m args kwargs d (Z.of_nat i) failures final)
    = d * 2 ^ Z.of_nat i * (2 ^ Z.of_nat (length failures) - 1).
Proof.
  unfold total_wait.
  induction failures as [|e later IH]; intros i; [cbn; lia|].
  change (waits (retry_events m args kwargs d (Z.of_nat i) (e :: later) final))
    with (d * 2 ^ Z.of_nat i
          :: waits (retry_events m args kwargs d (Z.of_nat i + 1) later final)).
  replace (Z.of_nat i + 1) with (Z.of_nat (S i)) by lia.
  cbn [foldr]. rewrite IH. cbn [length].
  rewrite !Nat2Z.inj_succ, !Z.pow_succ_r by lia. ring.
Qed.

(** X1.  Whatever the provider does, [_retry_api_call] invokes the client
    method at least once and at most [max_retries] times, every attempt
    before the last one having failed, with a message that was printed, and
    being followed by a wait of [retry_delay * 2 ^ i].  It ends with the
    outcome of its last invocation, which is a failure only when all
    [max_retries] attempts are spent; or, when the last invocation failed
    with attempts left and with a message standard output cannot encode,
    with the [UnicodeEncodeError] of the [print] that announces the retry.
    The attributes of the service are not touched. *)
Theorem retry_stops_at_first_success (E : Env) (m : api_method)
    (args : list value) (kwargs : gmap pystr value) (st : state E) :
  1 ≤ max_retries (self st) →
  0 ≤ retry_delay (self st) →
  ∃ failures final r st' evs,
    _retry_api_call (invoke m args kwargs) st = (r, st')
    ∧ self st' = self st
    ∧ trace st' = trace st ++ evs
    ∧ evs = retry_events m args kwargs (retry_delay (self st)) 0 failures final
    ∧ length (List.filter is_invocation evs) = S (length failures)
    ∧ Z.of_nat (S (length failures)) ≤ max_retries (self st)
    ∧ last evs = Some (EvApi m args kwargs final)
    ∧ Forall (λ e, printable E (exn_str e) = true) failures
    ∧ (r = final
       ∧ (∀ e, final = Raise e →
               Z.of_nat (S (length failures)) = max_retries (self st))
       ∨ (∃ e, final = Raise e ∧ printable E (exn_str e) = false)
         ∧ (∃ e', r = Raise e' ∧ exn_kind_of e' = UnicodeEncodeError)
         ∧ Z.of_nat (S (length failures)) < max_retries (self st)).
Proof.
  intros Hn Hd.
  destruct (retry_shape m args kwargs st Hn Hd)
    as (failures & final & r & st' & Hrun & Hself & Htrace & Hlt & Hprinted
        & Hend).
  exists failures, final, r, st'. eexists.
  split; [exact Hrun|]. split; [exact Hself|]. split; [exact Htrace|].
  split; [reflexivity|]. split; [apply retry_events_invocations|].
  split; [lia|]. split; [apply retry_events_last|].
  split; [exact Hprinted|].
  destruct Hend as [[-> Hall]|(Hfinal & Hr & Hleft)]; [left|right].
  - split; [reflexivity|exact Hall].
  - split; [exact Hfinal|]. split; [exact Hr|]. lia.
Qed.

Lemma retry_stops_at_first_success_witness :
  ∃ failures final r st' evs,
    _retry_api_call (invoke agent_create [] ∅)
      (sample_state recovering_provider false 0) = (r, st')
    ∧ self st' = sample_service false
    ∧ trace st' = [] ++ evs
    ∧ evs = retry_events agent_create [] ∅ 2 0 failures final
    ∧ length (List.filter is_invocation evs) = S (length failures)
    ∧ Z.of_nat (S (length failures)) ≤ 3
    ∧ last evs = Some (EvApi agent_create [] ∅ final)
    ∧ Forall (λ e, printable recovering_provider (exn_str e) = true) failures
    ∧ (r = final
       ∧ (∀ e, final = Raise e → Z.of_nat (S (length failures)) = 3)
       ∨ (∃ e, final = Raise e
               ∧ printable recovering_provider (exn_str e) = false)
         ∧ (∃ e', r = Raise e' ∧ exn_kind_of e' = UnicodeEncodeError)
         ∧ Z.of_nat (S (length failures)) < 3).
Proof.
  apply (retry_stops_at_first_success recovering_provider agent_create [] ∅
           (sample_state recovering_provider false 0)); cbn; lia.
Defined.

Example retry_recovers_after_two_failures :
  let down := Exn (ProviderError 503) (py "Service Unavailable") in
  let agent := VDict (list_to_map [(py "id", VStr (py "agent-4"))]) in
  let run :=
    _retry_api_call (invoke agent_create [] ∅)
      (sample_state recovering_provider false 0) in
  fst run = Ok agent
  ∧ trace (snd run)
    = [EvApi agent_create [] ∅ (Raise down); EvSleep 2;
       EvApi agent_create [] ∅ (Raise down); EvSleep 4;
       EvApi agent_create [] ∅ (Ok agent)].
Proof. split; reflexivity. Qed.

(** X2.  The time [_retry_api_call] spends sleeping is bounded by the
    settings alone: at most [retry_delay * (2 ^ (max_retries - 1) - 1)]
    seconds, which is 6 seconds for a service as constructed. *)
Theorem retry_total_wait_bounded (E : Env) (m : api_method)
    (args : list value) (kwargs : gmap pystr value) (st : state E) :
  1 ≤ max_retries (self st) →
  0 ≤ retry_delay (self st) →
  ∃ evs,
    trace (snd (_retry_api_call (invoke m args kwargs) st)) = trace st ++ evs
    ∧ 0 ≤ total_wait evs
      ≤ retry_delay (self st) * (2 ^ (max_retries (self st) - 1) - 1).
Proof.
  intros Hn Hd.
  destruct (retry_shape m args kwargs st Hn Hd)
    as (failures & final & r & st' & Hrun & _ & Htrace & Hlt & _).
  rewrite Hrun. cbn [snd]. eexists. split; [exact Htrace|].
  rewrite (retry_events_total_wait _ _ _ _ _ _ 0%nat).
  change (2 ^ Z.of_nat 0) with 1. rewrite Z.mul_1_r.
  assert (1 ≤ 2 ^ Z.of_nat (length failures)
          ≤ 2 ^ (max_retries (self st) - 1)) as [Hlo Hhi].
  { split; [apply (Z.pow_le_mono_r 2 0); lia|apply Z.pow_le_mono_r; lia]. }
  split; nia.
Qed.

Lemma retry_total_wait_bounded_witness :
  ∃ evs,
    trace (snd (_retry_api_call (invoke agent_create [] ∅)
                  (sample_state provider_down false 0))) = [] ++ evs
    ∧ 0 ≤ total_wait evs ≤ 2 * (2 ^ (3 - 1) - 1).
Proof.
  apply (retry_total_wait_bounded provider_down agent_create [] ∅
           (sample_state provider_down false 0)); cbn; lia.
Defined.

(** X3.  With [max_retries] set to 0 or less the loop body never runs: the
    operation is not invoked at all and the final [raise] of a missing
    exception is a [TypeError]; nothing changes. *)
Theorem retry_without_attempts (E : Env) (api_func : M E value)
    (st : state E) :
  max_retries (self st) ≤ 0 →
  _retry_api_call api_func st
  = (Raise (Exn TypeError (py "exceptions must derive from BaseException")),
     st).
Proof.
  intros Hn. unfold _retry_api_call, bind, get_self, range.
  replace (Z.to_nat (max_retries (self st))) with 0%nat by lia. reflexivity.
Qed.

Lemma retry_without_attempts_witness :
  _retry_api_call (invoke agent_create [] ∅) no_retry_state
  = (Raise (Exn TypeError (py "exceptions must derive from BaseException")),
     no_retry_state).
Proof.
  apply (retry_without_attempts provider_down (invoke agent_create [] ∅)).
  cbn. lia.
Defined.

(** ** What no method ever does *)

#[local] Instance history_grows_refl : Reflexive history_grows.
Proof. intros s. unfold history_grows. reflexivity. Qed.

#[local] Instance history_grows_trans : Transitive history_grows.
Proof. intros s1 s2 s3. unfold history_grows. apply transitivity. Qed.

#[local] Instance same_settings_refl : Reflexive same_settings.
Proof. intros s. by repeat split. Qed.

#[local] Instance same_settings_trans : Transitive same_settings.
Proof.
  intros s1 s2 s3 (?&?&?&?&?&?) (?&?&?&?&?&?).
  repeat split; congruence.
Qed.

(** X4.  The call history is append-only: whatever methods are called, with
    whatever arguments and whether they return or raise, the records that
    were in [call_history] stay where they were, in order, at its front. *)
Theorem call_history_append_only (E : Env) (ops : list operation)
    (st : state E) :
  call_history (self st) `prefix_of` call_history (self (perform_all ops st)).
Proof.
  apply (preserves_perform_all history_grows).
  - intros s k v. unfold history_grows. reflexivity.
  - intros s r. unfold history_grows. cbn. by apply prefix_app_r.
Qed.

(** X5.  No method reassigns what the constructor set: the API key, the
    client, the mock-mode flag, the fallback phone number and the retry
    settings are the same after any sequence of calls. *)
Theorem settings_never_change (E : Env) (ops : list operation)
    (st : state E) :
  same_settings (self st) (self (perform_all ops st)).
Proof.
  apply (preserves_perform_all same_settings).
  - intros s k v. by repeat split.
  - intros s r. by repeat split.
Qed.

(** X6.  The four readers [get_call_status], [get_call_logs],
    [get_agent_details] and [test_api_connection] leave every attribute of
    the service as it was, in mock mode and in real mode, on success and on
    failure: they neither cache an agent nor record a call. *)
Theorem readers_leave_self_alone (E : Env)
    (call_id agent_id page page_size : value) (st : state E) :
  self (snd (get_call_status call_id st)) = self st
  ∧ self (snd (get_call_logs agent_id page page_size st)) = self st
  ∧ self (snd (get_agent_details agent_id st)) = self st
  ∧ self (snd (test_api_connection st)) = self st.
Proof.
  repeat split; symmetry.
  - apply (preserves_get_call_status eq).
  - apply (preserves_get_call_logs eq).
  - apply (preserves_get_agent_details eq).
  - apply (preserves_test_api_connection eq).
Qed.

(** ** Mock mode *)

Create HintDb quiet.

Section Quiet.
Context {E : Env}.

Lemma quiet_ret {A} (a : A) : quiet (E:=E) (ret a).
Proof. intros st Hmock. by split. Qed.

Lemma quiet_raise {A} (e : exn) : quiet (E:=E) (A:=A) (raise e).
Proof. intros st Hmock. by split. Qed.

Lemma quiet_lift {A} (r : res A) : quiet (E:=E) (lift r).
Proof. intros st Hmock. by split. Qed.

Lemma quiet_read_clock clock : quiet (E:=E) (read_clock clock).
Proof. intros st Hmock. unfold read_clock. destruct (clock _). by split. Qed.

Lemma quiet_print text : quiet (E:=E) (print text).
Proof. intros st Hmock. unfold print. destruct (printable _ _); by split. Qed.

Lemma quiet_bind {A B} (c : M E A) (k : A → M E B) :
  quiet c → (∀ a, quiet (k a)) → quiet (bind c k).
Proof.
  intros Hc Hk st Hmock. unfold bind. destruct (Hc st Hmock) as [Htrace Hstay].
  destruct (c st) as [[a|e] st1]; [|by split].
  cbn [snd] in *. destruct (Hk a st1 Hstay) as [Htrace' Hstay'].
  split; [congruence|exact Hstay'].
Qed.

Lemma quiet_try_except {A} (c : M E A) (h : exn → M E A) :
  quiet c → (∀ e, quiet (h e)) → quiet (try_except c h).
Proof.
  intros Hc Hh st Hmock. unfold try_except.
  destruct (Hc st Hmock) as [Htrace Hstay].
  destruct (c st) as [[a|e] st1]; [by split|].
  cbn [snd] in *. destruct (Hh e st1 Hstay) as [Htrace' Hstay'].
  split; [congruence|exact Hstay'].
Qed.

Lemma quiet_with_self {A} (k : service → M E A) :
  (∀ s, mock_mode s = true → quiet (k s)) → quiet (bind get_self k).
Proof. intros Hk st Hmock. by apply (Hk (self st)). Qed.

Lemma quiet_update (f : service → service) :
  (∀ s, mock_mode (f s) = mock_mode s) →
  quiet (E:=E) (let* s := get_self in set_self (f s)).
Proof. intros Hf st Hmock. split; [reflexivity|]. cbn. by rewrite Hf. Qed.

Ltac quiet_step :=
  first
    [ apply quiet_ret | apply quiet_raise | apply quiet_lift
    | apply quiet_read_clock | apply quiet_print
    | solve [auto 1 with quiet nocore]
    | apply quiet_update; intros ?; reflexivity
    | apply quiet_with_self; intros ? ?
    | apply quiet_bind; [|intros ?]
    | apply quiet_try_except; [|intros ?]
    | match goal with
      | H : mock_mode ?s = true |- context [mock_mode ?s] =>
          rewrite H; cbn [negb]
      | |- quiet (if ?b then _ else _) => destruct b
      | |- quiet (match ?x with _ => _ end) => destruct x
      end ].

Lemma quiet__now : quiet (E:=E) _now.
Proof. unfold _now. repeat quiet_step. Qed.

Lemma quiet__tomorrow : quiet (E:=E) _tomorrow.
Proof. unfold _tomorrow. repeat quiet_step. Qed.

#[local] Hint Resolve quiet__now quiet__tomorrow : quiet.

Lemma quiet_cache_agent agent_id agent_data :
  quiet (E:=E) (cache_agent agent_id agent_data).
Proof. unfold cache_agent. repeat quiet_step. Qed.

Lemma quiet_record_call call_data : quiet (E:=E) (record_call call_data).
Proof. unfold record_call. repeat quiet_step. Qed.

#[local] Hint Resolve quiet_cache_agent quiet_record_call : quiet.

Lemma quiet_register_agent restaurant_name config :
  quiet (E:=E) (register_agent restaurant_name config).
Proof. unfold register_agent. repeat quiet_step. Qed.

#[local] Hint Resolve quiet_register_agent : quiet.

Lemma quiet_create_restaurant_agent restaurant_name customer_info :
  quiet (E:=E) (create_restaurant_agent restaurant_name customer_info).
Proof. unfold create_restaurant_agent. repeat quiet_step. Qed.

Lemma quiet_make_call agent_id phone_number call_context :
  quiet (E:=E) (make_call agent_id phone_number call_context).
Proof. unfold make_call. repeat quiet_step. Qed.

Lemma quiet_get_call_status call_id : quiet (E:=E) (get_call_status call_id).
Proof. unfold get_call_status. repeat quiet_step. Qed.

Lemma quiet_get_call_logs agent_id page page_size :
  quiet (E:=E) (get_call_logs agent_id page page_size).
Proof. unfold get_call_logs. repeat quiet_step. Qed.

Lemma quiet_get_agent_details agent_id :
  quiet (E:=E) (get_agent_details agent_id).
Proof. unfold get_agent_details. repeat quiet_step. Qed.

Lemma quiet_test_api_connection : quiet (E:=E) test_api_connection.
Proof. unfold test_api_connection. repeat quiet_step. Qed.

#[local] Hint Resolve quiet_create_restaurant_agent quiet_make_call
  quiet_get_call_status : quiet.

Lemma quiet_make_restaurant_reservation ri rd ci :
  quiet (E:=E) (make_restaurant_reservation ri rd ci).
Proof.
  unfold make_restaurant_reservation, reservation_steps, reservation_failed.
  repeat quiet_step.
Qed.

Lemma quiet_perform (op : operation) (st : state E) :
  mock_mode (self st) = true →
  trace (perform op st) = trace st ∧ mock_mode (self (perform op st)) = true.
Proof.
  destruct op; cbn [perform].
  - apply quiet_create_restaurant_agent.
  - apply quiet_make_call.
  - apply quiet_get_call_status.
  - apply quiet_get_call_logs.
  - apply quiet_make_restaurant_reservation.
  - apply quiet_get_agent_details.
  - apply quiet_test_api_connection.
Qed.
End Quiet.

(** X7.  A service in mock mode never reaches the provider: whatever methods
    are called, no client method is invoked and no retry wait is slept. *)
Theorem mock_mode_makes_no_external_call (E : Env) (ops : list operation) :
  ∀ st : state E,
    mock_mode (self st) = true →
    trace (perform_all ops st) = trace st.
Proof.
  induction ops as [|op ops IH]; intros st Hmock; [reflexivity|].
  cbn [perform_all foldl]. destruct (quiet_perform op st Hmock) as [Ht Hm].
  fold (perform_all ops (perform op st)). rewrite (IH _ Hm). exact Ht.
Qed.

Lemma mock_mode_makes_no_external_call_witness :
  trace (perform_all later_calls (sample_state no_library true 100)) = [].
Proof.
  apply (mock_mode_makes_no_external_call no_library later_calls
           (sample_state no_library true 100)).
  reflexivity.
Defined.

(** ** Outcomes of the two builders *)

Lemma bind_inv {E : Env} {A B} (c : M E A) (k : A → M E B)
    (st st' : state E) (r : res B) :
  bind c k st = (r, st') →
  (∃ e, c st = (Raise e, st') ∧ r = Raise e)
  ∨ (∃ a st1, c st = (Ok a, st1) ∧ k a st1 = (r, st')).
Proof.
  unfold bind. destruct (c st) as [[a|e] st1].
  - intros Hk. right. by exists a, st1.
  - intros [= <- <-]. left. by exists e.
Qed.

Lemma try_inv {E : Env} {A} (c : M E A) (h : exn → M E A)
    (st st' : state E) (r : res A) :
  try_except c h st = (r, st') →
  (∃ a, c st = (Ok a, st') ∧ r = Ok a)
  ∨ (∃ e st1, c st = (Raise e, st1) ∧ h e st1 = (r, st')).
Proof.
  unfold try_except. destruct (c st) as [[a|e] st1].
  - intros [= <- <-]. left. by exists a.
  - intros Hh. right. by exists e, st1.
Qed.

Lemma keeps_self {E : Env} {A} (c : M E A) (st st1 : state E) (r : res A) :
  preserves eq c → c st = (r, st1) → self st1 = self st.
Proof. intros Hc Hrun. specialize (Hc st). by rewrite Hrun in Hc. Qed.

Lemma extract_call_id_Ok (call_data call_id : value) :
  extract_call_id call_data = Ok call_id → ∃ d, call_data = VDict d.
Proof. destruct call_data; try discriminate. by eexists. Qed.

Ltac bind_cases H :=
  let e := fresh "e" in
  let a := fresh "a" in
  let st1 := fresh "st1" in
  let Hc := fresh "Hc" in
  let Heq := fresh "Heq" in
  apply bind_inv in H as [(e & Hc & Heq)|(a & st1 & Hc & H)];
  [try discriminate Heq; try (injection Heq as Heq); subst|].

Lemma record_call_outcome {E : Env} (call_data : value) (st st' : state E)
    (r : res unit) :
  record_call call_data st = (r, st') →
  match r with
  | Ok _ =>
      ∃ d now,
        call_data = VDict d
        ∧ self st'
          = with_call_history (self st)
              (call_history (self st) ++ [VDict (<[py "timestamp" := VStr now]> d)])
  | Raise _ => self st' = self st
  end.
Proof.
  unfold record_call. destruct call_data as [| | | | | |d];
    try (intros [= <- <-]; reflexivity).
  intros Hrun. bind_cases Hrun.
  - apply (keeps_self _ _ _ _ (preserves__now eq)) in Hc. exact Hc.
  - apply (keeps_self _ _ _ _ (preserves__now eq)) in Hc.
    unfold bind, get_self, set_self in Hrun. injection Hrun as <- <-.
    exists d, a. cbn [self]. by rewrite Hc.
Qed.

Lemma cache_agent_outcome {E : Env} (agent_id agent_data : value)
    (st st' : state E) (r : res unit) :
  cache_agent agent_id agent_data st = (r, st') →
  match r with
  | Ok _ =>
      ∃ k, hash_key agent_id = Some k
           ∧ self st'
             = with_agents_cache (self st)
                 (<[k := agent_data]> (agents_cache (self st)))
  | Raise _ => self st' = self st
  end.
Proof.
  unfold cache_agent. destruct (hash_key agent_id) as [k|].
  - intros [= <- <-]. by exists k.
  - by intros [= <- <-].
Qed.

Lemma Ok_inj {A} (a b : A) : Ok a = Ok b → a = b.
Proof. by intros [= ->]. Qed.

Lemma Raise_inj {A} (e e' : exn) : @Raise A e = Raise e' → e = e'.
Proof. by intros [= ->]. Qed.

(** Taking a finished run apart, down to the calls of the helpers. *)
Ltac take_apart :=
  repeat
    match goal with
    | H : bind _ _ _ = (_, _) |- _ =>
        let e := fresh "e" in
        let a := fresh "a" in
        let st1 := fresh "st1" in
        let Hc := fresh "Hc" in
        let Heq := fresh "Heq" in
        apply bind_inv in H as [(e & Hc & Heq)|(a & st1 & Hc & H)]
    | H : try_except _ _ _ = (_, _) |- _ =>
        let e := fresh "e" in
        let a := fresh "a" in
        let st1 := fresh "st1" in
        let Hc := fresh "Hc" in
        let Heq := fresh "Heq" in
        apply try_inv in H as [(a & Hc & Heq)|(e & st1 & Hc & H)]
    | H : get_self _ = (_, _) |- _ => unfold get_self in H
    | H : lift _ _ = (_, _) |- _ => unfold lift in H
    | H : ret _ _ = (_, _) |- _ => unfold ret in H
    | H : raise _ _ = (_, _) |- _ => unfold raise in H
    | H : (if ?b then _ else _) _ = (_, _) |- _ =>
        let Hb := fresh "Hb" in destruct b eqn:Hb
    | H : (let '(_, _) := ?x in _) _ = (_, _) |- _ => destruct x
    | H : (_, _) = (_, _) |- _ => apply pair_equal_spec in H as [? ?]
    | H : Ok _ = Ok _ |- _ => apply Ok_inj in H
    | H : Raise _ = Raise _ |- _ => apply Raise_inj in H
    | H : Ok _ = Raise _ |- _ => discriminate H
    | H : Raise _ = Ok _ |- _ => discriminate H
    | H : negb _ = true |- _ => apply negb_true_iff in H
    | H : negb _ = false |- _ => apply negb_false_iff in H
    | _ => progress subst
    end.

(** What each helper did to [self]. *)
Ltac helper_facts E :=
  repeat
    match goal with
    | H : verify_agent _ _ = (_, _) |- _ =>
        apply (keeps_self _ _ _ _ (preserves_verify_agent (E:=E) eq _)) in H
    | H : client_attr _ _ = (_, _) |- _ =>
        apply (keeps_self _ _ _ _ (preserves_client_attr (E:=E) eq _)) in H
    | H : print _ _ = (_, _) |- _ =>
        apply (keeps_self _ _ _ _ (preserves_print (E:=E) eq _)) in H
    | H : report_dispatch_failure _ _ _ _ _ = (_, _) |- _ =>
        apply (keeps_self _ _ _ _
                 (preserves_report_dispatch_failure (E:=E) eq _ _ _ _)) in H
    | H : read_clock _ _ = (_, _) |- _ =>
        apply (keeps_self _ _ _ _ (preserves_read_clock (E:=E) eq _)) in H
    | H : _now _ = (_, _) |- _ =>
        apply (keeps_self _ _ _ _ (preserves__now (E:=E) eq)) in H
    | H : _tomorrow _ = (_, _) |- _ =>
        apply (keeps_self _ _ _ _ (preserves__tomorrow (E:=E) eq)) in H
    | H : _retry_api_call (invoke _ _ _) _ = (_, _) |- _ =>
        apply (keeps_self _ _ _ _ (preserves_retry_invoke (E:=E) eq _ _ _)) in H
    | H : record_call _ _ = (Ok _, _) |- _ =>
        apply record_call_outcome in H as (? & ? & ? & H)
    | H : record_call _ _ = (Raise _, _) |- _ =>
        apply record_call_outcome in H
    | H : cache_agent _ _ _ = (Ok _, _) |- _ =>
        apply cache_agent_outcome in H as (? & ? & H)
    | H : cache_agent _ _ _ = (Raise _, _) |- _ =>
        apply cache_agent_outcome in H
    end.

Lemma make_call_outcome {E : Env} (agent_id phone_number call_context : value)
    (st st' : state E) (r : res (value * value)) :
  make_call agent_id phone_number call_context st = (r, st') →
  match r with
  | Ok (call_id, call_data) =>
      truthy call_id = true
      ∧ ∃ d now,
          call_data = VDict d
          ∧ self st'
            = with_call_history (self st)
                (call_history (self st)
                 ++ [VDict (<[py "timestamp" := VStr now]> d)])
  | Raise _ => self st' = self st
  end.
Proof.
  unfold make_call. intros H. take_apart; helper_facts E; try congruence.
  all: split; [try done|].
  all: match goal with
       | Hh : self _ = with_call_history _
                         (_ ++ [VDict (<[_ := VStr ?now]> ?d)]) |- _ =>
           exists d, now; split; [first [reflexivity|eassumption]|congruence]
       end.
Qed.

Lemma create_restaurant_agent_outcome {E : Env}
    (restaurant_name customer_info : value) (st st' : state E)
    (r : res (value * value)) :
  create_restaurant_agent restaurant_name customer_info st = (r, st') →
  match r with
  | Ok (agent_id, agent_data) =>
      truthy agent_id = true
      ∧ ∃ k, hash_key agent_id = Some k
             ∧ self st'
               = with_agents_cache (self st)
                   (<[k := agent_data]> (agents_cache (self st)))
  | Raise _ => self st' = self st
  end.
Proof.
  unfold create_restaurant_agent, register_agent. intros H.
  take_apart; helper_facts E; try congruence.
  all: split; [try done|].
  all: match goal with
       | Hh : self _ = with_agents_cache _ (<[?k := _]> _) |- _ =>
           exists k; split; [assumption|congruence]
       end.
Qed.

(** X8.  [make_call] is all or nothing for the service: when it raises, for
    whatever reason and in either mode, no attribute has changed; when it
    returns, the call identifier is not empty, the call data is a mapping,
    and exactly one record, the call data with a [timestamp], has been
    appended to the call history. *)
Theorem make_call_all_or_nothing (E : Env)
    (agent_id phone_number call_context : value) (st : state E) :
  match make_call agent_id phone_number call_context st with
  | (Ok (call_id, call_data), st') =>
      truthy call_id = true
      ∧ ∃ d now,
          call_data = VDict d
          ∧ self st'
            = with_call_history (self st)
                (call_history (self st)
                 ++ [VDict (<[py "timestamp" := VStr now]> d)])
  | (Raise _, st') => self st' = self st
  end.
Proof.
  destruct (make_call agent_id phone_number call_context st) as [r st']
    eqn:Hrun.
  apply make_call_outcome in Hrun. by destruct r as [[call_id call_data]|e].
Qed.

(** X9.  [create_restaurant_agent] is all or nothing as well: when it raises
    nothing has changed, and when it returns, the identifier is not empty
    and hashable and the only change is the cache entry mapping it to the
    returned agent data. *)
Theorem create_agent_all_or_nothing (E : Env)
    (restaurant_name customer_info : value) (st : state E) :
  match create_restaurant_agent restaurant_name customer_info st with
  | (Ok (agent_id, agent_data), st') =>
      truthy agent_id = true
      ∧ ∃ k, hash_key agent_id = Some k
             ∧ self st'
               = with_agents_cache (self st)
                   (<[k := agent_data]> (agents_cache (self st)))
  | (Raise _, st') => self st' = self st
  end.
Proof.
  destruct (create_restaurant_agent restaurant_name customer_info st)
    as [r st'] eqn:Hrun.
  apply create_restaurant_agent_outcome in Hrun.
  by destruct r as [[agent_id agent_data]|e].
Qed.

(** ** The orchestrator *)

Lemma lacks_name_false (info : value) :
  lacks_name info = Ok false →
  ∃ d name, info = VDict d ∧ d !! py "name" = Some name ∧ truthy name = true.
Proof.
  unfold lacks_name. destruct (truthy info); cbn [negb]; [|discriminate].
  destruct info as [| | | | | |d]; cbn [dict_get]; try discriminate.
  destruct (d !! py "name") as [name|] eqn:Hname; cbn [truthy negb];
    [|discriminate].
  destruct (truthy name) eqn:Htrue; cbn [negb]; [|discriminate].
  intros _. by exists d, name.
Qed.

Lemma lacks_name_raises (info : value) (e : exn) :
  lacks_name info = Raise e → exn_kind_of e = AttributeError.
Proof.
  unfold lacks_name. destruct (truthy info); cbn [negb]; [|discriminate].
  destruct info; cbn [dict_get]; try discriminate; by intros [= <-].
Qed.

Lemma dict_get_raises (v default : value) (k : pystr) (e : exn) :
  dict_get v k default = Raise e → exn_kind_of e = AttributeError.
Proof. destruct v; cbn [dict_get]; try discriminate; by intros [= <-]. Qed.

Lemma validate_phone_number_raises (E : Env) (phone : value) (e : exn) :
  _validate_phone_number E phone = Raise e → exn_kind_of e = AttributeError.
Proof.
  unfold _validate_phone_number. destruct (truthy phone); cbn [negb];
    [|discriminate].
  destruct phone; try discriminate; by intros [= <-].
Qed.

Lemma getitem_after_lacks_name (info : value) :
  lacks_name info = Ok false →
  ∃ name, getitem info (py "name") = Ok name.
Proof.
  intros Hinfo. apply lacks_name_false in Hinfo as (d & name & -> & Hname & _).
  exists name. by apply getitem_VDict.
Qed.

Lemma reservation_try_outcome {E : Env} (dri dci : gmap pystr value)
    (rd rp name : value) (st : state E) :
  dri !! py "name" = Some name →
  let run :=
    try_except (reservation_steps (VDict dri) rd (VDict dci) rp)
      (reservation_failed (VDict dri) rd (VDict dci)) st in
  let echoed (d : gmap pystr value) :=
    d !! py "restaurant" = Some name
    ∧ d !! py "customer" = Some (default VNone (dci !! py "name"))
    ∧ d !! py "reservation" = Some rd in
  match reservation_steps (VDict dri) rd (VDict dci) rp st with
  | (Ok result, st1) =>
      run = (Ok result, st1)
      ∧ ∃ d, result = VDict d
             ∧ d !! py "success" = Some (VBool true) ∧ echoed d
  | (Raise e, st1) =>
      if printable E (exn_str e)
      then ∃ d st',
             run = (Ok (VDict d), st')
             ∧ self st' = self st1 ∧ trace st' = trace st1
             ∧ d !! py "success" = Some (VBool false)
             ∧ d !! py "error" = Some (VStr (exn_str e)) ∧ echoed d
      else ∃ e', run = (Raise e', st1) ∧ exn_kind_of e' = UnicodeEncodeError
  end.
Proof.
  intros Hname run echoed. subst run. unfold try_except.
  destruct (reservation_steps (VDict dri) rd (VDict dci) rp st)
    as [[v|e] st1] eqn:Hsteps.
  - split; [reflexivity|].
    unfold reservation_steps in Hsteps. take_apart.
    repeat match goal with
           | H : getitem (VDict dri) _ = Ok _ |- _ =>
               cbn [getitem] in H; rewrite Hname in H; apply Ok_inj in H
           | H : dict_get (VDict dci) _ _ = Ok _ |- _ =>
               cbn [dict_get] in H; apply Ok_inj in H
           end; subst.
    eexists. split; [reflexivity|]. by repeat split.
  - destruct (printable E (exn_str e)) eqn:Hprint.
    + unfold reservation_failed.
      rewrite run_bind_print by solve_printable.
      unfold _now, read_clock, bind, lift, ret.
      destruct (datetime_now E (world st1)) as [t w].
      cbn [getitem dict_get]. rewrite Hname.
      eexists _, _. split; [reflexivity|]. by repeat split.
    + unfold reservation_failed. unfold bind at 1.
      rewrite print_fails by (by rewrite printable_app, Hprint).
      by eexists.
Qed.

Lemma reservation_failed_raises {E : Env} (ri rd ci : value) (e0 e : exn)
    (st st' : state E) :
  lacks_name ri = Ok false →
  lacks_name ci = Ok false →
  reservation_failed ri rd ci e0 st = (Raise e, st') →
  st' = st ∧ exn_kind_of e = UnicodeEncodeError
  ∧ printable E (exn_str e0) = false.
Proof.
  intros Hri Hci.
  apply lacks_name_false in Hri as (dri & name & -> & Hname & _).
  apply lacks_name_false in Hci as (dci & cname & -> & _ & _).
  unfold reservation_failed.
  destruct (printable E (exn_str e0)) eqn:Hprint.
  - rewrite run_bind_print by solve_printable.
    unfold _now, read_clock, bind, lift, ret.
    destruct (datetime_now E (world st)) as [t w].
    cbn [getitem dict_get]. rewrite Hname. discriminate.
  - unfold bind at 1.
    rewrite print_fails by (by rewrite printable_app, Hprint).
    intros [= <- <-]. by repeat split.
Qed.

(** X10.  Once its four guards are passed (restaurant and customer carry a
    name, the reservation details are not empty, a given restaurant phone
    validates) and the line announcing the reservation is printed,
    [make_restaurant_reservation] answers for its [try] block.  When the
    block returns, its result is returned, with [success] set to [True];
    when it raises an exception whose message can be printed, a mapping is
    returned with [success] set to [False] and that message as [error]; in
    both cases the restaurant name, the customer name and the reservation
    details are echoed.  The method raises only when the message of the
    failure cannot be printed. *)
Theorem reservation_always_answers (E : Env)
    (restaurant_info reservation_details customer_info phone : value)
    (st : state E) :
  lacks_name restaurant_info = Ok false →
  lacks_name customer_info = Ok false →
  truthy reservation_details = true →
  dict_get restaurant_info (py "phone") VNone = Ok phone →
  (truthy phone = true → _validate_phone_number E phone = Ok true) →
  (∀ name, getitem restaurant_info (py "name") = Ok name →
           printable E (str E name) = true) →
  let answer :=
    fst (make_restaurant_reservation restaurant_info reservation_details
           customer_info st) in
  let echoed :=
    Ok <$> result_field answer (py "restaurant")
    = Some (getitem restaurant_info (py "name"))
    ∧ Ok <$> result_field answer (py "customer")
      = Some (dict_get customer_info (py "name") VNone)
    ∧ result_field answer (py "reservation") = Some reservation_details in
  match
    reservation_steps restaurant_info reservation_details customer_info
      phone st
  with
  | (Ok result, _) =>
      answer = Ok result
      ∧ result_field answer (py "success") = Some (VBool true) ∧ echoed
  | (Raise e, _) =>
      if printable E (exn_str e)
      then result_field answer (py "success") = Some (VBool false)
           ∧ result_field answer (py "error") = Some (VStr (exn_str e))
           ∧ echoed
      else ∃ e', answer = Raise e' ∧ exn_kind_of e' = UnicodeEncodeError
  end.
Proof.
  intros Hri Hci Hrd Hphone Hvalid Hprint answer echoed.
  subst answer echoed.
  apply lacks_name_false in Hri as Hri'.
  destruct Hri' as (dri & name & -> & Hname & _).
  apply lacks_name_false in Hci as Hci'.
  destruct Hci' as (dci & cname & -> & Hcname & _).
  specialize (Hprint name (getitem_VDict _ _ _ Hname)).
  pose proof (reservation_try_outcome dri dci reservation_details phone name st
                Hname) as Htry.
  assert (make_restaurant_reservation (VDict dri) reservation_details
            (VDict dci) st
          = try_except
              (reservation_steps (VDict dri) reservation_details (VDict dci)
                 phone)
              (reservation_failed (VDict dri) reservation_details (VDict dci))
              st) as ->.
  { unfold make_restaurant_reservation.
    rewrite Hri, run_bind_lift. cbv beta iota.
    rewrite Hci, run_bind_lift. cbv beta iota.
    rewrite Hrd. cbn [negb].
    rewrite Hphone, run_bind_lift.
    assert ((if truthy phone then lift (_validate_phone_number E phone)
             else ret true) st = (Ok true, st)) as Hguard.
    { destruct (truthy phone) eqn:Htrue; [|reflexivity].
      unfold lift. by rewrite (Hvalid eq_refl). }
    rewrite (run_bind _ _ _ _ _ Hguard). cbn [negb].
    rewrite (getitem_VDict _ _ _ Hname), run_bind_lift.
    rewrite run_bind_print by solve_printable.
    reflexivity. }
  cbv zeta in Htry.
  destruct (reservation_steps (VDict dri) reservation_details (VDict dci)
              phone st) as [[result|e] st1].
  - destruct Htry as (-> & d & -> & Hsuccess & Hr & Hc & Hd).
    cbn [fst result_field getitem dict_get]. rewrite Hname, Hr, Hc, Hd.
    by destruct (dci !! py "name").
  - destruct (printable E (exn_str e)).
    + destruct Htry as (d & st' & -> & _ & _ & Hsuccess & Herror & Hr & Hc & Hd).
      cbn [fst result_field getitem dict_get]. rewrite Hname, Hr, Hc, Hd.
      by destruct (dci !! py "name").
    + destruct Htry as (e' & -> & Hkind). by exists e'.
Qed.

Lemma reservation_always_answers_witness :
  let answer :=
    fst (make_restaurant_reservation spice_garden_info dinner_for_four ayush
           (sample_state provider_down false 0)) in
  let echoed :=
    Ok <$> result_field answer (py "restaurant")
    = Some (getitem spice_garden_info (py "name"))
    ∧ Ok <$> result_field answer (py "customer")
      = Some (dict_get ayush (py "name") VNone)
    ∧ result_field answer (py "reservation") = Some dinner_for_four in
  match
    reservation_steps spice_garden_info dinner_for_four ayush
      (VStr (py "+919876543210")) (sample_state provider_down false 0)
  with
  | (Ok result, _) =>
      answer = Ok result
      ∧ result_field answer (py "success") = Some (VBool true) ∧ echoed
  | (Raise e, _) =>
      if printable provider_down (exn_str e)
      then result_field answer (py "success") = Some (VBool false)
           ∧ result_field answer (py "error") = Some (VStr (exn_str e))
           ∧ echoed
      else ∃ e', answer = Raise e' ∧ exn_kind_of e' = UnicodeEncodeError
  end.
Proof.
  apply (reservation_always_answers provider_down spice_garden_info
           dinner_for_four ayush (VStr (py "+919876543210"))
           (sample_state provider_down false 0));
    try reflexivity.
  intros name Hname. vm_compute in Hname. apply Ok_inj in Hname.
  subst name. reflexivity.
Defined.

(** X11.  When [make_restaurant_reservation] raises, the exception comes
    from one of its guards, or from one of its two log lines.  From a guard
    it is a [ValueError] or, for an argument of the wrong type, an
    [AttributeError], and neither the service nor the outside has been
    touched.  From a log line it is a [UnicodeEncodeError]: either the
    restaurant name could not be printed, and again nothing has been
    touched, or the [try] block has raised an exception whose message could
    not be printed, and the state is as that block left it. *)
Theorem reservation_raises_before_acting (E : Env)
    (restaurant_info reservation_details customer_info : value)
    (st st' : state E) (e : exn) :
  make_restaurant_reservation restaurant_info reservation_details
    customer_info st = (Raise e, st') →
  st' = st ∧ (exn_kind_of e = ValueError ∨ exn_kind_of e = AttributeError)
  ∨ exn_kind_of e = UnicodeEncodeError
    ∧ (st' = st
       ∧ (∃ name, getitem restaurant_info (py "name") = Ok name
                  ∧ printable E (str E name) = false)
       ∨ ∃ phone e0,
           reservation_steps restaurant_info reservation_details
             customer_info phone st = (Raise e0, st')
           ∧ printable E (exn_str e0) = false).
Proof.
  unfold make_restaurant_reservation. intros H. take_apart;
    try (left; split; [reflexivity|]);
    try (left; reflexivity);
    try (right;
         first [ by eapply lacks_name_raises
               | by eapply dict_get_raises
               | by eapply validate_phone_number_raises ]).
  all: try match goal with
       | Hri : lacks_name ?ri = Ok false, Hg : getitem ?ri _ = Raise _ |- _ =>
           apply getitem_after_lacks_name in Hri as [? Hri];
           rewrite Hri in Hg; discriminate Hg
       end.
  all: try match goal with
       | Hp : print (_ ++ str _ ?name) _ = (Raise _, _),
         Hg : getitem _ _ = Ok ?name |- _ =>
           apply print_outcome in Hp as (-> & [[Hp _]|[(? & Hp & Hkind) Hbad]]);
             [discriminate Hp|];
           apply Raise_inj in Hp; subst; right;
           split; [exact Hkind|]; left; split; [reflexivity|];
           exists name; split; [exact Hg|];
           by rewrite printable_app in Hbad
       end.
  all: match goal with
       | Hri : lacks_name ?ri = Ok false, Hci : lacks_name ?ci = Ok false,
         Hp : print _ _ = (Ok _, _),
         Hsteps : reservation_steps ?ri _ ?ci ?rp _ = (Raise ?e0, _),
         H : reservation_failed ?ri _ ?ci ?e0 _ = (Raise _, _) |- _ =>
           apply print_outcome in Hp as (-> & _);
           apply (reservation_failed_raises _ _ _ _ _ _ _ Hri Hci)
             in H as (-> & Hkind & Hbad);
           right; split; [exact Hkind|]; right; by exists rp, e0
       end.
Qed.

Lemma reservation_raises_before_acting_witness :
  let st := sample_state provider_down false 0 in
  let run := make_restaurant_reservation spice_garden_info dinner_for_four
               (VDict ∅) st in
  let e := Exn ValueError (py "Customer info with name is required") in
  snd run = st ∧ (exn_kind_of e = ValueError ∨ exn_kind_of e = AttributeError)
  ∨ exn_kind_of e = UnicodeEncodeError
    ∧ (snd run = st
       ∧ (∃ name, getitem spice_garden_info (py "name") = Ok name
                  ∧ printable provider_down (str provider_down name) = false)
       ∨ ∃ phone e0,
           reservation_steps spice_garden_info dinner_for_four (VDict ∅)
             phone st = (Raise e0, snd run)
           ∧ printable provider_down (exn_str e0) = false).
Proof.
  apply (reservation_raises_before_acting provider_down spice_garden_info
           dinner_for_four (VDict ∅) (sample_state provider_down false 0)).
  vm_compute. reflexivity.
Defined.

(** ** The builders in mock mode *)

Lemma create_in_mock_mode {E : Env} (restaurant_name : value)
    (dci : gmap pystr value) (st : state E) (t : Z) (w : World E) :
  mock_mode (self st) = true →
  truthy restaurant_name = true →
  time_time E (world st) = (t, w) →
  let mock_id := py "mock_agent_" ++ repr E (VInt t) in
  let agent_data :=
    VDict (list_to_map [
      (py "id", VStr mock_id);
      (py "name",
       VStr (str E restaurant_name ++ py " - Booking Assistant for "
             ++ str E (default (VStr (py "Customer")) (dci !! py "name"))))]) in
  create_restaurant_agent restaurant_name (VDict dci) st
  = (Ok (VStr mock_id, agent_data),
     {| self := with_agents_cache (self st)
                  (<[KStr mock_id := agent_data]> (agents_cache (self st)));
        world := w; trace := trace st |}).
Proof.
  intros Hmock Hname Hclock mock_id agent_data.
  unfold create_restaurant_agent. rewrite Hname. cbn [negb].
  match goal with
  | |- _ = ?rhs =>
      change (bind (lift (_validate_agent_config
                            (agent_config E restaurant_name
                               (default (VStr (py "Customer"))
                                  (dci !! py "name"))
                               (default (VStr (py "customer@example.com"))
                                  (dci !! py "email")))))
                (λ _, register_agent restaurant_name
                        (agent_config E restaurant_name
                           (default (VStr (py "Customer")) (dci !! py "name"))
                           (default (VStr (py "customer@example.com"))
                              (dci !! py "email")))) st = rhs)
  end.
  rewrite agent_config_valid, run_bind_lift.
  unfold register_agent. rewrite run_bind_get_self, Hmock.
  erewrite run_bind; cycle 1.
  { erewrite run_bind; [|unfold read_clock; rewrite Hclock; reflexivity].
    cbn [getitem]. rewrite agent_config_name, run_bind_lift.
    rewrite run_bind_print by (cbn [str]; solve_printable).
    reflexivity. }
  cbv beta iota. unfold bind, cache_agent. cbn [hash_key]. reflexivity.
Qed.

Lemma make_call_in_mock_mode {E : Env}
    (agent_id phone_number call_context : value) (st : state E)
    (t now : Z) (w w' : World E) :
  mock_mode (self st) = true →
  truthy agent_id = true →
  let phone := py_or phone_number (VStr (test_phone (self st))) in
  _validate_phone_number E phone = Ok true →
  time_time E (world st) = (t, w) →
  datetime_now E w = (now, w') →
  let mock_id := VStr (py "mock_call_" ++ repr E (VInt t)) in
  let call_data : gmap pystr value :=
    list_to_map [
      (py "id", mock_id);
      (py "status", VStr (py "mock_initiated"));
      (py "agent_id", agent_id);
      (py "phone_number", phone)] in
  make_call agent_id phone_number call_context st
  = (Ok (mock_id, VDict call_data),
     {| self := with_call_history (self st)
                  (call_history (self st)
                   ++ [VDict (<[py "timestamp" :=
                                  VStr (strftime E (py "%Y-%m-%d %H:%M:%S") now)]>
                                call_data)]);
        world := w'; trace := trace st |}).
Proof.
  intros Hmock Hagent phone Hphone Hclock Hnow mock_id call_data.
  unfold make_call. rewrite Hagent. cbn [negb].
  unfold bind at 1, get_self at 1. fold phone.
  unfold bind at 1, lift at 1. rewrite Hphone. cbn [negb].
  unfold bind at 1, get_self at 1. rewrite Hmock. cbn [negb].
  unfold bind at 1, ret at 1.
  rewrite run_bind_get_self, Hmock.
  erewrite run_bind; cycle 1.
  { erewrite run_bind; [|unfold read_clock; rewrite Hclock; reflexivity].
    rewrite run_bind_print by (cbn [str]; solve_printable).
    reflexivity. }
  cbv beta iota.
  unfold bind at 1, record_call, _now. unfold bind at 1.
  unfold bind at 1, read_clock at 1. cbn [world]. rewrite Hnow.
  unfold ret at 1. unfold bind, get_self, set_self, ret. reflexivity.
Qed.

(** X12.  In mock mode [create_restaurant_agent] succeeds for every
    non-empty restaurant name and customer mapping, without a provider
    call: the identifier is [mock_agent_] followed by the clock reading, the
    agent data are that identifier and the templated name, and the only
    change to the service is the cache entry for them. *)
Theorem mock_agent_is_created_locally (E : Env) (restaurant_name : value)
    (customer_info : gmap pystr value) (st : state E) :
  mock_mode (self st) = true →
  truthy restaurant_name = true →
  let mock_id :=
    py "mock_agent_" ++ repr E (VInt (fst (time_time E (world st)))) in
  let agent_data :=
    VDict (list_to_map [
      (py "id", VStr mock_id);
      (py "name",
       VStr (str E restaurant_name ++ py " - Booking Assistant for "
             ++ str E (default (VStr (py "Customer"))
                         (customer_info !! py "name"))))]) in
  let run := create_restaurant_agent restaurant_name (VDict customer_info) st in
  fst run = Ok (VStr mock_id, agent_data)
  ∧ agents_cache (self (snd run))
    = <[KStr mock_id := agent_data]> (agents_cache (self st))
  ∧ call_history (self (snd run)) = call_history (self st)
  ∧ trace (snd run) = trace st.
Proof.
  intros Hmock Hname. destruct (time_time E (world st)) as [t w] eqn:Hclock.
  cbn zeta. rewrite (create_in_mock_mode _ _ _ t w Hmock Hname Hclock).
  by repeat split.
Qed.

Lemma mock_agent_is_created_locally_witness :
  let st := sample_state no_library true 100 in
  let customer : gmap pystr value :=
    list_to_map [(py "name", VStr (py "Ayush Kumar"))] in
  let mock_id :=
    py "mock_agent_"
    ++ repr no_library (VInt (fst (time_time no_library (world st)))) in
  let agent_data :=
    VDict (list_to_map [
      (py "id", VStr mock_id);
      (py "name",
       VStr (str no_library spice_garden ++ py " - Booking Assistant for "
             ++ str no_library (default (VStr (py "Customer"))
                                  (customer !! py "name"))))]) in
  let run := create_restaurant_agent spice_garden (VDict customer) st in
  fst run = Ok (VStr mock_id, agent_data)
  ∧ agents_cache (self (snd run))
    = <[KStr mock_id := agent_data]> (agents_cache (self st))
  ∧ call_history (self (snd run)) = call_history (self st)
  ∧ trace (snd run) = trace st.
Proof.
  apply (mock_agent_is_created_locally no_library spice_garden
           (list_to_map [(py "name", VStr (py "Ayush Kumar"))])
           (sample_state no_library true 100)); reflexivity.
Defined.

(** X13.  In mock mode [make_call] succeeds whenever the agent identifier
    is not empty and the resolved phone number validates, without a
    provider call: the identifier is [mock_call_] followed by the clock
    reading, the call data echo the agent and the number with status
    [mock_initiated], and they are appended, time-stamped, to the call
    history; the agent cache is not touched. *)
Theorem mock_call_is_recorded_locally (E : Env)
    (agent_id phone_number call_context : value) (st : state E) :
  mock_mode (self st) = true →
  truthy agent_id = true →
  let phone := py_or phone_number (VStr (test_phone (self st))) in
  _validate_phone_number E phone = Ok true →
  let mock_id :=
    VStr (py "mock_call_" ++ repr E (VInt (fst (time_time E (world st))))) in
  let call_data : gmap pystr value :=
    list_to_map [
      (py "id", mock_id);
      (py "status", VStr (py "mock_initiated"));
      (py "agent_id", agent_id);
      (py "phone_number", phone)] in
  let run := make_call agent_id phone_number call_context st in
  fst run = Ok (mock_id, VDict call_data)
  ∧ (∃ now,
       call_history (self (snd run))
       = call_history (self st)
         ++ [VDict (<[py "timestamp" := VStr now]> call_data)])
  ∧ agents_cache (self (snd run)) = agents_cache (self st)
  ∧ trace (snd run) = trace st.
Proof.
  intros Hmock Hagent phone Hphone.
  destruct (time_time E (world st)) as [t w] eqn:Hclock.
  destruct (datetime_now E w) as [now w'] eqn:Hnow.
  cbn zeta.
  rewrite (make_call_in_mock_mode _ _ _ _ t now w w' Hmock Hagent Hphone
             Hclock Hnow).
  split; [reflexivity|]. split; [by eexists|]. by split.
Qed.

Lemma mock_call_is_recorded_locally_witness :
  let st := busy_state no_library 7 in
  let agent_id := VStr (py "mock_agent_1") in
  let phone := py_or VNone (VStr (test_phone (self st))) in
  let mock_id :=
    VStr (py "mock_call_"
          ++ repr no_library (VInt (fst (time_time no_library (world st))))) in
  let call_data : gmap pystr value :=
    list_to_map [
      (py "id", mock_id);
      (py "status", VStr (py "mock_initiated"));
      (py "agent_id", agent_id);
      (py "phone_number", phone)] in
  let run := make_call agent_id VNone VNone st in
  fst run = Ok (mock_id, VDict call_data)
  ∧ (∃ now,
       call_history (self (snd run))
       = call_history (self st)
         ++ [VDict (<[py "timestamp" := VStr now]> call_data)])
  ∧ agents_cache (self (snd run)) = agents_cache (self st)
  ∧ trace (snd run) = trace st.
Proof.
  apply (mock_call_is_recorded_locally no_library (VStr (py "mock_agent_1"))
           VNone VNone (busy_state no_library 7)); reflexivity.
Defined.

(** ** A reservation in mock mode *)

Lemma run__tomorrow {E : Env} (st : state E) (t : Z) (w : World E) :
  datetime_now E (world st) = (t, w) →
  _tomorrow st
  = (Ok (strftime E (py "%B %d, %Y") (t + 86400)),
     {| self := self st; world := w; trace := trace st |}).
Proof. intros Hnow. unfold _tomorrow, bind, read_clock. by rewrite Hnow. Qed.

Lemma run__now {E : Env} (st : state E) (t : Z) (w : World E) :
  datetime_now E (world st) = (t, w) →
  _now st
  = (Ok (strftime E (py "%Y-%m-%d %H:%M:%S") t),
     {| self := self st; world := w; trace := trace st |}).
Proof. intros Hnow. unfold _now, bind, read_clock. by rewrite Hnow. Qed.

Lemma get_call_status_in_mock_mode {E : Env} (call_id : value)
    (st : state E) :
  mock_mode (self st) = true →
  truthy call_id = true →
  ∃ status, get_call_status call_id st = (Ok (VDict status), st).
Proof.
  intros Hmock Hid. unfold get_call_status. rewrite Hid. cbn [negb].
  unfold bind, get_self. rewrite Hmock. by eexists.
Qed.

Lemma py_or_twice (a b : value) : py_or (py_or a b) b = py_or a b.
Proof.
  unfold py_or. destruct (truthy a) eqn:Ha; [by rewrite Ha|].
  by destruct (truthy b).
Qed.

Lemma reservation_steps_in_mock_mode {E : Env}
    (dri drd dci : gmap pystr value) (name : value) (st : state E) :
  mock_mode (self st) = true →
  dri !! py "name" = Some name →
  truthy name = true →
  let phone := default VNone (dri !! py "phone") in
  let target := py_or phone (VStr (test_phone (self st))) in
  _validate_phone_number E target = Ok true →
  let agent_id :=
    VStr (py "mock_agent_" ++ repr E (VInt (fst (time_time E (world st))))) in
  ∃ answer call_id record agent_data st',
    reservation_steps (VDict dri) (VDict drd) (VDict dci) phone st
    = (Ok (VDict answer), st')
    ∧ answer !! py "success" = Some (VBool true)
    ∧ answer !! py "agent_id" = Some agent_id
    ∧ answer !! py "call_id" = Some call_id
    ∧ answer !! py "target_phone" = Some target
    ∧ call_history (self st') = call_history (self st) ++ [VDict record]
    ∧ record !! py "id" = Some call_id
    ∧ record !! py "agent_id" = Some agent_id
    ∧ record !! py "phone_number" = Some target
    ∧ agents_cache (self st')
      = <[KStr (py "mock_agent_"
                ++ repr E (VInt (fst (time_time E (world st))))) :=
            agent_data]> (agents_cache (self st))
    ∧ trace st' = trace st.
Proof.
  intros Hmock Hname Htrue phone target Hphone agent_id.
  destruct (time_time E (world st)) as [t1 w1] eqn:Hclock1.
  destruct (datetime_now E w1) as [t2 w2] eqn:Hclock2.
  destruct (time_time E w2) as [t3 w3] eqn:Hclock3.
  destruct (datetime_now E w3) as [t4 w4] eqn:Hclock4.
  destruct (datetime_now E w4) as [t5 w5] eqn:Hclock5.
  pose proof (create_in_mock_mode name dci st t1 w1 Hmock Htrue Hclock1)
    as Hcreate. cbn zeta in Hcreate.
  set (agent_data := VDict (list_to_map
         [(py "id", VStr (py "mock_agent_" ++ repr E (VInt t1)));
          (py "name",
           VStr (str E name ++ py " - Booking Assistant for "
                 ++ str E (default (VStr (py "Customer")) (dci !! py "name"))))]))
    in *.
  set (st1 := {| self := with_agents_cache (self st)
                   (<[KStr (py "mock_agent_" ++ repr E (VInt t1)) := agent_data]>
                      (agents_cache (self st)));
                 world := w1; trace := trace st |}) in *.
  set (st2 := {| self := self st1; world := w2; trace := trace st1 |}).
  assert (_tomorrow st1 = (Ok (strftime E (py "%B %d, %Y") (t2 + 86400)), st2))
    as Htomorrow by (by apply run__tomorrow).
  assert (py_or target (VStr (test_phone (self st2))) = target) as Htarget
    by apply py_or_twice.
  pose proof (make_call_in_mock_mode agent_id target
                (VDict (list_to_map [
                   (py "reservation_date",
                    default (VStr (strftime E (py "%B %d, %Y") (t2 + 86400)))
                      (drd !! py "date"));
                   (py "reservation_time",
                    default (VStr (py "7:00 PM")) (drd !! py "time"));
                   (py "number_of_guests",
                    VStr (str E (default (VInt 2) (drd !! py "party_size"))));
                   (py "special_requests",
                    default (VStr []) (drd !! py "special_requests"));
                   (py "customer_name", default VNone (dci !! py "name"));
                   (py "customer_phone", default (VStr []) (dci !! py "phone"));
                   (py "customer_email", default (VStr []) (dci !! py "email"));
                   (py "restaurant_name", name);
                   (py "booking_type", VStr (py "reservation"));
                   (py "urgency", VStr (py "normal"))]))
                st2 t3 t4 w3 w4 Hmock eq_refl) as Hcall.
  cbn zeta in Hcall. rewrite Htarget in Hcall.
  specialize (Hcall Hphone Hclock3 Hclock4).
  set (call_id := VStr (py "mock_call_" ++ repr E (VInt t3))) in *.
  set (call_data := list_to_map
         [(py "id", call_id); (py "status", VStr (py "mock_initiated"));
          (py "agent_id", agent_id); (py "phone_number", target)]
       : gmap pystr value) in *.
  set (record := <[py "timestamp" :=
                     VStr (strftime E (py "%Y-%m-%d %H:%M:%S") t4)]> call_data)
    in *.
  set (st4 := {| self := with_call_history (self st2)
                           (call_history (self st2) ++ [VDict record]);
                 world := w4; trace := trace st2 |}) in *.
  destruct (get_call_status_in_mock_mode call_id st4 Hmock eq_refl)
    as [status Hstatus].
  set (st5 := {| self := self st4; world := w5; trace := trace st4 |}).
  assert (_now st4 = (Ok (strftime E (py "%Y-%m-%d %H:%M:%S") t5), st5))
    as Hnow by (by apply run__now).
  eexists _, call_id, record, agent_data, st5.
  split.
  { unfold reservation_steps.
    rewrite (getitem_VDict _ _ _ Hname), run_bind_lift.
    rewrite (run_bind _ _ _ _ _ Hcreate). cbv beta iota.
    rewrite ?dict_get_VDict; rewrite run_bind_lift; cbv beta.
    rewrite (run_bind _ _ _ _ _ Htomorrow). cbv beta.
    do 8 (rewrite ?dict_get_VDict; rewrite run_bind_lift; cbv beta).
    rewrite run_bind_get_self.
    change (test_phone (self st2)) with (test_phone (self st)).
    fold phone. fold target.
    rewrite (run_bind _ _ _ _ _ Hcall). cbv beta iota.
    rewrite (run_bind _ _ _ _ _ Hstatus). cbv beta.
    rewrite (run_bind _ _ _ _ _ Hnow). cbv beta.
    do 2 (rewrite ?dict_get_VDict; rewrite run_bind_lift; cbv beta).
    cbv zeta.
    rewrite run_bind_print by (unfold call_id; cbn [str]; solve_printable).
    reflexivity. }
  repeat split; reflexivity.
Qed.

(** X14.  In mock mode a reservation whose inputs pass the guards, whose
    details are a mapping, whose target number (the restaurant's, or the
    fallback test number when none is given) validates and whose restaurant
    name standard output can encode, succeeds without a provider call: the
    answer is tagged [success], names a [mock_agent_] identifier and the
    target phone, the agent is in the cache, and exactly one call record,
    carrying that agent identifier, the returned call identifier and the
    target phone, has been appended to the history. *)
Theorem reservation_succeeds_in_mock_mode (E : Env)
    (dri drd dci : gmap pystr value) (st : state E) :
  mock_mode (self st) = true →
  lacks_name (VDict dri) = Ok false →
  lacks_name (VDict dci) = Ok false →
  truthy (VDict drd) = true →
  let phone := default VNone (dri !! py "phone") in
  let target := py_or phone (VStr (test_phone (self st))) in
  _validate_phone_number E target = Ok true →
  printable E (str E (default VNone (dri !! py "name"))) = true →
  let mock_id :=
    py "mock_agent_" ++ repr E (VInt (fst (time_time E (world st)))) in
  let run :=
    make_restaurant_reservation (VDict dri) (VDict drd) (VDict dci) st in
  ∃ call_id record,
    result_field (fst run) (py "success") = Some (VBool true)
    ∧ result_field (fst run) (py "agent_id") = Some (VStr mock_id)
    ∧ result_field (fst run) (py "call_id") = Some call_id
    ∧ result_field (fst run) (py "target_phone") = Some target
    ∧ call_history (self (snd run)) = call_history (self st) ++ [VDict record]
    ∧ record !! py "id" = Some call_id
    ∧ record !! py "agent_id" = Some (VStr mock_id)
    ∧ record !! py "phone_number" = Some target
    ∧ KStr mock_id ∈ dom (agents_cache (self (snd run)))
    ∧ trace (snd run) = trace st.
Proof.
  intros Hmock Hri Hci Hrd phone target Hphone Hprint mock_id run.
  apply lacks_name_false in Hri as Hri'.
  destruct Hri' as (dri' & name & [= <-] & Hname & Htrue).
  rewrite Hname in Hprint. cbn [default] in Hprint.
  destruct (reservation_steps_in_mock_mode dri drd dci name st Hmock Hname
              Htrue Hphone)
    as (answer & call_id & record & agent_data & st' & Hsteps & Hsuccess
        & Hagent & Hcall & Htarget & Hhistory & Hid & Hrecagent & Hrecphone
        & Hcache & Htrace).
  assert (run = (Ok (VDict answer), st')) as ->.
  { unfold run, make_restaurant_reservation.
    rewrite Hri, run_bind_lift. cbv beta iota.
    rewrite Hci, run_bind_lift. cbv beta iota.
    rewrite Hrd. cbn [negb].
    rewrite dict_get_VDict, run_bind_lift. cbv beta. fold phone.
    assert ((if truthy phone then lift (_validate_phone_number E phone)
             else ret true) st = (Ok true, st)) as Hguard.
    { destruct (truthy phone) eqn:Hgiven; [|reflexivity].
      unfold lift. f_equal. rewrite <- Hphone. unfold target, py_or.
      by rewrite Hgiven. }
    rewrite (run_bind _ _ _ _ _ Hguard). cbn [negb].
    rewrite (getitem_VDict _ _ _ Hname), run_bind_lift.
    rewrite run_bind_print by solve_printable.
    unfold try_except. fold phone in Hsteps. by rewrite Hsteps. }
  exists call_id, record. cbn [fst snd result_field].
  repeat split; try assumption.
  rewrite Hcache. apply elem_of_dom. rewrite lookup_insert_eq. by eexists.
Qed.

Lemma reservation_succeeds_in_mock_mode_witness :
  let dri : gmap pystr value :=
    list_to_map [(py "name", spice_garden);
                 (py "phone", VStr (py "+919876543210"))] in
  let drd : gmap pystr value := list_to_map [(py "party_size", VInt 4)] in
  let dci : gmap pystr value :=
    list_to_map [(py "name", VStr (py "Ayush Kumar"))] in
  let st := busy_state no_library 100 in
  let phone := default VNone (dri !! py "phone") in
  let target := py_or phone (VStr (test_phone (self st))) in
  let mock_id :=
    py "mock_agent_"
    ++ repr no_library (VInt (fst (time_time no_library (world st)))) in
  let run :=
    make_restaurant_reservation (VDict dri) (VDict drd) (VDict dci) st in
  ∃ call_id record,
    result_field (fst run) (py "success") = Some (VBool true)
    ∧ result_field (fst run) (py "agent_id") = Some (VStr mock_id)
    ∧ result_field (fst run) (py "call_id") = Some call_id
    ∧ result_field (fst run) (py "target_phone") = Some target
    ∧ call_history (self (snd run)) = call_history (self st) ++ [VDict record]
    ∧ record !! py "id" = Some call_id
    ∧ record !! py "agent_id" = Some (VStr mock_id)
    ∧ record !! py "phone_number" = Some target
    ∧ KStr mock_id ∈ dom (agents_cache (self (snd run)))
    ∧ trace (snd run) = trace st.
Proof.
  apply (reservation_succeeds_in_mock_mode no_library
           (list_to_map [(py "name", spice_garden);
                         (py "phone", VStr (py "+919876543210"))])
           (list_to_map [(py "party_size", VInt 4)])
           (list_to_map [(py "name", VStr (py "Ayush Kumar"))])
           (busy_state no_library 100)); reflexivity.
Defined.

(** ** Readers and probes *)

(** X15.  In mock mode an agent can be read back as soon as it is created:
    [get_agent_details] on the identifier that [create_restaurant_agent]
    returned gives the agent data it returned, and changes nothing. *)
Theorem created_agent_is_read_back (E : Env)
    (restaurant_name customer_info agent_id agent_data : value)
    (st st' : state E) :
  mock_mode (self st) = true →
  create_restaurant_agent restaurant_name customer_info st
  = (Ok (agent_id, agent_data), st') →
  get_agent_details agent_id st' = (Ok agent_data, st').
Proof.
  intros Hmock Hcreate.
  apply create_restaurant_agent_outcome in Hcreate as (_ & k & Hk & Hself).
  unfold get_agent_details, bind, get_self. rewrite Hself. cbn [mock_mode
    with_agents_cache agents_cache]. rewrite Hmock, Hk.
  rewrite lookup_insert_eq. reflexivity.
Qed.

Lemma created_agent_is_read_back_witness :
  let st := sample_state no_library true 100 in
  let run := create_restaurant_agent spice_garden ayush st in
  get_agent_details (VStr (py "mock_agent_100")) (snd run)
  = (Ok (VDict (list_to_map [
           (py "id", VStr (py "mock_agent_100"));
           (py "name",
            VStr (py "Spice Garden - Booking Assistant for Ayush Kumar"))])),
     snd run).
Proof.
  apply (created_agent_is_read_back no_library spice_garden ayush
           (VStr (py "mock_agent_100")) _ (sample_state no_library true 100)).
  - reflexivity.
  - vm_compute. reflexivity.
Defined.

(** X16.  [test_api_connection] never raises and never changes the
    service.  In mock mode it answers [mock_mode] without a provider call.
    Otherwise it answers for one retried [get_call_logs] call with a page
    size of 1: [connected] with the response of that call attached when it
    returns, [error] with the message of its exception when it raises,
    and, when there is no client to call, [error] with the message of the
    [AttributeError]; [api_accessible] is true exactly for [connected]. *)
Theorem connection_probe_never_raises (E : Env) (st : state E) :
  let run := test_api_connection st in
  let answer (status : string) (accessible : bool) (k : string) (v : value) :=
    Ok (VDict (list_to_map [
      (py "status", VStr (py status));
      (py "api_accessible", VBool accessible);
      (py k, v)])) in
  self (snd run) = self st
  ∧ if mock_mode (self st)
    then run = (Ok (VDict (list_to_map [
                  (py "status", VStr (py "mock_mode"));
                  (py "api_accessible", VBool false)])), st)
    else if client (self st)
    then
      match
        _retry_api_call
          (invoke call_get_call_logs []
             (list_to_map [(py "page_size", VInt 1)])) st
      with
      | (Ok response, st') =>
          run = (answer "connected" true "response" response, st')
      | (Raise e, st') =>
          run = (answer "error" false "error" (VStr (exn_str e)), st')
      end
    else
      run = (answer "error" false "error"
               (VStr (py "'NoneType' object has no attribute 'call'")), st).
Proof.
  intros run answer. split.
  { symmetry. apply (preserves_test_api_connection eq). }
  subst run answer. unfold test_api_connection.
  rewrite run_bind_get_self. destruct (mock_mode (self st)) eqn:Hmock;
    [reflexivity|].
  destruct (client (self st)) eqn:Hclient.
  - unfold try_except.
    rewrite (run_bind _ _ _ _ _ (run_client_attr _ st Hclient)).
    unfold bind.
    by destruct (_retry_api_call _ st) as [[response|e] st'].
  - erewrite run_try_Raise;
      [|erewrite run_bind_raise;
          [reflexivity|by apply run_client_attr_missing]].
    reflexivity.
Qed.

Lemma verify_agent_handler {E : Env} (agent_id : value) (e : exn)
    (st : state E) :
  print (py "Warning: Could not verify agent " ++ str E agent_id
         ++ py ": " ++ exn_str e) st
  = (if printable E (str E agent_id) && printable E (exn_str e)
     then Ok tt
     else Raise (Exn UnicodeEncodeError (py "codec can't encode character")),
     st).
Proof.
  unfold print. simpl_printable.
  by destruct (printable E (str E agent_id) && printable E (exn_str e)).
Qed.

Lemma verify_agent_run {E : Env} (agent_id : value) (st : state E) :
  ∃ r st',
    verify_agent agent_id st = (r, st')
    ∧ (trace st' = trace st
       ∨ ∃ r0, trace st' = trace st ++ [EvApi agent_get_agent [agent_id] ∅ r0])
    ∧ match r with
      | Ok _ => True
      | Raise e =>
          exn_kind_of e = UnicodeEncodeError
          ∧ (printable E (str E agent_id) = false
             ∨ ∃ e0,
                 trace st'
                 = trace st ++ [EvApi agent_get_agent [agent_id] ∅ (Raise e0)]
                 ∧ printable E (exn_str e0) = false)
      end.
Proof.
  unfold verify_agent.
  destruct (client (self st)) eqn:Hclient; cycle 1.
  { erewrite run_try_Raise;
      [|erewrite run_bind_raise;
          [reflexivity|by apply run_client_attr_missing]].
    rewrite verify_agent_handler.
    eexists _, _. split; [reflexivity|]. split; [by left|].
    destruct (printable E (str E agent_id)) eqn:Hid; cbn; [done|].
    by split; [|left]. }
  unfold try_except.
  rewrite (run_bind _ _ _ _ _ (run_client_attr _ st Hclient)).
  unfold bind at 1, invoke at 1.
  destruct (api E agent_get_agent [agent_id] ∅ (world st)) as [[v|e0] w].
  - destruct (dict_get (_handle_response v) (py "voice_external_id") VNone)
      as [voice|e1] eqn:Hvoice.
    + rewrite run_bind_lift.
      assert ((if negb (truthy voice)
               then print (py "Warning: Agent may not have proper voice configuration")
               else ret tt)
                {| self := self st; world := w;
                   trace := trace st ++ [EvApi agent_get_agent [agent_id] ∅ (Ok v)] |}
              = (Ok tt, {| self := self st; world := w;
                   trace := trace st ++ [EvApi agent_get_agent [agent_id] ∅ (Ok v)] |}))
        as Hwarn by (by destruct (truthy voice)).
      rewrite (run_bind _ _ _ _ _ Hwarn).
      unfold print at 1. simpl_printable.
      destruct (printable E (str E agent_id)) eqn:Hid.
      * eexists _, _. split; [reflexivity|]. split; [right; by eexists|done].
      * rewrite verify_agent_handler, Hid. cbn.
        eexists _, _. split; [reflexivity|].
        split; [right; by eexists|]. by split; [|left].
    + apply dict_get_raises in Hvoice as Hkind.
      unfold bind at 1, lift at 1.
      rewrite verify_agent_handler.
      eexists _, _. split; [reflexivity|]. split; [right; by eexists|].
      destruct (printable E (str E agent_id)) eqn:Hid; cycle 1.
      { cbn. by split; [|left]. }
      assert (printable E (exn_str e1) = true) as ->; [|done].
      destruct (_handle_response v); try discriminate;
        injection Hvoice as <-; reflexivity.
  - rewrite verify_agent_handler.
    eexists _, _. split; [reflexivity|]. split; [right; by eexists|].
    destruct (printable E (str E agent_id)) eqn:Hid; cycle 1.
    { cbn. by split; [|left]. }
    destruct (printable E (exn_str e0)) eqn:Hmsg; cbn; [done|].
    split; [reflexivity|]. right. by exists e0.
Qed.

(** X17.  The check of the agent that precedes a real dispatch leaves the
    service as it was and reaches the provider at most once (a single
    [get_agent] call, not retried, with no wait).  Whatever goes wrong in
    it is printed and forgotten, so it stops the dispatch only when it
    cannot print: it raises nothing but [UnicodeEncodeError], and only when
    standard output cannot encode the agent identifier or the message of
    the failed [get_agent] call. *)
Theorem preflight_never_blocks (E : Env) (agent_id : value) (st : state E) :
  let run := verify_agent agent_id st in
  self (snd run) = self st
  ∧ (trace (snd run) = trace st
     ∨ ∃ r, trace (snd run)
            = trace st ++ [EvApi agent_get_agent [agent_id] ∅ r])
  ∧ match fst run with
    | Ok _ => True
    | Raise e =>
        exn_kind_of e = UnicodeEncodeError
        ∧ (printable E (str E agent_id) = false
           ∨ ∃ e0,
               trace (snd run)
               = trace st ++ [EvApi agent_get_agent [agent_id] ∅ (Raise e0)]
               ∧ printable E (exn_str e0) = false)
    end.
Proof.
  intros run. subst run.
  split; [symmetry; apply (preserves_verify_agent eq)|].
  destruct (verify_agent_run agent_id st) as (r & st' & -> & Hfacts).
  exact Hfacts.
Qed.

(** ** Validation and construction at the edges *)

(** X18.  [_validate_agent_config] returns [True] exactly when [name],
    [welcome_message] and [call_type] are all present with a true value;
    otherwise it raises a [ValueError] that names the first of the three, in
    that order, that is missing or empty.  It never returns [False]. *)
Theorem validate_agent_config_first_missing (config : gmap pystr value) :
  _validate_agent_config config
  = match List.find (λ field, negb (truthy (default VNone (config !! field))))
            [py "name"; py "welcome_message"; py "call_type"] with
    | None => Ok true
    | Some field =>
        Raise (Exn ValueError
                 (py "Agent configuration missing required field: " ++ field))
    end.
Proof.
  unfold _validate_agent_config.
  generalize [py "name"; py "welcome_message"; py "call_type"].
  intros fields. induction fields as [|field rest IH]; [reflexivity|].
  cbn [check_required_fields List.find].
  by destruct (negb (truthy (default VNone (config !! field)))).
Qed.

(** X19.  Phone validation of a value that is not a string: every empty
    value ([None], [0], [False], an empty list or mapping) is simply
    invalid, while any other non-string (a number, say) makes
    [_validate_phone_number] raise an [AttributeError] instead of
    answering. *)
Theorem validate_phone_number_not_a_string (E : Env) (phone : value) :
  (∀ s, phone ≠ VStr s) →
  if truthy phone
  then ∃ e, _validate_phone_number E phone = Raise e
            ∧ exn_kind_of e = AttributeError
  else _validate_phone_number E phone = Ok false.
Proof.
  intros Hstr. unfold _validate_phone_number.
  destruct (truthy phone) eqn:Htrue; cbn [negb]; [|reflexivity].
  destruct phone; try (eexists; split; reflexivity). by destruct (Hstr s).
Qed.

Lemma validate_phone_number_not_a_string_witness :
  ∃ e, _validate_phone_number no_library (VInt 9876543210) = Raise e
       ∧ exn_kind_of e = AttributeError.
Proof.
  apply (validate_phone_number_not_a_string no_library (VInt 9876543210)).
  discriminate.
Defined.

(** X20.  How the constructor resolves the credential.  A parameter with a
    true value wins over the environment: the service is built with it,
    provided the client library, when installed, makes a client for it.
    With an empty parameter ([None] or [""]) the service is built, under
    the same proviso, with the non-empty value of the environment
    variable.  With neither, construction raises a [ValueError]. *)
Theorem init_credential_resolution (E : Env) (arg : value)
    (environ : gmap pystr pystr) :
  (truthy arg = true →
   client_accepts E arg →
   ∃ s, __init__ E (Some arg) environ = Ok s ∧ api_key s = arg)
  ∧ (truthy arg = false →
     ∀ k, environ !! py "OMNIDIMENSION_API_KEY" = Some k →
          k ≠ [] →
          client_accepts E (VStr k) →
          ∃ s, __init__ E (Some arg) environ = Ok s ∧ api_key s = VStr k)
  ∧ (truthy arg = false →
     truthy (getenv environ (py "OMNIDIMENSION_API_KEY")) = false →
     ∃ msg, __init__ E (Some arg) environ = Raise (Exn ValueError msg)).
Proof.
  split; [|split].
  - intros Harg Hclient. unfold __init__, py_or. rewrite Harg, Harg.
    cbn [negb]. unfold client_accepts in Hclient.
    destruct (Client E) as [make_client|]; [rewrite Hclient|];
      by eexists.
  - intros Harg k Hk Hfull Hclient. unfold __init__, py_or, getenv.
    rewrite Harg, Hk. rewrite truthy_VStr by exact Hfull. cbn [negb].
    unfold client_accepts in Hclient.
    destruct (Client E) as [make_client|]; [rewrite Hclient|];
      by eexists.
  - apply init_needs_credential.
Qed.

Lemma init_credential_resolution_witness :
  let environ : gmap pystr pystr :=
    {[ py "OMNIDIMENSION_API_KEY" := py "sk-from-env" ]} in
  (∃ s, __init__ provider_down (Some (VStr (py "sk-explicit"))) environ = Ok s
        ∧ api_key s = VStr (py "sk-explicit"))
  ∧ (∃ s, __init__ no_library (Some VNone) environ = Ok s
          ∧ api_key s = VStr (py "sk-from-env"))
  ∧ ∃ msg, __init__ no_library (Some VNone) ∅ = Raise (Exn ValueError msg).
Proof.
  split; [|split].
  - exact (proj1 (init_credential_resolution provider_down
                    (VStr (py "sk-explicit")) _) eq_refl eq_refl).
  - refine (proj1 (proj2 (init_credential_resolution no_library VNone
                            {[ py "OMNIDIMENSION_API_KEY" := py "sk-from-env" ]}))
              eq_refl (py "sk-from-env") _ _ I).
    + reflexivity.
    + discriminate.
  - exact (proj2 (proj2 (init_credential_resolution no_library VNone ∅))
             eq_refl eq_refl).
Defined.

(** X21.  Every service the constructor returns starts with an empty agent
    cache and an empty call history, three attempts and a base delay of two
    seconds, is in mock mode exactly when it has no client, and has a
    fallback test number that passes phone validation. *)
Theorem init_starting_state (E : Env) (arg : option value)
    (environ : gmap pystr pystr) (s : service) :
  __init__ E arg environ = Ok s →
  agents_cache s = ∅ ∧ call_history s = []
  ∧ max_retries s = 3 ∧ retry_delay s = 2
  ∧ mock_mode s = negb (client s)
  ∧ (client s = true ↔ is_Some (Client E))
  ∧ _validate_phone_number E (VStr (test_phone s)) = Ok true.
Proof.
  unfold __init__. destruct (truthy (py_or _ _)); cbn [negb]; [|discriminate].
  destruct (Client E) as [make_client|].
  - destruct (make_client _); [|discriminate]. intros [= <-].
    repeat split; first [done|by eexists].
  - intros [= <-]. repeat split; first [done|by intros [? ?]].
Qed.

Lemma init_starting_state_witness :
  let s := sample_service true in
  let s0 :=
    {| api_key := VStr default_api_key; client := false; mock_mode := true;
       test_phone := test_phone s; agents_cache := ∅; call_history := [];
       max_retries := 3; retry_delay := 2 |} in
  agents_cache s0 = ∅ ∧ call_history s0 = []
  ∧ max_retries s0 = 3 ∧ retry_delay s0 = 2
  ∧ mock_mode s0 = negb (client s0)
  ∧ (client s0 = true ↔ is_Some (Client no_library))
  ∧ _validate_phone_number no_library (VStr (test_phone s0)) = Ok true.
Proof.
  apply (init_starting_state no_library None ∅). reflexivity.
Defined.

(** X22.  [get_call_logs] in mock mode with an unusual [page_size]: a
    negative size [-k] yields the history without its first [k] records
    (the slice is then [call_history[k:]]), and a size that is not an
    integer raises a [TypeError]; in both cases nothing changes. *)
Theorem get_call_logs_mock_unusual_size (E : Env)
    (agent_id page page_size : value) (st : state E) :
  mock_mode (self st) = true →
  match as_index page_size with
  | Ok n =>
      n < 0 →
      get_call_logs agent_id page page_size st
      = (Ok (call_logs_page (drop (Z.to_nat (- n)) (call_history (self st)))
               page page_size (length (call_history (self st)))), st)
  | Raise e =>
      get_call_logs agent_id page page_size st = (Raise e, st)
      ∧ exn_kind_of e = TypeError
  end.
Proof.
  intros Hmock. unfold get_call_logs. rewrite run_bind_get_self, Hmock.
  destruct (as_index page_size) as [n|e] eqn:Hsize.
  - intros Hn. rewrite run_bind_lift. unfold ret, call_logs_page.
    do 5 f_equal. unfold slice_from.
    destruct (Z.ltb_spec (- n) 0); [lia|].
    destruct (Z.le_gt_cases (- n) (Z.of_nat (length (call_history (self st))))).
    + by rewrite Z.min_l.
    + rewrite Z.min_r by lia. by rewrite !drop_ge by lia.
  - split; [reflexivity|].
    destruct page_size; try discriminate; by injection Hsize as <-.
Qed.

Lemma get_call_logs_mock_unusual_size_witness :
  match as_index (VInt (-1)) with
  | Ok n =>
      n < 0 →
      get_call_logs VNone (VInt 1) (VInt (-1)) (busy_state no_library 0)
      = (Ok (call_logs_page
               (drop (Z.to_nat (- n))
                  (call_history (self (busy_state no_library 0))))
               (VInt 1) (VInt (-1))
               (length (call_history (self (busy_state no_library 0))))),
         busy_state no_library 0)
  | Raise e =>
      get_call_logs VNone (VInt 1) (VInt (-1)) (busy_state no_library 0)
      = (Raise e, busy_state no_library 0)
      ∧ exn_kind_of e = TypeError
  end.
Proof.
  apply (get_call_logs_mock_unusual_size no_library VNone (VInt 1) (VInt (-1))
           (busy_state no_library 0)).
  reflexivity.
Defined.

Example get_call_logs_negative_page_size :
  fst (get_call_logs VNone (VInt 1) (VInt (-1)) (busy_state no_library 0))
  = Ok (call_logs_page (drop 1 three_calls) (VInt 1) (VInt (-1)) 3).
Proof. reflexivity. Qed.

(** ** Agent creation against the provider *)

Lemma create_is_register {E : Env} (restaurant_name : value)
    (dci : gmap pystr value) (st : state E) :
  truthy restaurant_name = true →
  create_restaurant_agent restaurant_name (VDict dci) st
  = register_agent restaurant_name
      (agent_config E restaurant_name
         (default (VStr (py "Customer")) (dci !! py "name"))
         (default (VStr (py "customer@example.com")) (dci !! py "email"))) st.
Proof.
  intros Hname. unfold create_restaurant_agent. rewrite Hname. cbn [negb].
  rewrite dict_get_VDict, run_bind_lift. cbv beta.
  rewrite dict_get_VDict, run_bind_lift. cbv beta zeta.
  rewrite agent_config_valid, run_bind_lift. reflexivity.
Qed.

(** X23.  In real mode, once the create call (retries included) has
    returned a response that normalizes to a mapping, and provided standard
    output can encode the restaurant name and what is printed next (the
    identifier, or the response quoted in the error), the agent identifier
    is the value under [id]: when it is true and hashable, that value and
    the whole mapping are returned and cached; when it is missing or empty,
    a [ValueError] quoting the response is raised; and when it is not
    hashable, the cache assignment raises a [TypeError].  In the last two
    cases the cache is as it was. *)
Theorem create_agent_takes_provider_id (E : Env) (restaurant_name : value)
    (customer_info d : gmap pystr value) (response : value)
    (st st2 : state E) :
  truthy restaurant_name = true →
  mock_mode (self st) = false →
  client (self st) = true →
  _retry_api_call
    (invoke agent_create []
       (agent_config E restaurant_name
          (default (VStr (py "Customer")) (customer_info !! py "name"))
          (default (VStr (py "customer@example.com"))
             (customer_info !! py "email")))) st
  = (Ok response, st2) →
  _handle_response response = VDict d →
  let agent_id := default VNone (d !! py "id") in
  all_printable E
    [restaurant_name; if truthy agent_id then agent_id else VDict d] = true →
  let run := create_restaurant_agent restaurant_name (VDict customer_info) st in
  if truthy agent_id
  then match hash_key agent_id with
       | Some k =>
           run = (Ok (agent_id, VDict d),
                  {| self := with_agents_cache (self st2)
                               (<[k := VDict d]> (agents_cache (self st2)));
                     world := world st2; trace := trace st2 |})
       | None =>
           ∃ e, run = (Raise e, st2) ∧ exn_kind_of e = TypeError
       end
  else run = (Raise (Exn ValueError
                (py "Agent creation failed - no ID returned. Response: "
                 ++ str E (VDict d))), st2).
Proof.
  intros Hname Hmock Hclient Hretry Hnormal agent_id Hlog run.
  apply all_printable_cons in Hlog as [Hname_print Hlog].
  apply all_printable_cons in Hlog as [Hnext_print _].
  unfold run. rewrite (create_is_register _ _ _ Hname).
  unfold register_agent. rewrite run_bind_get_self, Hmock.
  destruct (truthy agent_id) eqn:Hid.
  - erewrite run_bind; cycle 1.
    { apply run_try_Ok.
      rewrite run_bind_print by solve_printable.
      rewrite (run_bind _ _ _ _ _ (run_client_attr _ st Hclient)).
      rewrite (run_bind _ _ _ _ _ Hretry).
      rewrite Hnormal, dict_get_VDict, run_bind_lift. fold agent_id.
      rewrite Hid. cbn [negb].
      rewrite run_bind_print by solve_printable.
      reflexivity. }
    cbv beta iota. unfold cache_agent.
    destruct (hash_key agent_id) as [k|]; [reflexivity|].
    eexists. split; reflexivity.
  - erewrite run_bind_raise; [reflexivity|].
    erewrite run_try_Raise; cycle 1.
    { rewrite run_bind_print by solve_printable.
      rewrite (run_bind _ _ _ _ _ (run_client_attr _ st Hclient)).
      rewrite (run_bind _ _ _ _ _ Hretry).
      rewrite Hnormal, dict_get_VDict, run_bind_lift. fold agent_id.
      rewrite Hid. reflexivity. }
    rewrite run_bind_print by solve_printable.
    reflexivity.
Qed.

Lemma create_agent_takes_provider_id_witness :
  let st := sample_state empty_id_provider false 0 in
  let customer : gmap pystr value :=
    list_to_map [(py "name", VStr (py "Ayush Kumar"))] in
  let d : gmap pystr value := list_to_map [(py "id", VStr (py "agent-4"))] in
  let st2 :=
    snd (_retry_api_call
           (invoke agent_create []
              (agent_config empty_id_provider spice_garden
                 (default (VStr (py "Customer")) (customer !! py "name"))
                 (default (VStr (py "customer@example.com"))
                    (customer !! py "email")))) st) in
  let agent_id := default VNone (d !! py "id") in
  let run := create_restaurant_agent spice_garden (VDict customer) st in
  if truthy agent_id
  then match hash_key agent_id with
       | Some k =>
           run = (Ok (agent_id, VDict d),
                  {| self := with_agents_cache (self st2)
                               (<[k := VDict d]> (agents_cache (self st2)));
                     world := world st2; trace := trace st2 |})
       | None => ∃ e, run = (Raise e, st2) ∧ exn_kind_of e = TypeError
       end
  else run = (Raise (Exn ValueError
                (py "Agent creation failed - no ID returned. Response: "
                 ++ str empty_id_provider (VDict d))), st2).
Proof.
  apply (create_agent_takes_provider_id empty_id_provider spice_garden
           (list_to_map [(py "name", VStr (py "Ayush Kumar"))])
           (list_to_map [(py "id", VStr (py "agent-4"))])
           (VDict (list_to_map [(py "id", VStr (py "agent-4"))]))
           (sample_state empty_id_provider false 0)); reflexivity.
Defined.

(** ** A reservation while the provider is down *)

Lemma retry_all_fail {E : Env} (m : api_method) (args : list value)
    (kwargs : gmap pystr value) (st : state E) :
  (∀ w, ∃ e, fst (api E m args kwargs w) = Raise e) →
  (∀ w e, fst (api E m args kwargs w) = Raise e →
          printable E (exn_str e) = true) →
  1 ≤ max_retries (self st) →
  0 ≤ retry_delay (self st) →
  ∃ failures e st',
    _retry_api_call (invoke m args kwargs) st = (Raise e, st')
    ∧ self st' = self st
    ∧ last failures = Some e
    ∧ Z.of_nat (length failures) = max_retries (self st)
    ∧ trace st'
      = trace st ++ failed_attempts m args kwargs (retry_delay (self st)) 0
                      failures
    ∧ printable E (exn_str e) = true.
Proof.
  intros Hfail Hprint Hn Hd.
  destruct (retry_loop_all_fail E m args kwargs Hfail Hprint
              (Z.to_nat (max_retries (self st))) 0 None st)
    as (failures & st' & Hrun & Hlen & Hself & Htrace & Hprinted); [lia|done|].
  destruct (last failures) as [e|] eqn:Hlast.
  - exists failures, e, st'. repeat split; try done; [lia|].
    rewrite Forall_forall in Hprinted. apply Hprinted.
    apply last_Some in Hlast as [l' ->]. set_solver.
  - apply last_None in Hlast. subst failures. cbn in Hlen. lia.
Qed.

(** X24.  In real mode, when every create call fails, with a message that
    standard output can encode, a reservation whose inputs pass the guards
    and whose restaurant name can be printed is answered, not raised: the
    answer is tagged as a failure and carries the message of the last
    provider exception.  The provider has then seen [max_retries] create
    attempts with their waits and nothing else: no call is dispatched, no
    agent is cached and no call is recorded. *)
Theorem reservation_fails_when_provider_is_down (E : Env)
    (dri dci : gmap pystr value) (reservation_details : value)
    (st : state E) :
  mock_mode (self st) = false →
  client (self st) = true →
  1 ≤ max_retries (self st) →
  0 ≤ retry_delay (self st) →
  lacks_name (VDict dri) = Ok false →
  lacks_name (VDict dci) = Ok false →
  truthy reservation_details = true →
  (truthy (default VNone (dri !! py "phone")) = true →
   _validate_phone_number E (default VNone (dri !! py "phone")) = Ok true) →
  (∀ kwargs w, ∃ e, fst (api E agent_create [] kwargs w) = Raise e) →
  (∀ kwargs w e, fst (api E agent_create [] kwargs w) = Raise e →
                 printable E (exn_str e) = true) →
  printable E (str E (default VNone (dri !! py "name"))) = true →
  let run :=
    make_restaurant_reservation (VDict dri) reservation_details (VDict dci)
      st in
  ∃ config failures e,
    result_field (fst run) (py "success") = Some (VBool false)
    ∧ result_field (fst run) (py "error") = Some (VStr (exn_str e))
    ∧ last failures = Some e
    ∧ Z.of_nat (length failures) = max_retries (self st)
    ∧ trace (snd run)
      = trace st ++ failed_attempts agent_create [] config
                      (retry_delay (self st)) 0 failures
    ∧ self (snd run) = self st.
Proof.
  intros Hmock Hclient Hn Hd Hri Hci Hrd Hphone Hdown Hmessages Hname_print
    run.
  apply lacks_name_false in Hri as Hri'.
  destruct Hri' as (dri' & name & [= <-] & Hname & Htrue).
  rewrite Hname in Hname_print. cbn [default] in Hname_print.
  set (phone := default VNone (dri !! py "phone")) in *.
  set (config :=
         agent_config E name
           (default (VStr (py "Customer")) (dci !! py "name"))
           (default (VStr (py "customer@example.com")) (dci !! py "email"))).
  destruct (retry_all_fail agent_create [] config st (Hdown config)
              (Hmessages config) Hn Hd)
    as (failures & e & st1 & Hretry & Hself & Hlast & Hlen & Htrace
        & Hmessage).
  assert (reservation_steps (VDict dri) reservation_details (VDict dci) phone
            st = (Raise e, st1)) as Hsteps.
  { unfold reservation_steps.
    rewrite (getitem_VDict _ _ _ Hname), run_bind_lift.
    apply run_bind_raise. rewrite (create_is_register _ _ _ Htrue).
    fold config. unfold register_agent.
    rewrite run_bind_get_self, Hmock. apply run_bind_raise.
    erewrite run_try_Raise; cycle 1.
    { rewrite run_bind_print by solve_printable.
      rewrite (run_bind _ _ _ _ _ (run_client_attr _ st Hclient)).
      by apply run_bind_raise. }
    rewrite run_bind_print by solve_printable.
    reflexivity. }
  destruct (datetime_now E (world st1)) as [t w] eqn:Hclock.
  assert (run
          = (Ok (VDict (list_to_map [
                   (py "success", VBool false);
                   (py "error", VStr (exn_str e));
                   (py "timestamp",
                    VStr (strftime E (py "%Y-%m-%d %H:%M:%S") t));
                   (py "restaurant", name);
                   (py "customer", default VNone (dci !! py "name"));
                   (py "reservation", reservation_details)])),
             {| self := self st1; world := w; trace := trace st1 |})) as ->.
  { unfold run, make_restaurant_reservation.
    rewrite Hri, run_bind_lift. cbv beta iota.
    rewrite Hci, run_bind_lift. cbv beta iota.
    rewrite Hrd. cbn [negb].
    rewrite dict_get_VDict, run_bind_lift. cbv beta. fold phone.
    assert ((if truthy phone then lift (_validate_phone_number E phone)
             else ret true) st = (Ok true, st)) as Hguard.
    { destruct (truthy phone) eqn:Hgiven; [|reflexivity].
      unfold lift. by rewrite Hphone. }
    rewrite (run_bind _ _ _ _ _ Hguard). cbn [negb].
    rewrite (getitem_VDict _ _ _ Hname), run_bind_lift.
    rewrite run_bind_print by solve_printable.
    unfold try_except. rewrite Hsteps. unfold reservation_failed.
    rewrite run_bind_print by solve_printable.
    rewrite (run_bind _ _ _ _ _ (run__now st1 t w Hclock)). cbv beta.
    rewrite (getitem_VDict _ _ _ Hname), run_bind_lift. cbv beta.
    rewrite dict_get_VDict, run_bind_lift. reflexivity. }
  exists config, failures, e. cbn [fst snd self trace result_field].
  split; [reflexivity|]. split; [reflexivity|]. by repeat split.
Qed.

Lemma reservation_fails_when_provider_is_down_witness :
  let dri : gmap pystr value :=
    list_to_map [(py "name", spice_garden);
                 (py "phone", VStr (py "+919876543210"))] in
  let dci : gmap pystr value :=
    list_to_map [(py "name", VStr (py "Ayush Kumar"))] in
  let st := sample_state provider_down false 0 in
  let run := make_restaurant_reservation (VDict dri) dinner_for_four
               (VDict dci) st in
  ∃ config failures e,
    result_field (fst run) (py "success") = Some (VBool false)
    ∧ result_field (fst run) (py "error") = Some (VStr (exn_str e))
    ∧ last failures = Some e
    ∧ Z.of_nat (length failures) = max_retries (self st)
    ∧ trace (snd run)
      = trace st ++ failed_attempts agent_create [] config
                      (retry_delay (self st)) 0 failures
    ∧ self (snd run) = self st.
Proof.
  apply (reservation_fails_when_provider_is_down provider_down
           (list_to_map [(py "name", spice_garden);
                         (py "phone", VStr (py "+919876543210"))])
           (list_to_map [(py "name", VStr (py "Ayush Kumar"))])
           dinner_for_four (sample_state provider_down false 0));
    try reflexivity; try (cbn; lia).
  - intros kwargs w. eexists. reflexivity.
  - intros kwargs w e [= <-]. reflexivity.
Defined.

(** ** What a failed reservation leaves behind *)

(** X25.  A failed reservation is not rolled back.  In mock mode, when the
    inputs pass the guards and the restaurant name can be printed, but the
    reservation details are not a mapping (a non-empty list, say), the
    agent is created and cached first and the failure comes afterwards:
    the answer is tagged as a failure and carries the message of the
    [AttributeError] that the look-up of [date] raises, the new agent
    stays in the cache, and no call is recorded. *)
Theorem failed_reservation_keeps_agent (E : Env)
    (dri dci : gmap pystr value) (reservation_details : value)
    (st : state E) :
  mock_mode (self st) = true →
  lacks_name (VDict dri) = Ok false →
  lacks_name (VDict dci) = Ok false →
  truthy reservation_details = true →
  (∀ d, reservation_details ≠ VDict d) →
  (truthy (default VNone (dri !! py "phone")) = true →
   _validate_phone_number E (default VNone (dri !! py "phone")) = Ok true) →
  printable E (str E (default VNone (dri !! py "name"))) = true →
  let mock_id :=
    py "mock_agent_" ++ repr E (VInt (fst (time_time E (world st)))) in
  let run :=
    make_restaurant_reservation (VDict dri) reservation_details (VDict dci)
      st in
  result_field (fst run) (py "success") = Some (VBool false)
  ∧ dict_get reservation_details (py "date") VNone
    = Raise (Exn AttributeError
        (py "'" ++ type_name reservation_details
         ++ py "' object has no attribute 'get'"))
  ∧ result_field (fst run) (py "error")
    = Some (VStr (py "'" ++ type_name reservation_details
                  ++ py "' object has no attribute 'get'"))
  ∧ (∃ agent_data,
       agents_cache (self (snd run))
       = <[KStr mock_id := agent_data]> (agents_cache (self st)))
  ∧ call_history (self (snd run)) = call_history (self st)
  ∧ trace (snd run) = trace st.
Proof.
  intros Hmock Hri Hci Hrd Hshape Hphone Hname_print mock_id run.
  apply lacks_name_false in Hri as Hri'.
  destruct Hri' as (dri' & name & [= <-] & Hname & Htrue).
  rewrite Hname in Hname_print. cbn [default] in Hname_print.
  set (phone := default VNone (dri !! py "phone")) in *.
  destruct (time_time E (world st)) as [t1 w1] eqn:Hclock1.
  pose proof (create_in_mock_mode name dci st t1 w1 Hmock Htrue Hclock1)
    as Hcreate. cbn zeta in Hcreate.
  cbn [fst] in mock_id. fold mock_id in Hcreate.
  set (agent_data := VDict (list_to_map
         [(py "id", VStr mock_id);
          (py "name",
           VStr (str E name ++ py " - Booking Assistant for "
                 ++ str E (default (VStr (py "Customer")) (dci !! py "name"))))]))
    in *.
  set (st1 := {| self := with_agents_cache (self st)
                   (<[KStr mock_id := agent_data]> (agents_cache (self st)));
                 world := w1; trace := trace st |}) in *.
  set (e := Exn AttributeError
              (py "'" ++ type_name reservation_details
               ++ py "' object has no attribute 'get'")).
  assert (dict_get reservation_details (py "date") VNone = Raise e) as Hget.
  { destruct reservation_details; try reflexivity. by destruct (Hshape d). }
  assert (printable E (exn_str e) = true) as Hmessage
    by (by destruct reservation_details).
  assert (reservation_steps (VDict dri) reservation_details (VDict dci) phone
            st = (Raise e, st1)) as Hsteps.
  { unfold reservation_steps.
    rewrite (getitem_VDict _ _ _ Hname), run_bind_lift.
    rewrite (run_bind _ _ _ _ _ Hcreate). cbv beta iota.
    apply run_bind_raise. unfold lift. by rewrite Hget. }
  destruct (datetime_now E (world st1)) as [t w] eqn:Hclock.
  assert (run
          = (Ok (VDict (list_to_map [
                   (py "success", VBool false);
                   (py "error", VStr (exn_str e));
                   (py "timestamp",
                    VStr (strftime E (py "%Y-%m-%d %H:%M:%S") t));
                   (py "restaurant", name);
                   (py "customer", default VNone (dci !! py "name"));
                   (py "reservation", reservation_details)])),
             {| self := self st1; world := w; trace := trace st1 |})) as ->.
  { unfold run, make_restaurant_reservation.
    rewrite Hri, run_bind_lift. cbv beta iota.
    rewrite Hci, run_bind_lift. cbv beta iota.
    rewrite Hrd. cbn [negb].
    rewrite dict_get_VDict, run_bind_lift. cbv beta. fold phone.
    assert ((if truthy phone then lift (_validate_phone_number E phone)
             else ret true) st = (Ok true, st)) as Hguard.
    { destruct (truthy phone) eqn:Hgiven; [|reflexivity].
      unfold lift. by rewrite Hphone. }
    rewrite (run_bind _ _ _ _ _ Hguard). cbn [negb].
    rewrite (getitem_VDict _ _ _ Hname), run_bind_lift.
    rewrite run_bind_print by solve_printable.
    unfold try_except. rewrite Hsteps. unfold reservation_failed.
    rewrite run_bind_print by solve_printable.
    rewrite (run_bind _ _ _ _ _ (run__now st1 t w Hclock)). cbv beta.
    rewrite (getitem_VDict _ _ _ Hname), run_bind_lift. cbv beta.
    rewrite dict_get_VDict, run_bind_lift. reflexivity. }
  cbn [fst snd self trace result_field].
  split; [reflexivity|]. split; [exact Hget|]. split; [reflexivity|].
  split; [by exists agent_data|]. by split.
Qed.

Lemma failed_reservation_keeps_agent_witness :
  let dri : gmap pystr value := list_to_map [(py "name", spice_garden)] in
  let dci : gmap pystr value :=
    list_to_map [(py "name", VStr (py "Ayush Kumar"))] in
  let st := sample_state no_library true 100 in
  let mock_id :=
    py "mock_agent_"
    ++ repr no_library (VInt (fst (time_time no_library (world st)))) in
  let run :=
    make_restaurant_reservation (VDict dri) (VList [VInt 4]) (VDict dci) st in
  result_field (fst run) (py "success") = Some (VBool false)
  ∧ dict_get (VList [VInt 4]) (py "date") VNone
    = Raise (Exn AttributeError
        (py "'" ++ type_name (VList [VInt 4])
         ++ py "' object has no attribute 'get'"))
  ∧ result_field (fst run) (py "error")
    = Some (VStr (py "'" ++ type_name (VList [VInt 4])
                  ++ py "' object has no attribute 'get'"))
  ∧ (∃ agent_data,
       agents_cache (self (snd run))
       = <[KStr mock_id := agent_data]> (agents_cache (self st)))
  ∧ call_history (self (snd run)) = call_history (self st)
  ∧ trace (snd run) = trace st.
Proof.
  apply (failed_reservation_keeps_agent no_library
           (list_to_map [(py "name", spice_garden)])
           (list_to_map [(py "name", VStr (py "Ayush Kumar"))])
           (VList [VInt 4]) (sample_state no_library true 100));
    try reflexivity.
  - discriminate.
  - discriminate.
Defined.

(** X26.  Mock identifiers are only as distinct as the clock: two agents
    created in mock mode while [time.time()] reads the same second get the
    same identifier, and the second creation replaces the first agent's
    cache entry, so that only the second agent's data can be read back. *)
Theorem mock_agents_collide_within_a_second (E : Env)
    (name1 name2 : value) (dci1 dci2 : gmap pystr value) (st : state E) :
  mock_mode (self st) = true →
  truthy name1 = true →
  truthy name2 = true →
  let run1 := create_restaurant_agent name1 (VDict dci1) st in
  let run2 := create_restaurant_agent name2 (VDict dci2) (snd run1) in
  fst (time_time E (world (snd run1))) = fst (time_time E (world st)) →
  ∃ agent_id data1 data2,
    fst run1 = Ok (agent_id, data1)
    ∧ fst run2 = Ok (agent_id, data2)
    ∧ get_agent_details agent_id (snd run2) = (Ok data2, snd run2)
    ∧ dom (agents_cache (self (snd run2)))
      = dom (agents_cache (self (snd run1))).
Proof.
  intros Hmock Hname1 Hname2 run1 run2.
  destruct (time_time E (world st)) as [t w1] eqn:Hclock1.
  pose proof (create_in_mock_mode name1 dci1 st t w1 Hmock Hname1 Hclock1)
    as Hrun1. cbn zeta in Hrun1. fold run1 in Hrun1.
  assert (world (snd run1) = w1) as Hworld by (by rewrite Hrun1).
  assert (mock_mode (self (snd run1)) = true) as Hmock1
    by (by rewrite Hrun1).
  rewrite Hworld. destruct (time_time E w1) as [t' w2] eqn:Hclock2.
  cbn [fst]. intros ->.
  rewrite <- Hworld in Hclock2.
  pose proof (create_in_mock_mode name2 dci2 (snd run1) t w2 Hmock1 Hname2
                Hclock2) as Hrun2. cbn zeta in Hrun2. fold run2 in Hrun2.
  eexists _, _, _. split; [by rewrite Hrun1|]. split; [by rewrite Hrun2|].
  split.
  - rewrite Hrun2. unfold get_agent_details. rewrite run_bind_get_self.
    cbn [snd self mock_mode with_agents_cache agents_cache hash_key].
    rewrite Hmock1, lookup_insert_eq. reflexivity.
  - rewrite Hrun2. cbn [snd self with_agents_cache agents_cache].
    rewrite dom_insert_L. rewrite Hrun1.
    cbn [snd self with_agents_cache agents_cache]. rewrite dom_insert_L.
    by rewrite (assoc_L (∪)), (idemp_L (∪)).
Qed.

Lemma mock_agents_collide_within_a_second_witness :
  let st := sample_state frozen_clock true 100 in
  let run1 :=
    create_restaurant_agent spice_garden (VDict ∅) st in
  let run2 :=
    create_restaurant_agent (VStr (py "Curry Leaf")) (VDict ∅) (snd run1) in
  ∃ agent_id data1 data2,
    fst run1 = Ok (agent_id, data1)
    ∧ fst run2 = Ok (agent_id, data2)
    ∧ get_agent_details agent_id (snd run2) = (Ok data2, snd run2)
    ∧ dom (agents_cache (self (snd run2)))
      = dom (agents_cache (self (snd run1))).
Proof.
  apply (mock_agents_collide_within_a_second frozen_clock spice_garden
           (VStr (py "Curry Leaf")) ∅ ∅ (sample_state frozen_clock true 100));
    reflexivity.
Defined.
